(** * Laws_search_system: the document structurer, index builder and
      search engine of [find_law.py], embedded in Rocq.

    Python values are modelled as the code uses them:
    - [str] is a sequence of Unicode code points, [pystr := list Z];
      [len], slicing, [in], [find], [strip], [split] and [endswith] act on
      code points, as in CPython;
    - [int] is [Z];
    - a [dict] loaded from the JSON index is a [gmap string jvalue], so a
      missing key is a failed lookup;
    - the insertion-ordered [matched_articles] dict is an association list
      with unique keys;
    - the [while True] scan of [search] runs on fuel and reports [Diverged]
      when the fuel is used up. *)

From stdpp Require Import gmap strings list fin_maps sorting.

Local Open Scope Z_scope.

(** ** Python strings *)

Module PyStr.

Definition pystr := list Z.

(** An ASCII literal as a Python string. *)
Definition lit (s : string) : pystr :=
  map (fun a => Z.of_N (Ascii.N_of_ascii a)) (String.list_ascii_of_string s).

Definition len (s : pystr) : Z := Z.of_nat (length s).

(** [s.startswith(sub)] on the remaining text. *)
Fixpoint starts_with (sub s : pystr) : bool :=
  match sub, s with
  | [], _ => true
  | _ :: _, [] => false
  | a :: sub', b :: s' => (a =? b) && starts_with sub' s'
  end.

(** [sub in s] *)
Fixpoint str_in (sub s : pystr) : bool :=
  starts_with sub s ||
  match s with
  | [] => false
  | _ :: s' => str_in sub s'
  end.

(** Lowest offset [>= i] at which [sub] occurs, [s] being the text from
    offset [i] on. *)
Fixpoint find_from (sub s : pystr) (i : nat) : option nat :=
  if starts_with sub s then Some i
  else match s with
       | [] => None
       | _ :: s' => find_from sub s' (S i)
       end.

(** [s.find(sub, start)]: a negative [start] counts from the end, a
    [start] beyond the end finds nothing, and the answer is [-1] when
    there is no occurrence. *)
Definition find (s sub : pystr) (start : Z) : Z :=
  let st := if start <? 0 then Z.max 0 (start + len s) else start in
  if len s <? st then -1
  else match find_from sub (drop (Z.to_nat st) s) (Z.to_nat st) with
       | Some i => Z.of_nat i
       | None => -1
       end.

(** Slice bounds are clamped as CPython does. *)
Definition clamp_index (n i : Z) : Z :=
  if i <? 0 then Z.max 0 (i + n) else Z.min i n.

(** [s[lo:hi]], either bound possibly omitted. *)
Definition py_slice (s : pystr) (lo hi : option Z) : pystr :=
  let n := len s in
  let a := from_option (clamp_index n) 0 lo in
  let b := from_option (clamp_index n) n hi in
  take (Z.to_nat (b - a)) (drop (Z.to_nat a) s).

(** [str.isspace] on one code point: the Unicode white space that
    [strip()] removes. *)
Definition is_space (c : Z) : bool :=
  ((9 <=? c) && (c <=? 13)) || ((28 <=? c) && (c <=? 32)) ||
  (c =? 133) || (c =? 160) || (c =? 5760) ||
  ((8192 <=? c) && (c <=? 8202)) ||
  (c =? 8232) || (c =? 8233) || (c =? 8239) || (c =? 8287) || (c =? 12288).

Fixpoint lstrip (s : pystr) : pystr :=
  match s with
  | [] => []
  | c :: s' => if is_space c then lstrip s' else s
  end.

Definition rstrip (s : pystr) : pystr := rev (lstrip (rev s)).

(** [s.strip()] *)
Definition strip (s : pystr) : pystr := rstrip (lstrip s).

(** [s.split(sep)] for a one-character separator. *)
Fixpoint split (sep : Z) (s : pystr) : list pystr :=
  match s with
  | [] => [[]]
  | c :: s' =>
      if c =? sep then [] :: split sep s'
      else match split sep s' with
           | [] => [[c]]
           | l :: ls => (c :: l) :: ls
           end
  end.

(** [s.endswith(suffix)] *)
Definition endswith (s suffix : pystr) : bool :=
  starts_with (rev suffix) (rev s).

(** [str.lower] restricted to the code points whose mapping the examples
    below need: ASCII capitals, U+0130 (the only code point whose lower
    case is two code points long, U+0069 U+0307), and every caseless
    character (digits, punctuation, CJK ideographs), which is unchanged.
    The general theorems do not use it: they take the lower-casing
    function as a parameter. *)
Definition py_lower_cp (c : Z) : pystr :=
  if (65 <=? c) && (c <=? 90) then [c + 32]
  else if c =? 304 then [105; 775]
  else [c].

Definition py_lower (s : pystr) : pystr := flat_map py_lower_cp s.

End PyStr.

Import PyStr.

(** The glyphs the structurer and the label patterns look for. *)
Definition DI : Z := 31532.      (* U+7B2C, ordinal prefix *)
Definition TIAO : Z := 26465.    (* U+6761, article *)
Definition ZHANG : Z := 31456.   (* U+7AE0, chapter *)
Definition NEWLINE : Z := 10.
Definition SPACE : pystr := [32].
Definition UNDERSCORE : Z := 95.
(** The default title, U+672A U+77E5 U+6CD5 U+5F8B. *)
Definition UNKNOWN_LAW : pystr := [26410; 30693; 27861; 24459].

(** The character class of the label patterns: the numerals U+96F6,
    U+4E00, U+4E8C, U+4E09, U+56DB, U+4E94, U+516D, U+4E03, U+516B, U+4E5D,
    U+5341, U+767E and U+5343. *)
Definition is_numeral (c : Z) : bool :=
  bool_decide (c ∈ [38646; 19968; 20108; 19977; 22235; 20116; 20845;
                    19971; 20843; 20061; 21313; 30334; 21315]).

(** ** The index data model *)

Inductive unit_type := chapter | article.

(** One element of a document's ["content"] list. *)
Record item := Item {
  i_type : unit_type;
  i_content : pystr;
  i_page : Z
}.

(** The values stored under the keys of a document record, in the shapes
    [build_index] writes them. *)
Inductive jvalue :=
  | JStr (s : pystr)
  | JInt (n : Z)
  | JContent (l : list item).

(** A document record: the dict [extract_pdf_content] returns and
    [json.load] gives back. *)
Abbreviation law := (gmap string jvalue).

Definition set_content (f : pystr -> pystr) (it : item) : item :=
  Item (i_type it) (f (i_content it)) (i_page it).

(** ** Document structurer: [extract_pdf_content] *)

(** The loop state of the structurer. [current_article] is a reference to
    an element of [articles] (its position), or [None]: appending to the
    current article updates the list element it aliases. *)
Record parse_state := ParseState {
  articles : list item;
  current_article : option nat
}.

Definition init_state : parse_state := ParseState [] None.

(** The body of [for line in lines], [page] being [page_num + 1]. *)
Definition process_line (page : Z) (st : parse_state) (raw : pystr) : parse_state :=
  let line := strip raw in
  if str_in [DI] line && str_in [ZHANG] line then
    ParseState (articles st ++ [Item chapter line page]) None
  else if str_in [DI] line && str_in [TIAO] line then
    ParseState (articles st ++ [Item article (line ++ SPACE) page])
               (Some (length (articles st)))
  else
    match current_article st, line with
    | Some i, _ :: _ =>
        ParseState (alter (set_content (fun c => c ++ line ++ SPACE)) i (articles st))
                   (Some i)
    | _, _ => st
    end.

(** The body of [for page_num, page in enumerate(doc)]. *)
Definition process_page (st : parse_state) (page_num : Z) (text : pystr) : parse_state :=
  match strip text with
  | [] => st
  | _ :: _ => fold_left (process_line (page_num + 1)) (split NEWLINE text) st
  end.

Fixpoint process_pages (st : parse_state) (page_num : Z) (pages : list pystr) : parse_state :=
  match pages with
  | [] => st
  | text :: rest => process_pages (process_page st page_num text) (page_num + 1) rest
  end.

(** What the page text source gives for one path: an error raised while
    the file is opened or read, or the page texts together with the
    file's modification date, already formatted. *)
Inductive source :=
  | ExtractionError
  | Opened (pages : list pystr) (last_modified : pystr).

(** Position of the last occurrence of [c], as [str.rfind]. *)
Fixpoint rfind_char (c : Z) (s : pystr) : option nat :=
  match s with
  | [] => None
  | b :: s' =>
      match rfind_char c s' with
      | Some i => Some (S i)
      | None => if b =? c then Some 0%nat else None
      end
  end.

(** First component of [os.path.splitext] on a bare file name: the
    extension starts at the last dot, unless only dots precede it. *)
Definition splitext_root (p : pystr) : pystr :=
  match rfind_char 46 p with
  | Some d => if forallb (Z.eqb 46) (take d p) then p else take d p
  | None => p
  end.

(** [extract_pdf_content]. [filename] is a directory entry, so
    [os.path.basename] of the joined path is [filename] itself; [now_year]
    is [datetime.now().year]. Any exception inside the [try] gives [None]. *)
Definition extract_pdf_content (now_year : Z) (filename : pystr) (src : source)
  : option law :=
  match src with
  | ExtractionError => None
  | Opened pages last_modified =>
      match articles (process_pages init_state 0 pages) with
      | [] => None
      | arts =>
          let parts := split UNDERSCORE (splitext_root filename) in
          Some (<["title" := JStr (default UNKNOWN_LAW (parts !! 0%nat))]>
               (<["year" := match parts !! 1%nat with
                            | Some y => JStr y
                            | None => JInt now_year
                            end]>
               (<["filename" := JStr filename]>
               (<["content" := JContent arts]>
               (<["total_pages" := JInt (Z.of_nat (length pages))]>
               (<["last_modified" := JStr last_modified]> ∅))))))
      end
  end.

(** ** Label extraction: [extract_article_title] *)

(** Longest run of numerals at the head of [s], and the rest. *)
Fixpoint numeral_run (s : pystr) : pystr * pystr :=
  match s with
  | c :: s' =>
      if is_numeral c then let '(run, rest) := numeral_run s' in (c :: run, rest)
      else ([], s)
  | [] => ([], [])
  end.

(** A match of the pattern "U+7B2C, one or more numerals, [closing]"
    anchored at the head of [s]. The closing glyph is not a numeral, so the
    greedy repetition never has to give a character back. *)
Definition match_here (closing : Z) (s : pystr) : option pystr :=
  match s with
  | c :: s' =>
      if c =? DI then
        match numeral_run s' with
        | (n :: run, d :: _) =>
            if d =? closing then Some (c :: n :: run ++ [d]) else None
        | _ => None
        end
      else None
  | [] => None
  end.

(** [re.search] for that pattern: the leftmost match, [match.group(0)]. *)
Fixpoint re_search (closing : Z) (s : pystr) : option pystr :=
  match match_here closing s with
  | Some m => Some m
  | None => match s with
            | [] => None
            | _ :: s' => re_search closing s'
            end
  end.

Definition extract_article_title (content : pystr) : pystr :=
  match re_search TIAO content with
  | Some m => m
  | None =>
      match re_search ZHANG content with
      | Some m => m
      | None =>
          if 30 <? len content then py_slice content None (Some 30) ++ lit "..."
          else content
      end
  end.

(** ** Sorting and highlighting *)

(** [sorted(l, key=key, reverse=True)]. Python's sort is stable, also with
    [reverse=True]: elements with equal keys keep their order. The output
    of a stable sort is determined by its input, so insertion stands for
    the algorithm CPython runs. *)
Section Sorted.
Context {A : Type} (key : A -> Z).

Fixpoint insert_desc (x : A) (l : list A) : list A :=
  match l with
  | [] => [x]
  | y :: l' => if key y <=? key x then x :: l else y :: insert_desc x l'
  end.

Definition sorted_desc (l : list A) : list A := foldr insert_desc [] l.
End Sorted.

Record span := Span { m_start : Z; m_end : Z }.

Definition HL_OPEN : pystr := lit "<span class=" ++ [34] ++ lit "highlight" ++ [34] ++ lit ">".
Definition HL_CLOSE : pystr := lit "</span>".

(** The body of [for match in matches_sorted]. *)
Definition highlight_one (highlighted_text : pystr) (m : span) : pystr :=
  py_slice highlighted_text None (Some (m_start m)) ++
  HL_OPEN ++ py_slice highlighted_text (Some (m_start m)) (Some (m_end m)) ++ HL_CLOSE ++
  py_slice highlighted_text (Some (m_end m)) None.

Definition highlight_all_keywords (text : pystr) (matches : list span) (keyword : pystr)
  : pystr :=
  fold_left highlight_one (sorted_desc m_start matches) text.

(** ** Outcomes of a call *)

Inductive exn := KeyError (key : string) | AttributeError | TypeError.

(** A call returns, raises, or is still running when the fuel is spent. *)
Inductive outcome (A : Type) :=
  | Returned (a : A)
  | Raised (e : exn)
  | Diverged.
Arguments Returned {A} a.
Arguments Raised {A} e.
Arguments Diverged {A}.

Definition bind {A B} (m : outcome A) (k : A -> outcome B) : outcome B :=
  match m with
  | Returned a => k a
  | Raised e => Raised e
  | Diverged => Diverged
  end.

Notation "'do' x <- m ; k" := (bind m (fun x => k))
  (at level 10, x name, m at level 100, k at level 200).

(** [d[k]] on a document record. *)
Definition getitem (d : law) (k : string) : outcome jvalue :=
  match d !! k with
  | Some v => Returned v
  | None => Raised (KeyError k)
  end.

(** ** Index builder and search engine *)

(** One entry of [matched_articles]. *)
Record entry := Entry {
  e_title : pystr;
  e_content : pystr;
  e_matches : list span
}.

(** [matched_articles]: a dict in insertion order, keyed by label. *)
Definition odict := list (pystr * entry).

Definition od_mem (k : pystr) (d : odict) : bool := bool_decide (k ∈ d.*1).

Fixpoint od_alter (f : entry -> entry) (k : pystr) (d : odict) : odict :=
  match d with
  | [] => []
  | (k', v) :: d' =>
      if decide (k' = k) then (k', f v) :: d' else (k', v) :: od_alter f k d'
  end.

Fixpoint od_get (k : pystr) (d : odict) : option entry :=
  match d with
  | [] => None
  | (k', v) :: d' => if decide (k' = k) then Some v else od_get k d'
  end.

(** [if k not in d: d[k] = v] *)
Definition od_init (k : pystr) (v : entry) (d : odict) : odict :=
  if od_mem k d then d else d ++ [(k, v)].

(** [d["matches"].append(m)] *)
Definition append_match (m : span) (e : entry) : entry :=
  Entry (e_title e) (e_content e) (e_matches e ++ [m]).

(** Several appends in a row. *)
Definition extend_matches (ms : list span) (e : entry) : entry :=
  Entry (e_title e) (e_content e) (e_matches e ++ ms).

Record matched_page := MatchedPage {
  mp_title : pystr;
  mp_snippet : pystr;
  mp_matched_term : pystr;
  mp_match_count : Z
}.

Record search_result := SearchResult {
  sr_title : jvalue;
  sr_year : jvalue;
  sr_filename : jvalue;
  sr_total_pages : jvalue;
  sr_matched_pages : list matched_page;
  sr_total_matches : Z
}.

(** The persisted artifact. *)
Record index_artifact := IndexArtifact {
  index_date : pystr;
  total_count : Z;
  source_label : pystr;
  invalid_files : list pystr;
  laws : list law
}.

(** The source label, U+672C U+5730 U+6587 U+4EF6. *)
Definition LOCAL_FILES : pystr := [26412; 22320; 25991; 20214].

Section Engine.

(** [str.lower], any function on strings. *)
Variable lower : pystr -> pystr.

(** *** [build_index] *)

Definition accepted (filename : pystr) : bool :=
  endswith (lower filename) (lit ".pdf") || endswith (lower filename) (lit ".docx").

(** The body of [for filename in os.listdir(self.pdf_dir)] on the pair
    (index_data, invalid_files). *)
Definition build_step (now_year : Z) (acc : list law * list pystr)
  (file : pystr * source) : list law * list pystr :=
  let '(filename, src) := file in
  if accepted filename then
    match extract_pdf_content now_year filename src with
    | Some law_info => (acc.1 ++ [law_info], acc.2)
    | None => (acc.1, acc.2 ++ [filename])
    end
  else acc.

(** [build_index]: [dir] is the directory listing with what the page
    text source gives for each file, or [None] when the directory does
    not exist; [now] is the time stamp. The result is the returned list
    and the artifact written, if one is. *)
Definition build_index (now_year : Z) (now : pystr)
  (dir : option (list (pystr * source))) : list law * option index_artifact :=
  match dir with
  | None => ([], None)
  | Some files =>
      let '(index_data, invalid) := fold_left (build_step now_year) files ([], []) in
      (index_data,
       Some (IndexArtifact now (Z.of_nat (length index_data)) LOCAL_FILES invalid index_data))
  end.

(** *** [search] *)

(** The [while True] loop of [search], one iteration per unit of fuel:
    [start] is the loop variable, [matched_articles] the dict being
    filled. *)
Fixpoint scan_loop (fuel : nat) (keyword_lower text_lower article_title : pystr)
  (matched_articles : odict) (start : Z) : outcome odict :=
  match fuel with
  | O => Diverged
  | S fuel' =>
      let idx := find text_lower keyword_lower start in
      if idx =? -1 then Returned matched_articles
      else
        scan_loop fuel' keyword_lower text_lower article_title
          (od_alter (append_match (Span idx (idx + len keyword_lower)))
                    article_title matched_articles)
          (idx + len keyword_lower)
  end.

(** The body of [for item in law["content"]]. *)
Definition group_unit (fuel : nat) (keyword_lower : pystr)
  (matched_articles : odict) (it : item) : outcome odict :=
  let content := i_content it in
  let text_lower := lower content in
  if str_in keyword_lower text_lower then
    let article_title := extract_article_title content in
    let matched_articles :=
      od_init article_title (Entry article_title content []) matched_articles in
    scan_loop fuel keyword_lower text_lower article_title matched_articles 0
  else Returned matched_articles.

Fixpoint group_units (fuel : nat) (keyword_lower : pystr) (items : list item)
  (matched_articles : odict) : outcome odict :=
  match items with
  | [] => Returned matched_articles
  | it :: rest =>
      do d <- group_unit fuel keyword_lower matched_articles it;
      group_units fuel keyword_lower rest d
  end.

(** One element of [matched_pages]. *)
Definition page_of (keyword : pystr) (kv : pystr * entry) : matched_page :=
  MatchedPage kv.1
    (highlight_all_keywords (e_content kv.2) (e_matches kv.2) keyword)
    keyword
    (Z.of_nat (length (e_matches kv.2))).

(** Iterating [law["content"]]: the list of units; the empty string
    iterates zero times, anything else fails at [item["content"]] or is
    not iterable. *)
Definition content_items (v : jvalue) : outcome (list item) :=
  match v with
  | JContent l => Returned l
  | JStr [] => Returned []
  | _ => Raised TypeError
  end.

(** [law["title"].lower() != law_type.lower()] *)
Definition title_differs (law_type : pystr) (d : law) : outcome bool :=
  do t <- getitem d "title";
  match t with
  | JStr s => Returned (bool_decide (lower s <> lower law_type))
  | _ => Raised AttributeError
  end.

(** The body of [for law in data["laws"]]: [None] when nothing is
    appended to [results]. *)
Definition search_law (fuel : nat) (keyword law_type : pystr) (d : law)
  : outcome (option search_result) :=
  do skip <- (if bool_decide (law_type <> lit "all") then title_differs law_type d
              else Returned false);
  if (skip : bool) then Returned None
  else
    do c <- getitem d "content";
    do items <- content_items c;
    do matched_articles <- group_units fuel (lower keyword) items [];
    let matched_pages := map (page_of keyword) matched_articles in
    match matched_pages with
    | [] => Returned None
    | _ :: _ =>
        do title <- getitem d "title";
        do year <- getitem d "year";
        do filename <- getitem d "filename";
        Returned (Some (SearchResult title year filename
                          (default (JInt 1) (d !! "total_pages"))
                          matched_pages
                          (foldr Z.add 0 (map mp_match_count matched_pages))))
    end.

Fixpoint collect (fuel : nat) (keyword law_type : pystr) (data_laws : list law)
  (results : list search_result) : outcome (list search_result) :=
  match data_laws with
  | [] => Returned results
  | d :: rest =>
      do r <- search_law fuel keyword law_type d;
      collect fuel keyword law_type rest
        (match r with Some x => results ++ [x] | None => results end)
  end.

(** [search] on the loaded [data["laws"]]. *)
Definition search (fuel : nat) (keyword law_type : pystr) (data_laws : list law)
  : outcome (list search_result) :=
  do results <- collect fuel keyword law_type data_laws [];
  match results with
  | [] => Returned []
  | _ :: _ => Returned (sorted_desc sr_total_matches results)
  end.

End Engine.

(** ** Notions used in the statements *)

(** [sub] occurs in [s] at offset [p]. *)
Definition occurs_at (sub s : pystr) (p : Z) : Prop :=
  0 <= p /\ p + len sub <= len s /\
  py_slice s (Some p) (Some (p + len sub)) = sub.

(** The spans a repeated forward search records from offset [start] on:
    each search starts where the previous match ended, and the last one
    finds nothing. *)
Inductive forward_scan (text kw : pystr) : Z -> list span -> Prop :=
  | fs_done start :
      find text kw start = -1 -> forward_scan text kw start []
  | fs_hit start rest :
      find text kw start <> -1 ->
      forward_scan text kw (find text kw start + len kw) rest ->
      forward_scan text kw start
        (Span (find text kw start) (find text kw start + len kw) :: rest).

(** [fuel] exceeds the length of every unit's lower-cased text in the
    document, which is enough for each scan over it to finish. *)
Definition enough_fuel (lower : pystr -> pystr) (fuel : nat) (d : law) : Prop :=
  forall items, d !! "content" = Some (JContent items) ->
    Forall (fun it => (length (lower (i_content it)) < fuel)%nat) items.

(** The units of [items] that contain the keyword and carry the label
    [title], in document order. *)
Definition units_of_label (lower : pystr -> pystr) (kwl title : pystr)
  (items : list item) : list item :=
  filter (fun it => str_in kwl (lower (i_content it)) = true /\
                    extract_article_title (i_content it) = title) items.

(** *** Highlighting, as the specification words it *)

(** The text between the offsets [pos] and [stop], in which every span of
    the ascending list [spans] is wrapped in the highlight marker and the
    text outside the spans is copied unchanged. *)
Fixpoint wrap_spans (text : pystr) (pos stop : Z) (spans : list span) : pystr :=
  match spans with
  | [] => py_slice text (Some pos) (Some stop)
  | m :: rest =>
      py_slice text (Some pos) (Some (m_start m)) ++
      HL_OPEN ++ py_slice text (Some (m_start m)) (Some (m_end m)) ++ HL_CLOSE ++
      wrap_spans text (m_end m) stop rest
  end.

(** A span over [text]: a non-empty range of offsets inside it. *)
Definition span_within (text : pystr) (m : span) : Prop :=
  0 <= m_start m /\ m_start m < m_end m /\ m_end m <= len text.

(** Two spans that share no offset. *)
Definition disjoint (a b : span) : Prop :=
  m_end a <= m_start b \/ m_end b <= m_start a.

(** *** Marker lines *)

(** The tests the structurer makes on a stripped line. *)
Definition is_chapter_line (line : pystr) : bool :=
  str_in [DI] line && str_in [ZHANG] line.

Definition is_article_line (line : pystr) : bool :=
  negb (is_chapter_line line) && (str_in [DI] line && str_in [TIAO] line).

(** A chapter or article marker: a line with the ordinal prefix together
    with the article glyph or the chapter glyph. *)
Definition is_marker (line : pystr) : bool :=
  str_in [DI] line && (str_in [TIAO] line || str_in [ZHANG] line).

(** Some line of some page is a marker. *)
Definition has_marker_line (pages : list pystr) : bool :=
  existsb (fun text => existsb is_marker (split NEWLINE text)) pages.

(** The lines the two nested loops of the structurer run through, in
    reading order: the lines of the pages that are not blank, each with its
    1-based page number. *)
Fixpoint doc_lines (page_num : Z) (pages : list pystr) : list (Z * pystr) :=
  match pages with
  | [] => []
  | text :: rest =>
      match strip text with
      | [] => []
      | _ :: _ => map (fun raw => (page_num + 1, raw)) (split NEWLINE text)
      end ++ doc_lines (page_num + 1) rest
  end.

(** The loop body on such a line. *)
Definition step_line (st : parse_state) (pl : Z * pystr) : parse_state :=
  process_line pl.1 st pl.2.

(** What the lines [body] add to the article they follow: every line that
    is not empty once stripped, each followed by a space, in order. *)
Definition body_text (body : list (Z * pystr)) : pystr :=
  concat (map (fun l => l ++ SPACE)
            (filter (fun l => l <> []) (map (fun pl => strip pl.2) body))).

(** The number of marker lines among [ls]. *)
Definition marker_count (ls : list (Z * pystr)) : nat :=
  length (filter (fun pl => is_marker (strip pl.2) = true) ls).

(** ** Sample data *)

(** The keyword of the end-to-end scenario, U+76D7 U+7A83. *)
Definition THEFT : pystr := [30423; 31363].

(** A chapter line and two article lines, each article naming the keyword
    once. *)
Definition ex_chapter : pystr := [DI; 19968; ZHANG] ++ lit " " ++ [24635; 21017].
Definition ex_article1 : pystr := [DI; 19968; TIAO] ++ lit " " ++ THEFT ++ [32618].
Definition ex_article2 : pystr := [DI; 20108; TIAO] ++ lit " " ++ THEFT ++ [30340].
Definition ex_page : pystr :=
  ex_chapter ++ [NEWLINE] ++ ex_article1 ++ [NEWLINE] ++ ex_article2.

(** The file name U+5211 U+6CD5 "_1997.docx". *)
Definition ex_filename : pystr := [21009; 27861] ++ lit "_1997.docx".

(** The record the structurer builds for that file. *)
Definition ex_law : law :=
  <["title" := JStr [21009; 27861]]>
  (<["year" := JStr (lit "1997")]>
  (<["filename" := JStr ex_filename]>
  (<["content" := JContent [Item chapter ex_chapter 1;
                            Item article (ex_article1 ++ SPACE) 1;
                            Item article (ex_article2 ++ SPACE) 1]]>
  (<["total_pages" := JInt 1]>
  (<["last_modified" := JStr (lit "2024-05-01")]> ∅))))).

(** A document with a single article naming the keyword once. *)
Definition ex_small (name : string) : law :=
  <["filename" := JStr (lit name)]>
  (<["content" := JContent [Item article (ex_article1 ++ SPACE) 1]]> ex_law).

(** An index whose first and last documents tie. *)
Definition ex_index : list law := [ex_small "a.pdf"; ex_law; ex_small "b.pdf"].

(** An article unit with U+0130, the capital dotted I whose lower case is
    two code points long, before "abc": the unit the structurer builds
    from the line U+7B2C U+4E00 U+6761 " " U+0130 "abc". *)
Definition ex_dotted : item :=
  Item article ([DI; 19968; TIAO] ++ lit " " ++ [304] ++ lit "abc" ++ SPACE) 1.

(** Two units with the same label, U+7B2C U+4E00 U+6761, both naming "abc". *)
Definition ex_dup1 : item := Item article ([DI; 19968; TIAO] ++ lit " abc x ") 1.
Definition ex_dup2 : item := Item article ([DI; 19968; TIAO] ++ lit " y z abc ") 2.

(** The article line and the continuation line of the accumulation
    example: U+7B2C U+4E00 U+6761 " " U+5185 U+5BB9 "A", and
    U+7EED U+884C "B". *)
Definition ex_line_a : pystr := [DI; 19968; TIAO] ++ lit " " ++ [20869; 23481] ++ lit "A".
Definition ex_line_b : pystr := [32493; 34892] ++ lit "B".

(** A directory with a file the page text source fails on between two
    files it reads. *)
Definition ex_dir_pre : list (pystr * source) :=
  [(ex_filename, Opened [ex_page] (lit "2024-05-01"))].
Definition ex_dir_post : list (pystr * source) :=
  [(lit "c_2001.PDF", Opened [ex_line_a; ex_line_b] (lit "2024-05-02"))].

(** ** The type catalog: [get_law_types] *)

(** The member of a Python set a title gives: strings and integers are
    hashable, a list is not. *)
Definition hashable (v : jvalue) : outcome (pystr + Z) :=
  match v with
  | JStr s => Returned (inl s)
  | JInt n => Returned (inr n)
  | JContent _ => Raised TypeError
  end.

(** [set(law["title"] for law in data["laws"])], the set in [acc] being
    what the generator has given so far. *)
Fixpoint title_set (data_laws : list law) (acc : gset (pystr + Z))
  : outcome (gset (pystr + Z)) :=
  match data_laws with
  | [] => Returned acc
  | d :: rest =>
      do t <- getitem d "title";
      do k <- hashable t;
      title_set rest ({[k]} ∪ acc)
  end.

(** [get_law_types] on the loaded [data["laws"]]. The list it returns holds
    the members of the set in an order Python does not fix, so the set
    stands for it. *)
Definition get_law_types (data_laws : list law) : outcome (gset (pystr + Z)) :=
  title_set data_laws ∅.

(** ** The files behind the processor *)

(** The document directory (its listing with what the page text source
    gives for each file, [None] when the directory is missing) and the
    index file ([None] when it is missing). Writing the artifact with
    [json.dump] and reading it back with [json.load] gives the same
    records. *)
Record files := Files {
  pdf_dir : option (list (pystr * source));
  index_file : option index_artifact
}.

(** What a call on the files ends in. *)
Inductive failure := PyError (e : exn) | FileNotFoundError.

Inductive io_outcome (A : Type) :=
  | IoReturned (a : A)
  | IoRaised (f : failure)
  | IoDiverged.
Arguments IoReturned {A} a.
Arguments IoRaised {A} f.
Arguments IoDiverged {A}.

Definition io_of {A} (o : outcome A) : io_outcome A :=
  match o with
  | Returned a => IoReturned a
  | Raised e => IoRaised (PyError e)
  | Diverged => IoDiverged
  end.

(** The JSON body of a successful search. *)
Record search_body := SearchBody {
  b_keyword : pystr;
  b_law_type : pystr;
  b_total : Z;
  b_results : list search_result
}.

(** A reply: the body with status 200, the error with status 500, or no
    reply while the call runs. *)
Inductive reply (A : Type) :=
  | Ok200 (body : A)
  | Error500 (error : failure)
  | NoReply.
Arguments Ok200 {A} body.
Arguments Error500 {A} error.
Arguments NoReply {A}.

Section Processor.

Variable lower : pystr -> pystr.
(** [datetime.now()]: the year and the formatted time stamp. *)
Variable now_year : Z.
Variable now : pystr.

(** [build_index] as it acts on the files: a missing directory is created
    empty and nothing is written; otherwise the artifact replaces the
    index file. *)
Definition build_index_io (fs : files) : files * list law :=
  match build_index lower now_year now (pdf_dir fs) with
  | (index_data, Some art) => (Files (pdf_dir fs) (Some art), index_data)
  | (index_data, None) => (Files (Some []) (index_file fs), index_data)
  end.

(** [if not os.path.exists(self.index_file): self.build_index()] *)
Definition ensure_index (fs : files) : files :=
  match index_file fs with
  | None => (build_index_io fs).1
  | Some _ => fs
  end.

(** [search] with its first lines: the index is built if it is missing,
    then opened and loaded. *)
Definition search_io (fuel : nat) (keyword law_type : pystr) (fs : files)
  : files * io_outcome (list search_result) :=
  let fs := ensure_index fs in
  match index_file fs with
  | None => (fs, IoRaised FileNotFoundError)
  | Some data => (fs, io_of (search lower fuel keyword law_type (laws data)))
  end.

(** [get_law_types] with its first lines. *)
Definition get_law_types_io (fs : files) : files * io_outcome (gset (pystr + Z)) :=
  let fs := ensure_index fs in
  match index_file fs with
  | None => (fs, IoRaised FileNotFoundError)
  | Some data => (fs, io_of (get_law_types (laws data)))
  end.

(** *** The routes of [app.py] *)

(** The route [/api/search]; [q] and [type] are the query arguments,
    [None] when absent. *)
Definition search_law_route (fuel : nat) (q type : option pystr) (fs : files)
  : files * reply search_body :=
  let keyword := strip (default [] q) in
  let law_type := strip (default (lit "all") type) in
  match search_io fuel keyword law_type fs with
  | (fs, IoReturned results) =>
      (fs, Ok200 (SearchBody keyword law_type (Z.of_nat (length results)) results))
  | (fs, IoRaised f) => (fs, Error500 f)
  | (fs, IoDiverged) => (fs, NoReply)
  end.

(** The route [/api/law-types]. *)
Definition get_law_types_route (fs : files) : files * reply (gset (pystr + Z)) :=
  match get_law_types_io fs with
  | (fs, IoReturned law_types) => (fs, Ok200 law_types)
  | (fs, IoRaised f) => (fs, Error500 f)
  | (fs, IoDiverged) => (fs, NoReply)
  end.

End Processor.

(** ** Notions used in the further statements *)

(** A text the label pattern matches: U+7B2C, one or more numerals, and
    the closing glyph. *)
Definition is_label (closing : Z) (m : pystr) : Prop :=
  exists run, run <> [] /\ Forall (fun c => is_numeral c = true) run /\
              m = DI :: run ++ [closing].

(** [m] is a match of the pattern in [s] at offset [i]. *)
Definition label_at (closing : Z) (s : pystr) (i : nat) (m : pystr) : Prop :=
  is_label closing m /\ exists post, drop i s = m ++ post.

(** No match of the pattern starts in [s] before offset [i]. *)
Definition no_label_before (closing : Z) (s : pystr) (i : nat) : Prop :=
  forall j m, (j < i)%nat -> ~ label_at closing s j m.

(** A unit text in which a chapter pattern comes before an article
    pattern: "x" U+7B2C U+4E00 U+7AE0 " " U+7B2C U+5341 U+56DB U+6761 "y". *)
Definition ex_both : pystr :=
  lit "x" ++ [DI; 19968; ZHANG] ++ lit " " ++ [DI; 21313; 22235; TIAO] ++ lit "y".

(** A unit text with a chapter pattern only, after an article glyph that
    has no numeral before it: U+7B2C "1" U+6761 " " U+7B2C U+4E8C U+7AE0. *)
Definition ex_chapter_only : pystr :=
  [DI] ++ lit "1" ++ [TIAO] ++ lit " " ++ [DI; 20108; ZHANG].

(** A unit text of 40 code points without any pattern. *)
Definition ex_plain : pystr := [DI] ++ lit "1" ++ [TIAO] ++ lit " abcdefghijklmnopqrstuvwxyz0123456789 ".

(** The kind and the page of the unit a marker line starts. *)
Definition unit_head (pl : Z * pystr) : unit_type * Z :=
  (if is_chapter_line (strip pl.2) then chapter else article, pl.1).

(** The marker lines among [ls]. *)
Definition marker_lines (ls : list (Z * pystr)) : list (Z * pystr) :=
  filter (fun pl => is_marker (strip pl.2) = true) ls.

(** What the build does with one directory entry: the record it indexes,
    if any. *)
Definition indexed (lower : pystr -> pystr) (now_year : Z) (file : pystr * source)
  : option law :=
  if accepted lower file.1 then extract_pdf_content now_year file.1 file.2 else None.

(** An entry of accepted name for which the structurer gives no record. *)
Definition rejected (lower : pystr -> pystr) (now_year : Z) (file : pystr * source)
  : Prop :=
  accepted lower file.1 = true /\ extract_pdf_content now_year file.1 file.2 = None.

(** A record with the keys and shapes [search] reads. *)
Definition well_formed (d : law) : Prop :=
  exists title filename arts n,
    d !! "title" = Some (JStr title) /\
    is_Some (d !! "year") /\
    d !! "filename" = Some (JStr filename) /\
    d !! "content" = Some (JContent arts) /\ arts <> [] /\
    d !! "total_pages" = Some (JInt n) /\ 1 <= n.

(** A result with [keyword] as the matched term of each of its pages. *)
Definition with_term (keyword : pystr) (r : search_result) : search_result :=
  SearchResult (sr_title r) (sr_year r) (sr_filename r) (sr_total_pages r)
    (map (fun p => MatchedPage (mp_title p) (mp_snippet p) keyword (mp_match_count p))
         (sr_matched_pages r))
    (sr_total_matches r).

(** The outcome with [f] applied to what is returned. *)
Definition outcome_map {A B} (f : A -> B) (o : outcome A) : outcome B :=
  match o with
  | Returned a => Returned (f a)
  | Raised e => Raised e
  | Diverged => Diverged
  end.

(** Files with the sample record in the index and no document directory. *)
Definition ex_files : files :=
  Files None (Some (IndexArtifact (lit "2026-11-03 10:00:00") 1 LOCAL_FILES [] [ex_law])).

(** Lower-casing of the ASCII letters, code point by code point. *)
Definition ascii_lower (c : Z) : Z :=
  if (65 <=? c) && (c <=? 90) then c + 32 else c.

(** Proves that a code point is not in a given text. *)
Ltac not_elem :=
  match goal with
  | |- ?x ∉ ?l => apply (bool_decide_eq_false_1 (x ∈ l)); by vm_compute
  end.

(** ** Facts about Python strings *)

Lemma len_nonneg (s : pystr) : 0 <= len s.
Proof. unfold len. lia. Qed.

Lemma len_app (s t : pystr) : len (s ++ t) = len s + len t.
Proof. unfold len. rewrite length_app. lia. Qed.

Lemma len_pos (s : pystr) : s <> [] -> 0 < len s.
Proof. destruct s; [done|]. unfold len. simpl. lia. Qed.

Lemma starts_with_prefix (sub s : pystr) :
  starts_with sub s = true <-> take (length sub) s = sub /\ (length sub <= length s)%nat.
Proof.
  revert s. induction sub as [|a sub IH]; intros [|b s]; simpl.
  - split; [intros _; split; [done|lia] | done].
  - split; [intros _; split; [done|lia] | done].
  - split; [done | intros [_ H]; lia].
  - rewrite andb_true_iff, IH, Z.eqb_eq. split.
    + intros [-> [-> ?]]. split; [done|lia].
    + intros [[= -> ->] ?]. split; [done|]. split; [done|lia].
Qed.

Lemma find_from_some (sub s : pystr) (i j : nat) :
  find_from sub s i = Some j ->
  (i <= j)%nat /\ (j - i <= length s)%nat /\
  starts_with sub (drop (j - i) s) = true /\
  forall k, (k < j - i)%nat -> starts_with sub (drop k s) = false.
Proof.
  revert i. induction s as [|b s IH]; intros i; simpl.
  - destruct sub; [|done]. intros [= <-]. replace (i - i)%nat with 0%nat by lia.
    repeat split; try done; try lia.
  - destruct (starts_with sub (b :: s)) eqn:E.
    + intros [= <-]. replace (i - i)%nat with 0%nat by lia.
      repeat split; try done; try lia.
    + intros H. apply IH in H as (Hle & Hlen & Hocc & Hmin).
      replace (j - i)%nat with (S (j - S i)) by lia. simpl.
      repeat split; try done; try lia.
      intros [|k] Hk; simpl; [done|]. apply Hmin. lia.
Qed.

Lemma find_from_none (sub s : pystr) (i : nat) :
  find_from sub s i = None ->
  forall k, (k <= length s)%nat -> starts_with sub (drop k s) = false.
Proof.
  revert i. induction s as [|b s IH]; intros i; simpl.
  - destruct sub; [done|]. intros _ k _. by destruct k.
  - destruct (starts_with sub (b :: s)) eqn:E; [done|].
    intros H [|k] Hk; simpl; [done|]. eapply IH; [done|lia].
Qed.

Lemma py_slice_inner (s : pystr) (a b : Z) :
  0 <= a -> a <= b -> b <= len s ->
  py_slice s (Some a) (Some b) = take (Z.to_nat (b - a)) (drop (Z.to_nat a) s).
Proof.
  intros Ha Hab Hb. unfold py_slice, clamp_index. simpl.
  destruct (Z.ltb_spec a 0); [lia|]. destruct (Z.ltb_spec b 0); [lia|].
  rewrite !Z.min_l by lia. done.
Qed.

Lemma py_slice_prefix (s : pystr) (b : Z) :
  0 <= b -> b <= len s -> py_slice s None (Some b) = take (Z.to_nat b) s.
Proof.
  intros Hb Hl. unfold py_slice, clamp_index. simpl.
  destruct (Z.ltb_spec b 0); [lia|]. rewrite Z.min_l by lia.
  by rewrite Z.sub_0_r.
Qed.

Lemma py_slice_suffix (s : pystr) (a : Z) :
  0 <= a -> a <= len s -> py_slice s (Some a) None = drop (Z.to_nat a) s.
Proof.
  intros Ha Hl. unfold py_slice, clamp_index. simpl.
  destruct (Z.ltb_spec a 0); [lia|]. rewrite Z.min_l by lia.
  apply take_ge. rewrite length_drop. unfold len. lia.
Qed.

Lemma occurs_at_starts_with (sub s : pystr) (p : nat) :
  (p <= length s)%nat -> starts_with sub (drop p s) = true ->
  occurs_at sub s (Z.of_nat p).
Proof.
  intros Hp H. apply starts_with_prefix in H as [Ht Hl].
  rewrite length_drop in Hl. unfold occurs_at.
  assert (Z.of_nat p + len sub <= len s) by (unfold len; lia).
  split; [lia|]. split; [done|].
  rewrite py_slice_inner by (pose proof (len_nonneg sub); lia).
  replace (Z.to_nat (Z.of_nat p + len sub - Z.of_nat p)) with (length sub)
    by (unfold len; lia).
  by rewrite Nat2Z.id.
Qed.

Lemma starts_with_occurs_at (sub s : pystr) (p : Z) :
  occurs_at sub s p -> starts_with sub (drop (Z.to_nat p) s) = true.
Proof.
  intros (Hp & Hl & Hs). apply starts_with_prefix.
  rewrite py_slice_inner in Hs by (pose proof (len_nonneg sub); lia).
  replace (Z.to_nat (p + len sub - p)) with (length sub) in Hs by (unfold len; lia).
  split; [done|]. rewrite length_drop. unfold len in Hl. lia.
Qed.

(** [find] returns the lowest occurrence at or after [start], or [-1]
    when there is none. *)
Lemma find_hit (s sub : pystr) (start : Z) :
  0 <= start -> find s sub start <> -1 ->
  start <= find s sub start /\ occurs_at sub s (find s sub start) /\
  forall p, start <= p < find s sub start -> ~ occurs_at sub s p.
Proof.
  intros Hs. unfold find. destruct (Z.ltb_spec start 0); [lia|].
  destruct (Z.ltb_spec (len s) start); [done|].
  destruct (find_from _ _ _) as [j|] eqn:E; [|done]. intros _.
  apply find_from_some in E as (Hle & Hlen & Hocc & Hmin).
  rewrite length_drop in Hlen. rewrite drop_drop in Hocc.
  replace (Z.to_nat start + (j - Z.to_nat start))%nat with j in Hocc by lia.
  split; [lia|]. split.
  - apply occurs_at_starts_with; [unfold len in *; lia | done].
  - intros p Hp Hp'. apply starts_with_occurs_at in Hp'.
    specialize (Hmin (Z.to_nat p - Z.to_nat start)%nat).
    rewrite drop_drop in Hmin.
    replace (Z.to_nat start + (Z.to_nat p - Z.to_nat start))%nat
      with (Z.to_nat p) in Hmin by lia.
    rewrite Hmin in Hp'; [done|lia].
Qed.

Lemma find_miss (s sub : pystr) (start : Z) :
  0 <= start -> find s sub start = -1 ->
  forall p, start <= p -> ~ occurs_at sub s p.
Proof.
  intros Hs. unfold find. destruct (Z.ltb_spec start 0); [lia|].
  destruct (Z.ltb_spec (len s) start).
  - intros _ p Hp (_ & Hl & _). pose proof (len_nonneg sub). lia.
  - destruct (find_from _ _ _) as [j|] eqn:E; [lia|]. intros _ p Hp Hocc.
    pose proof Hocc as (_ & Hl & _). apply starts_with_occurs_at in Hocc.
    pose proof (find_from_none _ _ _ E (Z.to_nat p - Z.to_nat start)%nat) as Hn.
    rewrite length_drop, drop_drop in Hn.
    replace (Z.to_nat start + (Z.to_nat p - Z.to_nat start))%nat
      with (Z.to_nat p) in Hn by lia.
    pose proof (len_nonneg sub). unfold len in *.
    rewrite Hn in Hocc; [done|lia].
Qed.

Lemma find_empty (s : pystr) (start : Z) :
  0 <= start <= len s -> find s [] start = start.
Proof.
  intros Hs. unfold find. destruct (Z.ltb_spec start 0); [lia|].
  destruct (Z.ltb_spec (len s) start); [lia|].
  destruct (drop _ s); simpl; lia.
Qed.

(** ** The insertion-ordered dict *)

Lemma od_alter_ext (f g : entry -> entry) (k : pystr) (d : odict) :
  (forall e, f e = g e) -> od_alter f k d = od_alter g k d.
Proof.
  intros H. induction d as [|[k' v] d IH]; simpl; [done|].
  destruct (decide (k' = k)); [by rewrite H | by rewrite IH].
Qed.

Lemma od_alter_compose (f g : entry -> entry) (k : pystr) (d : odict) :
  od_alter f k (od_alter g k d) = od_alter (fun e => f (g e)) k d.
Proof.
  induction d as [|[k' v] d IH]; simpl; [done|].
  destruct (decide (k' = k)) as [->|Hne]; simpl.
  - by rewrite decide_True.
  - by rewrite decide_False, IH.
Qed.

Lemma extend_matches_nil (e : entry) : extend_matches [] e = e.
Proof. destruct e. unfold extend_matches. simpl. by rewrite app_nil_r. Qed.

Lemma extend_matches_cons (m : span) (ms : list span) (e : entry) :
  extend_matches ms (append_match m e) = extend_matches (m :: ms) e.
Proof. unfold extend_matches, append_match. simpl. by rewrite <- app_assoc. Qed.

Lemma extend_matches_app (ms1 ms2 : list span) (e : entry) :
  extend_matches ms2 (extend_matches ms1 e) = extend_matches (ms1 ++ ms2) e.
Proof. unfold extend_matches. simpl. by rewrite <- app_assoc. Qed.

Lemma od_alter_id (k : pystr) (d : odict) : od_alter (extend_matches []) k d = d.
Proof.
  induction d as [|[k' v] d IH]; simpl; [done|].
  destruct (decide (k' = k)); [by rewrite extend_matches_nil | by rewrite IH].
Qed.

Lemma od_alter_keys (f : entry -> entry) (k : pystr) (d : odict) :
  (od_alter f k d).*1 = d.*1.
Proof.
  induction d as [|[k' v] d IH]; simpl; [done|].
  destruct (decide (k' = k)); simpl; [done | by f_equal].
Qed.

Lemma od_get_alter (f : entry -> entry) (k k' : pystr) (d : odict) :
  od_get k' (od_alter f k d) =
  if decide (k = k') then f <$> od_get k' d else od_get k' d.
Proof.
  induction d as [|[k0 v] d IH]; simpl; [by destruct (decide _)|].
  destruct (decide (k0 = k)) as [->|Hne]; simpl.
  - destruct (decide (k = k')); [done|done].
  - destruct (decide (k0 = k')) as [->|Hne'].
    + by rewrite decide_False.
    + apply IH.
Qed.

Lemma od_mem_get (k : pystr) (d : odict) :
  od_mem k d = true <-> is_Some (od_get k d).
Proof.
  unfold od_mem. rewrite bool_decide_eq_true.
  induction d as [|[k' v] d IH]; simpl.
  - split; [by intros ?%elem_of_nil | by intros [? ?]].
  - rewrite elem_of_cons. destruct (decide (k' = k)) as [->|Hne].
    + split; [eauto | by left].
    + rewrite <- IH. split; [intros [?|?]; [congruence|done] | by right].
Qed.

Lemma od_get_app (k : pystr) (d1 d2 : odict) :
  od_get k (d1 ++ d2) =
  match od_get k d1 with Some e => Some e | None => od_get k d2 end.
Proof.
  induction d1 as [|[k' v] d1 IH]; simpl; [done|].
  by destruct (decide (k' = k)).
Qed.

(** ** The keyword scan *)

Lemma str_in_find_from (sub s : pystr) (i : nat) :
  str_in sub s = false -> find_from sub s i = None.
Proof.
  revert i. induction s as [|b s IH]; intros i; simpl.
  - rewrite orb_false_r. by intros ->.
  - intros [-> H]%orb_false_iff. by apply IH.
Qed.

Lemma str_in_find (sub s : pystr) : str_in sub s = false -> find s sub 0 = -1.
Proof.
  intros H. unfold find. simpl.
  destruct (Z.ltb_spec (len s) 0); [done|].
  by rewrite (str_in_find_from _ _ _ H).
Qed.

Section Scan.
Variable lower : pystr -> pystr.

Lemma scan_loop_spec (kwl text title : pystr) (fuel : nat) :
  kwl <> [] ->
  forall (d : odict) (start : Z),
    0 <= start -> (Z.to_nat (len text - start) < fuel)%nat ->
    exists spans,
      scan_loop fuel kwl text title d start
        = Returned (od_alter (extend_matches spans) title d) /\
      forward_scan text kwl start spans.
Proof.
  intros Hkw. induction fuel as [|fuel IH]; intros d start Hs Hf; [lia|].
  simpl. destruct (Z.eqb_spec (find text kwl start) (-1)) as [E|E].
  - exists []. rewrite od_alter_id. split; [done|]. by constructor.
  - destruct (find_hit text kwl start Hs E) as (Hle & (_ & Hl & _) & _).
    pose proof (len_pos kwl Hkw) as Hpos.
    destruct (IH (od_alter (append_match
                    (Span (find text kwl start) (find text kwl start + len kwl)))
                    title d) (find text kwl start + len kwl))
      as (spans & Hrun & Hfs); [lia|lia|].
    exists (Span (find text kwl start) (find text kwl start + len kwl) :: spans).
    split; [|by constructor].
    rewrite Hrun, od_alter_compose. f_equal.
    apply od_alter_ext. intros e. apply extend_matches_cons.
Qed.

(** With the empty keyword the loop variable never moves. *)
Lemma scan_loop_empty (text title : pystr) (fuel : nat) :
  forall (d : odict) (start : Z),
    0 <= start <= len text ->
    scan_loop fuel [] text title d start = Diverged.
Proof.
  induction fuel as [|fuel IH]; intros d start Hs; [done|].
  simpl. rewrite find_empty by done.
  destruct (Z.eqb_spec start (-1)); [lia|].
  replace (start + len []) with start by (unfold len; simpl; lia).
  by apply IH.
Qed.

Lemma str_in_empty (s : pystr) : str_in [] s = true.
Proof. by destruct s. Qed.

Lemma group_unit_empty (fuel : nat) (d : odict) (it : item) :
  group_unit lower fuel [] d it = Diverged.
Proof.
  unfold group_unit. rewrite str_in_empty. apply scan_loop_empty.
  pose proof (len_nonneg (lower (i_content it))). lia.
Qed.

Lemma forward_scan_spans (text kw : pystr) (start : Z) (spans : list span) :
  kw <> [] -> 0 <= start -> forward_scan text kw start spans ->
  Forall (fun m => start <= m_start m /\ m_end m - m_start m = len kw /\
                   occurs_at kw text (m_start m)) spans /\
  StronglySorted (fun a b => m_end a <= m_start b) spans /\
  (forall p, start <= p -> occurs_at kw text p ->
             exists m, m ∈ spans /\ m_start m <= p < m_end m).
Proof.
  intros Hkw Hs H. pose proof (len_pos kw Hkw) as Hpos.
  induction H as [start Hf|start rest Hf Hrest IH].
  - repeat split; [constructor|constructor|].
    intros p Hp Hocc. by destruct (find_miss text kw start Hs Hf p Hp).
  - destruct (find_hit text kw start Hs Hf) as (Hle & Hocc & Hmin).
    destruct IH as (Hall & Hsorted & Hcover); [lia|].
    repeat split.
    + constructor; simpl; [split; [done|split; [lia|done]]|].
      eapply Forall_impl; [exact Hall|]. simpl. intros m (? & ? & ?).
      split; [lia|done].
    + constructor; [done|].
      eapply Forall_impl; [exact Hall|]. simpl. intros m (? & ? & ?). lia.
    + intros p Hp Hp'.
      destruct (Z.lt_ge_cases p (find text kw start + len kw)) as [Hlt|Hge].
      * exists (Span (find text kw start) (find text kw start + len kw)).
        split; [by left|]. simpl. split; [|done].
        destruct (Z.le_gt_cases (find text kw start) p) as [?|Hgt]; [done|].
        destruct (Hmin p); [lia|done].
      * destruct (Hcover p Hge Hp') as (m & Hin & Hm).
        exists m. split; [by right|done].
Qed.

End Scan.

Section ScanClaims.
Variable lower : pystr -> pystr.

Lemma group_unit_spec (kwl : pystr) (it : item) (d : odict) (fuel : nat) :
  kwl <> [] ->
  (length (lower (i_content it)) < fuel)%nat ->
  exists spans,
    group_unit lower fuel kwl d it
      = Returned
          (if str_in kwl (lower (i_content it)) then
             od_alter (extend_matches spans) (extract_article_title (i_content it))
               (od_init (extract_article_title (i_content it))
                  (Entry (extract_article_title (i_content it)) (i_content it) []) d)
           else d) /\
    forward_scan (lower (i_content it)) kwl 0 spans.
Proof.
  intros Hkw Hfuel. unfold group_unit.
  destruct (str_in kwl (lower (i_content it))) eqn:E.
  - apply scan_loop_spec; [done|lia|]. unfold len. lia.
  - exists []. split; [done|]. constructor. by apply str_in_find.
Qed.

(** C4. For a keyword whose lower-cased form is not empty (Python's
    [lower] never empties a string) the scan of one unit returns as soon
    as the fuel exceeds the length of the text. The spans it appends to
    the unit's entry are those of a repeated forward search in which each
    search starts at the end of the previous match; each span is as long
    as the scanned keyword and lies on an occurrence of it in the scanned
    text; a later span starts at or after the end of every earlier one,
    so no two overlap; and every occurrence of the keyword starts inside
    a recorded span, so none is missed. *)
Theorem keyword_scan_non_overlapping (keyword : pystr) (it : item) (d : odict)
  (fuel : nat) :
  lower keyword <> [] ->
  (length (lower (i_content it)) < fuel)%nat ->
  exists spans,
    group_unit lower fuel (lower keyword) d it
      = Returned
          (if str_in (lower keyword) (lower (i_content it)) then
             od_alter (extend_matches spans) (extract_article_title (i_content it))
               (od_init (extract_article_title (i_content it))
                  (Entry (extract_article_title (i_content it)) (i_content it) []) d)
           else d) /\
    forward_scan (lower (i_content it)) (lower keyword) 0 spans /\
    Forall (fun m => m_end m - m_start m = len (lower keyword) /\
                     occurs_at (lower keyword) (lower (i_content it)) (m_start m))
           spans /\
    StronglySorted (fun a b => m_end a <= m_start b) spans /\
    (forall p, occurs_at (lower keyword) (lower (i_content it)) p ->
               exists m, m ∈ spans /\ m_start m <= p < m_end m).
Proof.
  intros Hkw Hfuel.
  destruct (group_unit_spec (lower keyword) it d fuel Hkw Hfuel) as (spans & Hrun & Hfs).
  exists spans. split; [done|]. split; [done|].
  destruct (forward_scan_spans _ _ _ _ Hkw (Z.le_refl 0) Hfs) as (Hall & Hsorted & Hcover).
  split; [|split; [done|]].
  - eapply Forall_impl; [exact Hall|]. by intros m (_ & ? & ?).
  - intros p Hp. apply Hcover; [|done]. by destruct Hp.
Qed.

End ScanClaims.

Lemma keyword_scan_non_overlapping_witness :
  py_lower (lit "abc") <> [] /\
  (length (py_lower (i_content (Item article (lit "abcabc") 1))) < 7)%nat /\
  exists spans,
    group_unit py_lower 7 (py_lower (lit "abc")) [] (Item article (lit "abcabc") 1)
      = Returned
          (if str_in (py_lower (lit "abc")) (py_lower (lit "abcabc")) then
             od_alter (extend_matches spans) (extract_article_title (lit "abcabc"))
               (od_init (extract_article_title (lit "abcabc"))
                  (Entry (extract_article_title (lit "abcabc")) (lit "abcabc") []) [])
           else []) /\
    forward_scan (py_lower (lit "abcabc")) (py_lower (lit "abc")) 0 spans /\
    Forall (fun m => m_end m - m_start m = len (py_lower (lit "abc")) /\
                     occurs_at (py_lower (lit "abc")) (py_lower (lit "abcabc")) (m_start m))
           spans /\
    StronglySorted (fun a b => m_end a <= m_start b) spans /\
    (forall p, occurs_at (py_lower (lit "abc")) (py_lower (lit "abcabc")) p ->
               exists m, m ∈ spans /\ m_start m <= p < m_end m).
Proof.
  assert (H1 : py_lower (lit "abc") <> []) by (vm_compute; discriminate).
  assert (H2 : (length (py_lower (i_content (Item article (lit "abcabc") 1))) < 7)%nat)
    by (vm_compute; lia).
  split; [exact H1|]. split; [exact H2|].
  exact (keyword_scan_non_overlapping py_lower (lit "abc")
           (Item article (lit "abcabc") 1) [] 7 H1 H2).
Defined.

(** What the scan records on "abcabc" for the keyword "abc". *)
Example scan_abcabc :
  group_unit py_lower 7 (py_lower (lit "abc")) [] (Item article (lit "abcabc") 1)
  = Returned [(lit "abcabc", Entry (lit "abcabc") (lit "abcabc") [Span 0 3; Span 3 6])].
Proof. by vm_compute. Qed.

Lemma ex_law_content :
  ex_law !! "content"
  = Some (JContent [Item chapter ex_chapter 1;
                    Item article (ex_article1 ++ SPACE) 1;
                    Item article (ex_article2 ++ SPACE) 1]).
Proof. by vm_compute. Qed.

(** C1. On the empty keyword the search does not return zero results: the
    membership test [keyword_lower in text_lower] holds for every unit and
    the scan loop restarts at the same offset for ever, so on an index with
    one structured document the call is still running whatever the fuel.
    A keyword of white space only, handed to [search] as it is, is matched
    like any other text. *)
Theorem search_empty_keyword_diverges :
  (forall fuel, search py_lower fuel [] (lit "all") [ex_law] = Diverged) /\
  (exists r, search py_lower 20 SPACE (lit "all") [ex_law] = Returned [r] /\
             sr_total_matches r = 5).
Proof.
  split.
  - intros fuel. unfold search, collect, search_law.
    rewrite bool_decide_eq_false_2 by (intros H; by apply H).
    unfold getitem. rewrite ex_law_content. cbn [bind content_items group_units].
    change (py_lower []) with (@nil Z).
    by rewrite group_unit_empty.
  - eexists. split; [by vm_compute|done].
Qed.

(** ** The stable descending sort *)

Section SortedFacts.
Context {A : Type} (key : A -> Z).

Lemma insert_desc_perm (x : A) (l : list A) : insert_desc key x l ≡ₚ x :: l.
Proof.
  induction l as [|y l IH]; simpl; [done|].
  destruct (key y <=? key x); [done|].
  rewrite IH. apply perm_swap.
Qed.

Lemma sorted_desc_perm (l : list A) : sorted_desc key l ≡ₚ l.
Proof.
  induction l as [|x l IH]; simpl; [done|].
  by rewrite insert_desc_perm, IH.
Qed.

Lemma insert_desc_sorted (x : A) (l : list A) :
  StronglySorted (fun a b => key b <= key a) l ->
  StronglySorted (fun a b => key b <= key a) (insert_desc key x l).
Proof.
  induction l as [|y l IH]; simpl; intros Hl.
  - repeat constructor.
  - apply StronglySorted_inv in Hl as [Hl Hy].
    destruct (Z.leb_spec (key y) (key x)).
    + constructor; [by constructor|]. constructor; [done|].
      eapply Forall_impl; [exact Hy|]. simpl. intros; lia.
    + constructor; [by apply IH|].
      rewrite insert_desc_perm. constructor; [lia|done].
Qed.

Lemma sorted_desc_sorted (l : list A) :
  StronglySorted (fun a b => key b <= key a) (sorted_desc key l).
Proof.
  induction l as [|x l IH]; simpl; [constructor|]. by apply insert_desc_sorted.
Qed.

(** Stability: among the elements of one key the order is the input's. *)
Lemma insert_desc_stable (k : Z) (x : A) (l : list A) :
  filter (fun a => key a = k) (insert_desc key x l)
  = filter (fun a => key a = k) (x :: l).
Proof.
  induction l as [|y l IH]; simpl; [done|].
  destruct (Z.leb_spec (key y) (key x)); [done|].
  rewrite filter_cons, IH, !filter_cons.
  destruct (decide (key y = k)), (decide (key x = k)); try done. lia.
Qed.

Lemma sorted_desc_stable (k : Z) (l : list A) :
  filter (fun a => key a = k) (sorted_desc key l) = filter (fun a => key a = k) l.
Proof.
  induction l as [|x l IH]; simpl; [done|].
  by rewrite insert_desc_stable, !filter_cons, IH.
Qed.

Lemma insert_desc_pairs (R : A -> A -> Prop) (x : A) (l : list A) :
  (forall a b, R a b -> R b a) ->
  Forall (R x) l -> ForallOrdPairs R l -> ForallOrdPairs R (insert_desc key x l).
Proof.
  intros Hsym. induction l as [|y l IH]; simpl; intros Hx Hl.
  - constructor; [done|constructor].
  - destruct (key y <=? key x); [by constructor|].
    apply Forall_cons in Hx as [Hxy Hx].
    inversion Hl as [|? ? Hy Hl']; subst.
    constructor; [|by apply IH].
    apply Forall_forall. intros z Hz.
    apply (elem_of_Permutation_proper _ _ _ (insert_desc_perm x l)) in Hz.
    apply elem_of_cons in Hz as [->|Hz]; [by apply Hsym|].
    by eapply (proj1 (Forall_forall _ _) Hy).
Qed.

Lemma sorted_desc_pairs (R : A -> A -> Prop) (l : list A) :
  (forall a b, R a b -> R b a) ->
  ForallOrdPairs R l -> ForallOrdPairs R (sorted_desc key l).
Proof.
  intros Hsym. induction l as [|x l IH]; simpl; intros Hl; [constructor|].
  inversion Hl as [|? ? Hx Hl']; subst.
  apply insert_desc_pairs; [done| |by apply IH].
  by rewrite sorted_desc_perm.
Qed.

End SortedFacts.

(** ** Highlighting *)

Lemma py_slice_app_prefix (x w : pystr) (s : Z) :
  0 <= s -> s <= len x -> py_slice (x ++ w) None (Some s) = take (Z.to_nat s) x.
Proof.
  intros Hs Hl. rewrite py_slice_prefix by (rewrite ?len_app; pose proof (len_nonneg w); lia).
  apply take_app_le. unfold len in Hl. lia.
Qed.

Lemma py_slice_app_inner (x w : pystr) (s e : Z) :
  0 <= s -> s <= e -> e <= len x ->
  py_slice (x ++ w) (Some s) (Some e) = take (Z.to_nat (e - s)) (drop (Z.to_nat s) x).
Proof.
  intros Hs Hse Hl.
  rewrite py_slice_inner by (rewrite ?len_app; pose proof (len_nonneg w); lia).
  unfold len in Hl. rewrite drop_app_le by lia.
  apply take_app_le. rewrite length_drop. lia.
Qed.

Lemma py_slice_app_suffix (x w : pystr) (e : Z) :
  0 <= e -> e <= len x -> py_slice (x ++ w) (Some e) None = drop (Z.to_nat e) x ++ w.
Proof.
  intros He Hl.
  rewrite py_slice_suffix by (rewrite ?len_app; pose proof (len_nonneg w); lia).
  unfold len in Hl. apply drop_app_le. lia.
Qed.

(** One insertion, all of whose offsets lie in the part [take b text] of
    the working text that is still the original. *)
Lemma highlight_one_step (text w : pystr) (b : Z) (m : span) :
  0 <= m_start m -> m_start m < m_end m -> m_end m <= b -> b <= len text ->
  highlight_one (take (Z.to_nat b) text ++ w) m
  = take (Z.to_nat (m_start m)) text ++
    (HL_OPEN ++ py_slice text (Some (m_start m)) (Some (m_end m)) ++ HL_CLOSE ++
     py_slice text (Some (m_end m)) (Some b) ++ w).
Proof.
  intros H0 Hse Heb Hb. unfold highlight_one.
  assert (Hlen : len (take (Z.to_nat b) text) = b).
  { unfold len in *. rewrite length_take. lia. }
  rewrite py_slice_app_prefix, py_slice_app_inner, py_slice_app_suffix by lia.
  rewrite !py_slice_inner by lia.
  rewrite take_take, Nat.min_l by lia.
  do 2 f_equal. f_equal; [|do 2 f_equal].
  - rewrite !take_drop_commute, take_take. do 2 f_equal. lia.
  - rewrite take_drop_commute. do 2 f_equal. lia.
Qed.

Lemma wrap_spans_snoc (text : pystr) (stop : Z) (m : span) (l : list span) (pos : Z) :
  wrap_spans text pos stop (l ++ [m])
  = wrap_spans text pos (m_start m) l ++
    HL_OPEN ++ py_slice text (Some (m_start m)) (Some (m_end m)) ++ HL_CLOSE ++
    py_slice text (Some (m_end m)) (Some stop).
Proof.
  revert pos. induction l as [|a l IH]; intros pos; cbn [wrap_spans app]; [done|].
  rewrite IH. by rewrite <- !app_assoc.
Qed.

(** The fold over spans in descending order: [b] bounds the spans still to
    come, and the working text is the original up to [b] followed by what
    was built so far. *)
Lemma highlight_fold (text : pystr) (ds : list span) :
  forall (b : Z) (w : pystr),
    0 <= b -> b <= len text ->
    Forall (fun m => 0 <= m_start m /\ m_start m < m_end m /\ m_end m <= b) ds ->
    StronglySorted (fun a c => m_end c <= m_start a) ds ->
    fold_left highlight_one ds (take (Z.to_nat b) text ++ w)
    = wrap_spans text 0 b (reverse ds) ++ w.
Proof.
  induction ds as [|m ds IH]; intros b w Hb0 Hb Hall Hsorted; cbn [fold_left].
  - change (reverse []) with (@nil span). cbn [wrap_spans].
    by rewrite py_slice_inner, Z.sub_0_r by lia.
  - apply Forall_cons in Hall as [(H0 & Hse & Heb) Hall].
    apply StronglySorted_inv in Hsorted as [Hsorted Hm].
    rewrite highlight_one_step by lia.
    rewrite IH; [|lia|lia| |done].
    + rewrite reverse_cons, wrap_spans_snoc. by rewrite <- !app_assoc.
    + apply Forall_forall. intros c Hc.
      pose proof (proj1 (Forall_forall _ _) Hall c Hc) as (? & ? & ?).
      pose proof (proj1 (Forall_forall _ _) Hm c Hc). simpl in *. lia.
Qed.

Lemma desc_chain (text : pystr) (l : list span) :
  StronglySorted (fun a b => m_start b <= m_start a) l ->
  ForallOrdPairs disjoint l ->
  Forall (span_within text) l ->
  StronglySorted (fun a c => m_end c <= m_start a) l.
Proof.
  induction l as [|a l IH]; intros Hs Hp Hw; [constructor|].
  apply StronglySorted_inv in Hs as [Hs Ha].
  inversion Hp as [|? ? Hd Hp']; subst.
  apply Forall_cons in Hw as [Hwa Hw].
  constructor; [by apply IH|].
  apply Forall_forall. intros c Hc.
  pose proof (proj1 (Forall_forall _ _) Ha c Hc) as Hle.
  pose proof (proj1 (Forall_forall _ _) Hd c Hc) as [Hd1|Hd1]; [|done].
  pose proof (proj1 (Forall_forall _ _) Hw c Hc) as (? & ? & ?).
  destruct Hwa as (? & ? & ?). simpl in *. lia.
Qed.

Lemma disjoint_sym (a b : span) : disjoint a b -> disjoint b a.
Proof. unfold disjoint. tauto. Qed.

(** C3. For spans over the text that are pairwise disjoint, highlighting
    runs through them by descending start offset (the order it folds over
    is a rearrangement of the spans in which every later span ends at or
    before the start of every earlier one), and its result is the text in
    which each span's original substring is wrapped in the marker and all
    text outside the spans is unchanged. *)
Theorem highlight_wraps_spans (text : pystr) (matches : list span) (keyword : pystr) :
  Forall (span_within text) matches ->
  ForallOrdPairs disjoint matches ->
  sorted_desc m_start matches ≡ₚ matches /\
  StronglySorted (fun a b => m_start b <= m_start a) (sorted_desc m_start matches) /\
  StronglySorted (fun a b => m_end b <= m_start a) (sorted_desc m_start matches) /\
  highlight_all_keywords text matches keyword
    = fold_left highlight_one (sorted_desc m_start matches) text /\
  highlight_all_keywords text matches keyword
    = wrap_spans text 0 (len text) (reverse (sorted_desc m_start matches)).
Proof.
  intros Hw Hd.
  assert (Hchain : StronglySorted (fun a b => m_end b <= m_start a)
                     (sorted_desc m_start matches)).
  { apply (desc_chain text).
    - apply sorted_desc_sorted.
    - apply sorted_desc_pairs; [apply disjoint_sym|done].
    - by rewrite sorted_desc_perm. }
  split; [apply sorted_desc_perm|]. split; [apply sorted_desc_sorted|].
  split; [done|]. split; [done|].
  unfold highlight_all_keywords.
  pose proof (highlight_fold text (sorted_desc m_start matches) (len text) []) as H.
  assert (Htake : take (Z.to_nat (len text)) text = text)
    by (apply take_ge; unfold len; lia).
  rewrite !app_nil_r, Htake in H.
  apply H; [apply len_nonneg|lia| |done].
  rewrite sorted_desc_perm. eapply Forall_impl; [exact Hw|].
  intros m (? & ? & ?). lia.
Qed.

Lemma highlight_wraps_spans_witness :
  Forall (span_within (lit "abcabc")) [Span 0 3; Span 3 6] /\
  ForallOrdPairs disjoint [Span 0 3; Span 3 6] /\
  highlight_all_keywords (lit "abcabc") [Span 0 3; Span 3 6] (lit "abc")
  = HL_OPEN ++ lit "abc" ++ HL_CLOSE ++ HL_OPEN ++ lit "abc" ++ HL_CLOSE.
Proof.
  assert (H1 : Forall (span_within (lit "abcabc")) [Span 0 3; Span 3 6]).
  { repeat constructor; vm_compute; congruence. }
  assert (H2 : ForallOrdPairs disjoint [Span 0 3; Span 3 6]).
  { constructor; [|repeat constructor].
    constructor; [|constructor]. left. simpl. lia. }
  split; [exact H1|]. split; [exact H2|].
  destruct (highlight_wraps_spans (lit "abcabc") [Span 0 3; Span 3 6] (lit "abc") H1 H2)
    as (_ & _ & _ & _ & ->).
  reflexivity.
Defined.

(** The end-to-end form of the example: searching "abc" in a unit whose
    text is "abcabc" wraps both occurrences. *)
Example search_abcabc :
  search py_lower 7 (lit "abc") (lit "all")
    [<["content" := JContent [Item article (lit "abcabc") 1]]> ex_law]
  = Returned
      [SearchResult (JStr [21009; 27861]) (JStr (lit "1997")) (JStr ex_filename) (JInt 1)
         [MatchedPage (lit "abcabc")
            (HL_OPEN ++ lit "abc" ++ HL_CLOSE ++ HL_OPEN ++ lit "abc" ++ HL_CLOSE)
            (lit "abc") 2]
         2].
Proof. by vm_compute. Qed.

(** ** Outcomes *)

Lemma bind_returned {A B} (m : outcome A) (k : A -> outcome B) (b : B) :
  bind m k = Returned b -> exists a, m = Returned a /\ k a = Returned b.
Proof. destruct m; simpl; [eauto|done|done]. Qed.

Lemma bind_diverged {A B} (m : outcome A) (k : A -> outcome B) :
  bind m k = Diverged -> m = Diverged \/ exists a, m = Returned a /\ k a = Diverged.
Proof. destruct m; simpl; [eauto|done|eauto]. Qed.

Lemma getitem_not_diverged (d : law) (k : string) : getitem d k <> Diverged.
Proof. unfold getitem. by destruct (d !! k). Qed.

(** ** Grouping and ranking *)

Section SearchFacts.
Variable lower : pystr -> pystr.

Lemma group_units_total (kwl : pystr) (fuel : nat) (items : list item) :
  kwl <> [] ->
  Forall (fun it => (length (lower (i_content it)) < fuel)%nat) items ->
  forall d, exists d', group_units lower fuel kwl items d = Returned d'.
Proof.
  intros Hkw Hall. induction Hall as [|it items Hit Hall IH]; intros d; simpl.
  - eauto.
  - destruct (group_unit_spec lower kwl it d fuel Hkw Hit) as (spans & -> & _).
    simpl. apply IH.
Qed.

Lemma title_differs_not_diverged (law_type : pystr) (d : law) :
  title_differs lower law_type d <> Diverged.
Proof.
  unfold title_differs, getitem. destruct (d !! "title") as [[]|]; simpl; done.
Qed.

Lemma search_law_not_diverged (fuel : nat) (keyword law_type : pystr) (d : law) :
  lower keyword <> [] -> enough_fuel lower fuel d ->
  search_law lower fuel keyword law_type d <> Diverged.
Proof.
  intros Hkw Hfuel. unfold search_law.
  intros [Hd|(skip & Hskip & H)]%bind_diverged.
  { destruct (bool_decide _); [by apply title_differs_not_diverged in Hd|done]. }
  destruct skip; [done|].
  apply bind_diverged in H as [Hd|(c & Hc & H)]; [by apply getitem_not_diverged in Hd|].
  apply bind_diverged in H as [Hd|(items & Hitems & H)].
  { by destruct c as [[]| |]. }
  assert (Forall (fun it => (length (lower (i_content it)) < fuel)%nat) items) as Hall.
  { unfold getitem in Hc. destruct (d !! "content") as [v|] eqn:E; [|done].
    injection Hc as ->. destruct c as [[]| |l]; simpl in Hitems; try done.
    - injection Hitems as <-. constructor.
    - injection Hitems as <-. by apply Hfuel. }
  destruct (group_units_total (lower keyword) fuel items Hkw Hall []) as (d' & Hd').
  rewrite Hd' in H. simpl in H.
  destruct (map _ d'); [done|].
  apply bind_diverged in H as [Hd|(? & _ & H)]; [by apply getitem_not_diverged in Hd|].
  apply bind_diverged in H as [Hd|(? & _ & H)]; [by apply getitem_not_diverged in Hd|].
  apply bind_diverged in H as [Hd|(? & _ & H)]; [by apply getitem_not_diverged in Hd|].
  done.
Qed.

Lemma collect_not_diverged (fuel : nat) (keyword law_type : pystr) (data_laws : list law) :
  lower keyword <> [] -> Forall (enough_fuel lower fuel) data_laws ->
  forall results, collect lower fuel keyword law_type data_laws results <> Diverged.
Proof.
  intros Hkw Hall. induction Hall as [|d rest Hd Hall IH]; intros results; simpl; [done|].
  intros [H|(r & _ & H)]%bind_diverged.
  - by apply search_law_not_diverged in H.
  - by apply IH in H.
Qed.

(** The list [results] before sorting: what each document of the index
    contributes, in index order. *)
Lemma collect_spec (fuel : nat) (keyword law_type : pystr) (data_laws : list law) :
  forall results res,
    collect lower fuel keyword law_type data_laws results = Returned res ->
    exists found,
      Forall2 (fun d r => search_law lower fuel keyword law_type d = Returned r)
              data_laws found /\
      res = results ++ omap id found.
Proof.
  induction data_laws as [|d rest IH]; intros results res; simpl.
  - intros [= <-]. exists []. split; [constructor|]. simpl. by rewrite app_nil_r.
  - intros (r & Hr & H)%bind_returned.
    apply IH in H as (found & Hall & ->).
    exists (r :: found). split; [by constructor|].
    destruct r; simpl; [by rewrite <- app_assoc|done].
Qed.

(** C6. When the keyword's lower-cased form is not empty and the fuel
    exceeds the length of every unit, [search] returns or raises, and the
    sequence it returns is what the documents of the index contribute, in
    index order, sorted by [total_matches]: the totals never increase
    along it, and the results of any one total are in their index order. *)
Theorem search_results_ranked (fuel : nat) (keyword law_type : pystr)
  (data_laws : list law) :
  lower keyword <> [] ->
  Forall (enough_fuel lower fuel) data_laws ->
  match search lower fuel keyword law_type data_laws with
  | Diverged => False
  | Raised _ => True
  | Returned results =>
      exists found,
        Forall2 (fun d r => search_law lower fuel keyword law_type d = Returned r)
                data_laws found /\
        results ≡ₚ omap id found /\
        StronglySorted (fun a b => sr_total_matches b <= sr_total_matches a) results /\
        forall n, filter (fun r => sr_total_matches r = n) results
                  = filter (fun r => sr_total_matches r = n) (omap id found)
  end.
Proof.
  intros Hkw Hfuel. unfold search.
  pose proof (collect_not_diverged fuel keyword law_type data_laws Hkw Hfuel []) as Hnd.
  destruct (collect lower fuel keyword law_type data_laws []) as [res| |] eqn:E;
    [|done|done].
  apply collect_spec in E as (found & Hall & ->). simpl.
  assert (Hs : match omap id found with
               | [] => Returned []
               | _ :: _ => Returned (sorted_desc sr_total_matches (omap id found))
               end = Returned (sorted_desc sr_total_matches (omap id found)))
    by (by destruct (omap id found)).
  rewrite Hs. exists found. split; [done|].
  split; [apply sorted_desc_perm|]. split; [apply sorted_desc_sorted|].
  intros n. apply sorted_desc_stable.
Qed.

End SearchFacts.

Lemma ex_index_fuel : Forall (enough_fuel py_lower 20) ex_index.
Proof.
  repeat constructor; intros items H; vm_compute in H; injection H as <-;
    repeat constructor; vm_compute; lia.
Qed.

Lemma search_results_ranked_witness :
  py_lower THEFT <> [] /\
  Forall (enough_fuel py_lower 20) ex_index /\
  match search py_lower 20 THEFT (lit "all") ex_index with
  | Diverged => False
  | Raised _ => True
  | Returned results =>
      exists found,
        Forall2 (fun d r => search_law py_lower 20 THEFT (lit "all") d = Returned r)
                ex_index found /\
        results ≡ₚ omap id found /\
        StronglySorted (fun a b => sr_total_matches b <= sr_total_matches a) results /\
        forall n, filter (fun r => sr_total_matches r = n) results
                  = filter (fun r => sr_total_matches r = n) (omap id found)
  end.
Proof.
  assert (H1 : py_lower THEFT <> []) by (vm_compute; discriminate).
  split; [exact H1|]. split; [exact ex_index_fuel|].
  exact (search_results_ranked py_lower 20 THEFT (lit "all") ex_index H1 ex_index_fuel).
Defined.

(** On that index the document with two matches comes first and the two
    documents with one match follow in index order. *)
Example search_ex_index :
  (fun o => match o with
            | Returned rs => Some (map (fun r => (sr_filename r, sr_total_matches r)) rs)
            | _ => None
            end) (search py_lower 20 THEFT (lit "all") ex_index)
  = Some [(JStr ex_filename, 2); (JStr (lit "a.pdf"), 1); (JStr (lit "b.pdf"), 1)].
Proof. by vm_compute. Qed.

(** ** Offsets into the lower-cased copy *)

Lemma py_slice_map (f : Z -> Z) (s : pystr) (lo hi : option Z) :
  py_slice (map f s) lo hi = map f (py_slice s lo hi).
Proof.
  unfold py_slice, len. rewrite length_map.
  by rewrite List.skipn_map, List.firstn_map.
Qed.

(** When lower-casing maps code point to code point, the recorded offsets
    address the original text: the original substring at each span is the
    keyword up to case. *)
Lemma spans_address_original_charwise (lc : Z -> Z) (text kwl : pystr) (spans : list span) :
  kwl <> [] ->
  forward_scan (map lc text) kwl 0 spans ->
  Forall (fun m => 0 <= m_start m /\ m_end m <= len text /\
                   map lc (py_slice text (Some (m_start m)) (Some (m_end m))) = kwl)
         spans.
Proof.
  intros Hkw Hfs.
  destruct (forward_scan_spans _ _ _ _ Hkw (Z.le_refl 0) Hfs) as (Hall & _ & _).
  eapply Forall_impl; [exact Hall|]. simpl.
  intros m (H0 & Hlen & (_ & Hl & Hs)).
  rewrite py_slice_map in Hs. unfold len in *. rewrite length_map in Hl.
  split; [done|]. split; [lia|].
  replace (m_end m) with (m_start m + Z.of_nat (length kwl)) by lia. done.
Qed.

(** C5. On an article unit in which U+0130 comes before "abc" the recorded
    span of the keyword "abc" is [6, 9): an offset into the lower-cased
    copy, which is one code point longer than the text. In the original
    text that range holds "bc ", which is not the keyword up to case, and
    it is what the snippet wraps. *)
Theorem search_offsets_misaligned :
  articles (process_pages init_state 0 [[DI; 19968; TIAO] ++ lit " " ++ [304] ++ lit "abc"])
    = [ex_dotted] /\
  group_unit py_lower 12 (py_lower (lit "abc")) [] ex_dotted
    = Returned [([DI; 19968; TIAO],
                 Entry [DI; 19968; TIAO] (i_content ex_dotted) [Span 6 9])] /\
  py_slice (i_content ex_dotted) (Some 6) (Some 9) = lit "bc " /\
  py_lower (lit "bc ") <> py_lower (lit "abc") /\
  (fun o => match o with
            | Returned [r] => map mp_snippet (sr_matched_pages r)
            | _ => []
            end)
    (search py_lower 12 (lit "abc") (lit "all")
       [<["content" := JContent [ex_dotted]]> ex_law])
  = [[DI; 19968; TIAO] ++ lit " " ++ [304] ++ lit "a" ++ HL_OPEN ++ lit "bc " ++ HL_CLOSE].
Proof.
  split; [by vm_compute|]. split; [by vm_compute|]. split; [by vm_compute|].
  split; [vm_compute; discriminate|]. by vm_compute.
Qed.

(** ** Grouping by label *)

Lemma od_init_keys (k : pystr) (v : entry) (d : odict) :
  NoDup d.*1 -> NoDup (od_init k v d).*1.
Proof.
  intros Hd. unfold od_init. destruct (od_mem k d) eqn:E; [done|].
  rewrite fmap_app. simpl. apply NoDup_app. split; [done|].
  split; [|apply NoDup_singleton].
  intros x Hx ->%list_elem_of_singleton.
  unfold od_mem in E. by apply bool_decide_eq_false in E.
Qed.

Lemma od_get_init (k k' : pystr) (v : entry) (d : odict) :
  od_get k' (od_init k v d) =
  match od_get k' d with
  | Some e => Some e
  | None => if decide (k = k') then Some v else None
  end.
Proof.
  unfold od_init. destruct (od_mem k d) eqn:E.
  - apply od_mem_get in E as [e He].
    destruct (od_get k' d) eqn:E'; [done|].
    destruct (decide (k = k')) as [->|]; [congruence|done].
  - rewrite od_get_app. by destruct (od_get k' d).
Qed.

Section Grouping.
Variable lower : pystr -> pystr.

(** What the loop over the units leaves under one label, from any dict
    [d0] it starts with. *)
Lemma group_units_get (kwl title : pystr) (fuel : nat) (items : list item) :
  kwl <> [] ->
  Forall (fun it => (length (lower (i_content it)) < fuel)%nat) items ->
  forall d0, NoDup d0.*1 ->
    exists d spanss,
      group_units lower fuel kwl items d0 = Returned d /\
      NoDup d.*1 /\
      Forall2 (fun it spans => forward_scan (lower (i_content it)) kwl 0 spans)
              (units_of_label lower kwl title items) spanss /\
      od_get title d =
      match od_get title d0, units_of_label lower kwl title items with
      | Some e, _ => Some (extend_matches (concat spanss) e)
      | None, first :: _ => Some (Entry title (i_content first) (concat spanss))
      | None, [] => None
      end.
Proof.
  intros Hkw Hall. induction Hall as [|it items Hit Hall IH]; intros d0 Hd0.
  - exists d0, []. simpl. split; [done|]. split; [done|]. split; [constructor|].
    destruct (od_get title d0) as [e|]; [by rewrite extend_matches_nil|done].
  - simpl. destruct (group_unit_spec lower kwl it d0 fuel Hkw Hit) as (spans & -> & Hfs).
    simpl. unfold units_of_label. rewrite filter_cons.
    destruct (str_in kwl (lower (i_content it))) eqn:Ein.
    + set (t := extract_article_title (i_content it)) in *.
      set (d1 := od_alter (extend_matches spans) t (od_init t (Entry t (i_content it) []) d0)).
      assert (Hd1 : NoDup d1.*1).
      { unfold d1. rewrite od_alter_keys. by apply od_init_keys. }
      destruct (IH d1 Hd1) as (d & spanss & Hrun & Hnd & Hf2 & Hget).
      assert (Hget1 : od_get title d1 =
                if decide (t = title) then
                  Some (match od_get title d0 with
                        | Some e => extend_matches spans e
                        | None => Entry title (i_content it) spans
                        end)
                else od_get title d0).
      { unfold d1. rewrite od_get_alter, od_get_init.
        destruct (decide (t = title)) as [Ht|Ht]; [|by destruct (od_get title d0)].
        destruct (od_get title d0); simpl; [done|]. by rewrite Ht. }
      destruct (decide (t = title)) as [Ht|Ht].
      * rewrite decide_True by done.
        exists d, (spans :: spanss). split; [done|]. split; [done|].
        split; [by constructor|]. rewrite Hget, Hget1. simpl.
        destruct (od_get title d0); [by rewrite extend_matches_app|].
        unfold extend_matches. simpl. done.
      * rewrite decide_False by tauto.
        exists d, spanss. split; [done|]. split; [done|]. split; [done|].
        by rewrite Hget, Hget1.
    + rewrite decide_False by (intros [? _]; congruence).
      destruct (IH d0 Hd0) as (d & spanss & Hrun & Hnd & Hf2 & Hget).
      by exists d, spanss.
Qed.

(** C2, as the code has it. The units that contain the keyword and carry
    one label share a single entry of [matched_articles], hence a single
    element of [matched_pages]: its matches are the spans of these units,
    unit after unit, and its content, from which the snippet is built, is
    the text of the first of them. *)
Theorem merged_label_uses_first_unit (keyword title : pystr) (fuel : nat)
  (items : list item) :
  lower keyword <> [] ->
  Forall (fun it => (length (lower (i_content it)) < fuel)%nat) items ->
  exists d,
    group_units lower fuel (lower keyword) items [] = Returned d /\
    NoDup (map mp_title (map (page_of keyword) d)) /\
    match units_of_label lower (lower keyword) title items with
    | [] => od_get title d = None
    | first :: rest =>
        exists spanss,
          Forall2 (fun it spans =>
                     forward_scan (lower (i_content it)) (lower keyword) 0 spans)
                  (first :: rest) spanss /\
          od_get title d = Some (Entry title (i_content first) (concat spanss)) /\
          MatchedPage title
            (highlight_all_keywords (i_content first) (concat spanss) keyword)
            keyword (Z.of_nat (length (concat spanss)))
          ∈ map (page_of keyword) d
    end.
Proof.
  intros Hkw Hall.
  destruct (group_units_get (lower keyword) title fuel items Hkw Hall [] (NoDup_nil_2))
    as (d & spanss & Hrun & Hnd & Hf2 & Hget).
  exists d. split; [done|]. split.
  { assert (map mp_title (map (page_of keyword) d) = d.*1) as ->; [|done].
    clear. induction d as [|[k v] d IH]; simpl; [done|by f_equal]. }
  simpl in Hget.
  destruct (units_of_label lower (lower keyword) title items) as [|first rest]; [done|].
  exists spanss. split; [done|]. split; [done|].
  assert (Hin : (title, Entry title (i_content first) (concat spanss)) ∈ d).
  { clear -Hget. induction d as [|[k v] d IH]; simpl in Hget; [done|].
    destruct (decide (k = title)) as [->|]; [injection Hget as ->; by left|].
    right. by apply IH. }
  apply (list_elem_of_fmap_2 (page_of keyword)) in Hin. exact Hin.
Qed.

End Grouping.

Lemma merged_label_uses_first_unit_witness :
  py_lower (lit "abc") <> [] /\
  Forall (fun it => (length (py_lower (i_content it)) < 20)%nat) [ex_dup1; ex_dup2] /\
  exists d,
    group_units py_lower 20 (py_lower (lit "abc")) [ex_dup1; ex_dup2] [] = Returned d /\
    NoDup (map mp_title (map (page_of (lit "abc")) d)) /\
    match units_of_label py_lower (py_lower (lit "abc")) [DI; 19968; TIAO]
            [ex_dup1; ex_dup2] with
    | [] => od_get [DI; 19968; TIAO] d = None
    | first :: rest =>
        exists spanss,
          Forall2 (fun it spans =>
                     forward_scan (py_lower (i_content it)) (py_lower (lit "abc")) 0 spans)
                  (first :: rest) spanss /\
          od_get [DI; 19968; TIAO] d
            = Some (Entry [DI; 19968; TIAO] (i_content first) (concat spanss)) /\
          MatchedPage [DI; 19968; TIAO]
            (highlight_all_keywords (i_content first) (concat spanss) (lit "abc"))
            (lit "abc") (Z.of_nat (length (concat spanss)))
          ∈ map (page_of (lit "abc")) d
    end.
Proof.
  assert (H1 : py_lower (lit "abc") <> []) by (vm_compute; discriminate).
  assert (H2 : Forall (fun it => (length (py_lower (i_content it)) < 20)%nat)
                 [ex_dup1; ex_dup2]) by (repeat constructor; vm_compute; lia).
  split; [exact H1|]. split; [exact H2|].
  exact (merged_label_uses_first_unit py_lower (lit "abc") [DI; 19968; TIAO] 20
           [ex_dup1; ex_dup2] H1 H2).
Defined.

(** C2, as it is worded, fails: two units with the same label give one
    result entry with both spans, and its snippet is built from the text of
    the first unit, which differs from what the text of the last unit
    would give. *)
Lemma merged_label_not_last_unit :
  exists page,
    (fun o => match o with
              | Returned [r] => sr_matched_pages r
              | _ => []
              end)
      (search py_lower 20 (lit "abc") (lit "all")
         [<["content" := JContent [ex_dup1; ex_dup2]]> ex_law])
    = [page] /\
    mp_title page = [DI; 19968; TIAO] /\
    mp_match_count page = 2 /\
    mp_snippet page
      = highlight_all_keywords (i_content ex_dup1) [Span 4 7; Span 8 11] (lit "abc") /\
    mp_snippet page
      <> highlight_all_keywords (i_content ex_dup2) [Span 4 7; Span 8 11] (lit "abc").
Proof.
  eexists. split; [by vm_compute|]. split; [done|]. split; [done|].
  split; [by vm_compute|]. vm_compute. discriminate.
Qed.

(** ** The fields copied into a result *)

Lemma od_alter_length (f : entry -> entry) (k : pystr) (d : odict) :
  length (od_alter f k d) = length d.
Proof. rewrite <- (length_fmap fst), od_alter_keys. apply length_fmap. Qed.

Lemma od_init_length (k : pystr) (v : entry) (d : odict) :
  (length d <= length (od_init k v d) /\ 0 < length (od_init k v d))%nat.
Proof.
  unfold od_init. destruct (od_mem k d) eqn:E.
  - split; [done|]. apply od_mem_get in E as [e He]. destruct d; [done|simpl; lia].
  - rewrite length_app. simpl. lia.
Qed.

Section Fields.
Variable lower : pystr -> pystr.

Lemma group_units_length (kwl : pystr) (fuel : nat) (items : list item) :
  kwl <> [] ->
  Forall (fun it => (length (lower (i_content it)) < fuel)%nat) items ->
  forall d0, exists d,
    group_units lower fuel kwl items d0 = Returned d /\
    (length d0 <= length d)%nat /\
    (Exists (fun it => str_in kwl (lower (i_content it)) = true) items ->
     0 < length d)%nat.
Proof.
  intros Hkw Hall. induction Hall as [|it items Hit Hall IH]; intros d0; simpl.
  - exists d0. split; [done|]. split; [done|]. by intros ?%Exists_nil.
  - destruct (group_unit_spec lower kwl it d0 fuel Hkw Hit) as (spans & -> & _). simpl.
    destruct (str_in kwl (lower (i_content it))) eqn:Ein.
    + match goal with |- context [group_units _ _ _ _ ?d1] =>
        destruct (IH d1) as (d & Hrun & Hlen & _);
        assert (length d0 <= length d1 /\ 0 < length d1)%nat as [? ?]
          by (rewrite od_alter_length; apply od_init_length)
      end.
      exists d. split; [done|]. split; lia.
    + destruct (IH d0) as (d & Hrun & Hlen & Hex).
      exists d. split; [done|]. split; [done|].
      intros [?|?]%Exists_cons; [congruence|by apply Hex].
Qed.

(** C10. For a document record without ["total_pages"] that passes the
    type filter and has a unit containing the keyword, the loop body
    returns a result whose [total_pages] is 1 when ["title"], ["year"] and
    ["filename"] are present, copying these three; when one of them is
    missing it raises [KeyError] for the first missing one. *)
Theorem total_pages_defaults_to_one (fuel : nat) (keyword law_type : pystr)
  (d : law) (items : list item) :
  lower keyword <> [] ->
  d !! "content" = Some (JContent items) ->
  Forall (fun it => (length (lower (i_content it)) < fuel)%nat) items ->
  Exists (fun it => str_in (lower keyword) (lower (i_content it)) = true) items ->
  (law_type = lit "all" \/
   exists s, d !! "title" = Some (JStr s) /\ lower s = lower law_type) ->
  d !! "total_pages" = None ->
  match d !! "title", d !! "year", d !! "filename" with
  | Some t, Some y, Some f =>
      exists pages,
        pages <> [] /\
        search_law lower fuel keyword law_type d
        = Returned (Some (SearchResult t y f (JInt 1) pages
                            (foldr Z.add 0 (map mp_match_count pages))))
  | None, _, _ =>
      search_law lower fuel keyword law_type d = Raised (KeyError "title")
  | Some _, None, _ =>
      search_law lower fuel keyword law_type d = Raised (KeyError "year")
  | Some _, Some _, None =>
      search_law lower fuel keyword law_type d = Raised (KeyError "filename")
  end.
Proof.
  intros Hkw Hcontent Hfuel Hex Hfilter Hpages.
  destruct (group_units_length (lower keyword) fuel items Hkw Hfuel [])
    as (ma & Hrun & _ & Hpos).
  specialize (Hpos Hex).
  assert (Hskip : (if bool_decide (law_type <> lit "all")
                   then title_differs lower law_type d
                   else Returned false) = Returned false).
  { destruct (bool_decide (law_type <> lit "all")) eqn:E; [|done].
    apply bool_decide_eq_true in E.
    destruct Hfilter as [?|(s & Hs & Heq)]; [done|].
    unfold title_differs, getitem. rewrite Hs. simpl.
    by rewrite bool_decide_eq_false_2 by (intros H; by apply H). }
  unfold search_law. rewrite Hskip. cbn [bind].
  unfold getitem. rewrite Hcontent. cbn [bind content_items]. rewrite Hrun. cbn [bind].
  destruct ma as [|kv ma]; [simpl in Hpos; lia|]. cbn [map].
  rewrite Hpages.
  destruct (d !! "title") as [t|]; [|done].
  destruct (d !! "year") as [y|]; [|done].
  destruct (d !! "filename") as [f|]; [|done].
  cbn [bind default].
  exists (page_of keyword kv :: map (page_of keyword) ma). split; [done|reflexivity].
Qed.

End Fields.

Lemma total_pages_defaults_to_one_witness :
  py_lower THEFT <> [] /\
  delete "total_pages" ex_law !! "content"
    = Some (JContent [Item chapter ex_chapter 1;
                      Item article (ex_article1 ++ SPACE) 1;
                      Item article (ex_article2 ++ SPACE) 1]) /\
  delete "total_pages" ex_law !! "total_pages" = None /\
  exists pages,
    pages <> [] /\
    search_law py_lower 20 THEFT (lit "all") (delete "total_pages" ex_law)
    = Returned (Some (SearchResult (JStr [21009; 27861]) (JStr (lit "1997"))
                        (JStr ex_filename) (JInt 1) pages
                        (foldr Z.add 0 (map mp_match_count pages)))).
Proof.
  assert (H1 : py_lower THEFT <> []) by (vm_compute; discriminate).
  assert (H2 : delete "total_pages" ex_law !! "content"
               = Some (JContent [Item chapter ex_chapter 1;
                                 Item article (ex_article1 ++ SPACE) 1;
                                 Item article (ex_article2 ++ SPACE) 1]))
    by (by vm_compute).
  assert (H3 : delete "total_pages" ex_law !! "total_pages" = None) by (by vm_compute).
  split; [exact H1|]. split; [exact H2|]. split; [exact H3|].
  assert (H4 : Forall (fun it => (length (py_lower (i_content it)) < 20)%nat)
                 [Item chapter ex_chapter 1;
                  Item article (ex_article1 ++ SPACE) 1;
                  Item article (ex_article2 ++ SPACE) 1])
    by (repeat constructor; vm_compute; lia).
  assert (H5 : Exists (fun it => str_in (py_lower THEFT) (py_lower (i_content it)) = true)
                 [Item chapter ex_chapter 1;
                  Item article (ex_article1 ++ SPACE) 1;
                  Item article (ex_article2 ++ SPACE) 1])
    by (right; left; by vm_compute).
  exact (total_pages_defaults_to_one py_lower 20 THEFT (lit "all")
           (delete "total_pages" ex_law) _ H1 H2 H4 H5 (or_introl eq_refl) H3).
Defined.

(** ** Stripping and splitting *)

Lemma str_in_char (c : Z) (s : pystr) : str_in [c] s = true <-> c ∈ s.
Proof.
  induction s as [|b s IH]; simpl.
  - split; [done|by intros ?%elem_of_nil].
  - rewrite orb_true_iff, IH, elem_of_cons, andb_true_r, Z.eqb_eq. tauto.
Qed.

Lemma elem_of_rev (c : Z) (s : pystr) : c ∈ rev s <-> c ∈ s.
Proof. rewrite !list_elem_of_In. symmetry. apply in_rev. Qed.

Lemma lstrip_elem (c : Z) (s : pystr) :
  is_space c = false -> c ∈ lstrip s <-> c ∈ s.
Proof.
  intros Hc. induction s as [|b s IH]; simpl; [done|].
  destruct (is_space b) eqn:Eb; [|done].
  rewrite IH, elem_of_cons. split; [tauto|]. intros [->|?]; [congruence|done].
Qed.

Lemma strip_elem (c : Z) (s : pystr) :
  is_space c = false -> c ∈ strip s <-> c ∈ s.
Proof.
  intros Hc. unfold strip, rstrip.
  by rewrite elem_of_rev, lstrip_elem, elem_of_rev, lstrip_elem.
Qed.

Lemma str_in_strip (c : Z) (s : pystr) :
  is_space c = false -> str_in [c] (strip s) = str_in [c] s.
Proof.
  intros Hc. apply eq_true_iff_eq. by rewrite !str_in_char, strip_elem.
Qed.

Lemma is_marker_strip (raw : pystr) : is_marker (strip raw) = is_marker raw.
Proof. unfold is_marker. by rewrite !str_in_strip. Qed.

Lemma split_elem (sep c : Z) (s l : pystr) : l ∈ split sep s -> c ∈ l -> c ∈ s.
Proof.
  revert l. induction s as [|b s IH]; intros l; simpl.
  - intros ->%list_elem_of_singleton. by intros ?%elem_of_nil.
  - destruct (b =? sep).
    + intros [->|Hl]%elem_of_cons; [by intros ?%elem_of_nil|].
      intros Hc. right. by apply (IH l).
    + destruct (split sep s) as [|l0 ls] eqn:E.
      * intros ->%list_elem_of_singleton. intros ->%list_elem_of_singleton. by left.
      * intros [->|Hl]%elem_of_cons.
        -- intros [->|Hc]%elem_of_cons; [by left|]. right. apply (IH l0); [by left|done].
        -- intros Hc. right. apply (IH l); [by right|done].
Qed.

(** A blank page has no marker line. *)
Lemma blank_page_no_marker (text : pystr) :
  strip text = [] -> existsb is_marker (split NEWLINE text) = false.
Proof.
  intros Hblank. apply not_true_is_false. intros H.
  apply existsb_exists in H as (l & Hl & Hm).
  apply list_elem_of_In in Hl.
  unfold is_marker in Hm. apply andb_true_iff in Hm as [Hdi _].
  apply str_in_char in Hdi.
  assert (DI ∈ strip text) as Hin.
  { apply strip_elem; [done|]. by apply (split_elem NEWLINE DI text l). }
  rewrite Hblank in Hin. by apply elem_of_nil in Hin.
Qed.

(** ** The structurer's loop *)

Lemma process_pages_lines (pages : list pystr) :
  forall st page_num,
    process_pages st page_num pages = fold_left step_line (doc_lines page_num pages) st.
Proof.
  induction pages as [|text rest IH]; intros st n; simpl; [done|].
  rewrite fold_left_app, IH. f_equal. unfold process_page.
  destruct (strip text); [done|].
  generalize (split NEWLINE text). intros ls. revert st.
  induction ls as [|l ls IHl]; intros st; simpl; [done|]. apply IHl.
Qed.

Lemma doc_lines_marker (pages : list pystr) (page_num : Z) :
  existsb (fun pl => is_marker (strip pl.2)) (doc_lines page_num pages)
  = has_marker_line pages.
Proof.
  revert page_num. induction pages as [|text rest IH]; intros n; simpl; [done|].
  rewrite existsb_app, IH. f_equal.
  destruct (strip text) eqn:E.
  - simpl. symmetry. by apply blank_page_no_marker.
  - generalize (split NEWLINE text). intros ls.
    induction ls as [|l ls IHl]; simpl; [done|].
    by rewrite IHl, is_marker_strip.
Qed.

Lemma process_line_cases (page : Z) (st : parse_state) (raw : pystr) :
  process_line page st raw =
  if is_chapter_line (strip raw) then
    ParseState (articles st ++ [Item chapter (strip raw) page]) None
  else if is_article_line (strip raw) then
    ParseState (articles st ++ [Item article (strip raw ++ SPACE) page])
               (Some (length (articles st)))
  else
    match current_article st, strip raw with
    | Some i, _ :: _ =>
        ParseState
          (alter (set_content (fun c => c ++ strip raw ++ SPACE)) i (articles st))
          (Some i)
    | _, _ => st
    end.
Proof.
  unfold process_line, is_article_line, is_chapter_line.
  destruct (str_in [DI] (strip raw) && str_in [ZHANG] (strip raw)); [done|]. simpl.
  by destruct (str_in [DI] (strip raw) && str_in [TIAO] (strip raw)).
Qed.

Lemma is_marker_cases (line : pystr) :
  is_marker line = is_chapter_line line || is_article_line line.
Proof.
  unfold is_marker, is_article_line, is_chapter_line.
  destruct (str_in [DI] line), (str_in [TIAO] line), (str_in [ZHANG] line); done.
Qed.

Lemma process_line_length (page : Z) (st : parse_state) (raw : pystr) :
  length (articles (process_line page st raw))
  = (length (articles st) + if is_marker (strip raw) then 1 else 0)%nat.
Proof.
  rewrite process_line_cases, is_marker_cases.
  destruct (is_chapter_line (strip raw)); simpl; [by rewrite length_app|].
  destruct (is_article_line (strip raw)); simpl; [by rewrite length_app|].
  destruct (current_article st), (strip raw); simpl; rewrite ?length_alter; lia.
Qed.

Lemma fold_lines_length (ls : list (Z * pystr)) :
  forall st,
    length (articles (fold_left step_line ls st))
    = (length (articles st)
       + length (filter (fun pl => is_marker (strip pl.2) = true) ls))%nat.
Proof.
  induction ls as [|pl ls IH]; intros st; simpl; [lia|].
  rewrite IH. unfold step_line at 1. rewrite process_line_length, filter_cons.
  destruct (is_marker (strip pl.2)) eqn:E.
  - rewrite decide_True by done. simpl. lia.
  - rewrite decide_False by done. lia.
Qed.

(** ** The index builder *)

Section Builder.
Variable lower : pystr -> pystr.
Variable now_year : Z.

Lemma build_step_acc (acc : list law * list pystr) (file : pystr * source) :
  build_step lower now_year acc file
  = (acc.1 ++ (build_step lower now_year ([], []) file).1,
     acc.2 ++ (build_step lower now_year ([], []) file).2).
Proof.
  destruct acc as [a b], file as [filename src]. unfold build_step. simpl.
  destruct (accepted lower filename); simpl; [|by rewrite !app_nil_r].
  destruct (extract_pdf_content now_year filename src); simpl; by rewrite ?app_nil_r.
Qed.

Lemma build_fold_acc (files : list (pystr * source)) :
  forall acc,
    fold_left (build_step lower now_year) files acc
    = (acc.1 ++ (fold_left (build_step lower now_year) files ([], [])).1,
       acc.2 ++ (fold_left (build_step lower now_year) files ([], [])).2).
Proof.
  induction files as [|file files IH]; intros acc; simpl.
  - rewrite !app_nil_r. by destruct acc.
  - rewrite IH, (IH (build_step lower now_year ([], []) file)).
    rewrite (build_step_acc acc). simpl. by rewrite !app_assoc.
Qed.

Lemma build_fold_app (pre post : list (pystr * source)) :
  fold_left (build_step lower now_year) (pre ++ post) ([], [])
  = ((fold_left (build_step lower now_year) pre ([], [])).1
       ++ (fold_left (build_step lower now_year) post ([], [])).1,
     (fold_left (build_step lower now_year) pre ([], [])).2
       ++ (fold_left (build_step lower now_year) post ([], [])).2).
Proof. by rewrite fold_left_app, build_fold_acc. Qed.

(** A file the structurer gives no record for is listed as invalid, and
    the records of the other files are those a build without it gives. *)
Lemma build_fold_rejected (pre post : list (pystr * source)) (filename : pystr)
  (src : source) :
  accepted lower filename = true ->
  extract_pdf_content now_year filename src = None ->
  fold_left (build_step lower now_year) (pre ++ (filename, src) :: post) ([], [])
  = ((fold_left (build_step lower now_year) (pre ++ post) ([], [])).1,
     (fold_left (build_step lower now_year) pre ([], [])).2 ++
     filename :: (fold_left (build_step lower now_year) post ([], [])).2).
Proof.
  intros Hacc Hnone.
  rewrite (build_fold_app pre ((filename, src) :: post)), (build_fold_app pre post).
  change (fold_left (build_step lower now_year) ((filename, src) :: post) ([], []))
    with (fold_left (build_step lower now_year) post
            (build_step lower now_year ([], []) (filename, src))).
  assert (build_step lower now_year ([], []) (filename, src) = ([], [filename])) as ->.
  { unfold build_step. by rewrite Hacc, Hnone. }
  by rewrite (build_fold_acc post ([], [filename])).
Qed.

End Builder.

Lemma existsb_filter_length {A} (f : A -> bool) (l : list A) :
  existsb f l = false <-> length (filter (fun x => f x = true) l) = 0%nat.
Proof.
  induction l as [|x l IH]; simpl; [done|].
  rewrite filter_cons. destruct (decide (f x = true)) as [E|E].
  - rewrite E. simpl. split; intros; discriminate.
  - apply not_true_is_false in E. by rewrite E.
Qed.

(** C7. When the document opens, the structurer returns a record exactly
    when some line of some page is a chapter or article marker, and the
    content of that record is then not empty; when no line is a marker it
    returns nothing, and a build that meets the file under an accepted
    name lists the file name as invalid. *)
Theorem structuring_completeness (now_year : Z) (filename : pystr)
  (pages : list pystr) (last_modified : pystr) :
  match extract_pdf_content now_year filename (Opened pages last_modified) with
  | Some d =>
      has_marker_line pages = true /\
      exists arts, d !! "content" = Some (JContent arts) /\ arts <> []
  | None =>
      has_marker_line pages = false /\
      forall lower now pre post,
        accepted lower filename = true ->
        exists art,
          (build_index lower now_year now
             (Some (pre ++ (filename, Opened pages last_modified) :: post))).2
          = Some art /\
          filename ∈ invalid_files art
  end.
Proof.
  pose proof (fold_lines_length (doc_lines 0 pages) init_state) as Hlen.
  rewrite <- process_pages_lines in Hlen. simpl in Hlen.
  pose proof (existsb_filter_length (fun pl => is_marker (strip pl.2)) (doc_lines 0 pages))
    as Hex.
  rewrite doc_lines_marker in Hex.
  destruct (extract_pdf_content now_year filename (Opened pages last_modified))
    as [d|] eqn:E.
  - simpl in E.
    destruct (articles (process_pages init_state 0 pages)) as [|a arts] eqn:Ea; [done|].
    injection E as <-. split.
    + apply not_false_iff_true. intros H. apply Hex in H. simpl in Hlen.
      rewrite H in Hlen. done.
    + exists (a :: arts). split; [|done].
      by rewrite !lookup_insert_ne, lookup_insert_eq by done.
  - assert (Hempty : articles (process_pages init_state 0 pages) = []).
    { simpl in E. by destruct (articles (process_pages init_state 0 pages)). }
    split.
    + apply Hex. rewrite Hempty in Hlen. simpl in Hlen. lia.
    + intros lower now pre post Hacc. unfold build_index.
      rewrite (build_fold_rejected lower now_year pre post filename _ Hacc E).
      eexists. split; [reflexivity|]. simpl.
      apply elem_of_app. right. by left.
Qed.

Lemma structuring_completeness_witness :
  has_marker_line [ex_line_b; lit "abc"] = false /\
  accepted py_lower (lit "notes.docx") = true /\
  exists art,
    (build_index py_lower 2026 (lit "2026-11-03 10:00:00")
       (Some ([] ++ (lit "notes.docx", Opened [ex_line_b; lit "abc"] (lit "2024-05-01"))
                 :: ex_dir_pre))).2
    = Some art /\
    lit "notes.docx" ∈ invalid_files art.
Proof.
  assert (E : extract_pdf_content 2026 (lit "notes.docx")
                (Opened [ex_line_b; lit "abc"] (lit "2024-05-01")) = None)
    by (by vm_compute).
  assert (Hacc : accepted py_lower (lit "notes.docx") = true) by (by vm_compute).
  pose proof (structuring_completeness 2026 (lit "notes.docx") [ex_line_b; lit "abc"]
                (lit "2024-05-01")) as H.
  rewrite E in H. destruct H as [Hm Hb].
  split; [exact Hm|]. split; [exact Hacc|].
  exact (Hb py_lower (lit "2026-11-03 10:00:00") [] ex_dir_pre Hacc).
Defined.

(** The sample page gives a record with its three units; a page without a
    marker line gives none. *)
Example structure_ex_page :
  extract_pdf_content 2026 ex_filename (Opened [ex_page] (lit "2024-05-01")) = Some ex_law.
Proof. by vm_compute. Qed.

Example structure_no_marker :
  extract_pdf_content 2026 ex_filename (Opened [ex_line_b; lit "abc"] (lit "2024-05-01"))
  = None.
Proof. by vm_compute. Qed.

(** A file without a marker line is listed as invalid by the build. *)
Example build_no_marker_invalid :
  (fun r => (length r.1, invalid_files <$> r.2))
    (build_index py_lower 2026 (lit "2026-11-03 10:00:00")
       (Some [(lit "notes.docx", Opened [ex_line_b; lit "abc"] (lit "2024-05-01"));
              (ex_filename, Opened [ex_page] (lit "2024-05-01"));
              (lit "readme.txt", ExtractionError)]))
  = (1%nat, Some [lit "notes.docx"]).
Proof. by vm_compute. Qed.

(** C9. When the page text source raises for a file with an accepted
    name, [extract_pdf_content] returns [None]; the build still writes its
    artifact, whose laws are exactly those of a build of the other files,
    and whose invalid files are those of that build with the failing file
    name added at its place in the listing. *)
Theorem build_isolates_failures (lower : pystr -> pystr) (now_year : Z) (now : pystr)
  (pre post : list (pystr * source)) (filename : pystr) :
  accepted lower filename = true ->
  extract_pdf_content now_year filename ExtractionError = None /\
  exists art others,
    build_index lower now_year now (Some (pre ++ (filename, ExtractionError) :: post))
      = (laws art, Some art) /\
    build_index lower now_year now (Some (pre ++ post)) = (laws others, Some others) /\
    laws art = laws others /\
    exists inv1 inv2,
      invalid_files art = inv1 ++ filename :: inv2 /\
      invalid_files others = inv1 ++ inv2.
Proof.
  intros Hacc. split; [done|]. unfold build_index.
  rewrite (build_fold_rejected lower now_year pre post filename ExtractionError Hacc eq_refl).
  rewrite (build_fold_app lower now_year pre post).
  eexists (IndexArtifact _ _ _ _ _), (IndexArtifact _ _ _ _ _).
  simpl. split; [reflexivity|]. split; [reflexivity|]. split; [reflexivity|].
  eexists _, _. split; reflexivity.
Qed.

Lemma build_isolates_failures_witness :
  accepted py_lower (lit "bad.pdf") = true /\
  extract_pdf_content 2026 (lit "bad.pdf") ExtractionError = None /\
  exists art others,
    build_index py_lower 2026 (lit "2026-11-03 10:00:00")
      (Some (ex_dir_pre ++ (lit "bad.pdf", ExtractionError) :: ex_dir_post))
      = (laws art, Some art) /\
    build_index py_lower 2026 (lit "2026-11-03 10:00:00") (Some (ex_dir_pre ++ ex_dir_post))
      = (laws others, Some others) /\
    laws art = laws others /\
    exists inv1 inv2,
      invalid_files art = inv1 ++ lit "bad.pdf" :: inv2 /\
      invalid_files others = inv1 ++ inv2.
Proof.
  assert (H : accepted py_lower (lit "bad.pdf") = true) by (by vm_compute).
  split; [exact H|].
  exact (build_isolates_failures py_lower 2026 (lit "2026-11-03 10:00:00")
           ex_dir_pre ex_dir_post (lit "bad.pdf") H).
Defined.

(** On that directory both readable files are indexed and only the
    failing one is listed as invalid. *)
Example build_ex_dir :
  (fun r => (length r.1, invalid_files <$> r.2))
    (build_index py_lower 2026 (lit "2026-11-03 10:00:00")
       (Some (ex_dir_pre ++ (lit "bad.pdf", ExtractionError) :: ex_dir_post)))
  = (2%nat, Some [lit "bad.pdf"]).
Proof. by vm_compute. Qed.

(** ** Accumulation of article text *)

Lemma not_marker_cases (line : pystr) :
  is_marker line = false -> is_chapter_line line = false /\ is_article_line line = false.
Proof. rewrite is_marker_cases. by intros ?%orb_false_iff. Qed.

(** Lines that are no markers leave the state alone while no article is
    current. *)
Lemma fold_body_none (ls : list (Z * pystr)) (st : parse_state) :
  Forall (fun pl => is_marker (strip pl.2) = false) ls ->
  current_article st = None ->
  fold_left step_line ls st = st.
Proof.
  intros Hall. revert st. induction Hall as [|pl ls Hpl Hall IH]; intros st Hc; simpl; [done|].
  assert (step_line st pl = st) as ->; [|by apply IH].
  unfold step_line. rewrite process_line_cases.
  apply not_marker_cases in Hpl as [-> ->]. by rewrite Hc.
Qed.

Lemma body_text_cons (pl : Z * pystr) (ls : list (Z * pystr)) :
  body_text (pl :: ls)
  = match strip pl.2 with [] => [] | _ :: _ => strip pl.2 ++ SPACE end ++ body_text ls.
Proof.
  unfold body_text. cbn [map]. rewrite filter_cons.
  destruct (strip pl.2) as [|c line].
  - by rewrite decide_False by (intros H; by apply H).
  - by rewrite decide_True by done.
Qed.

(** While an article is current they extend the element it refers to. *)
Lemma fold_body_some (ls : list (Z * pystr)) :
  Forall (fun pl => is_marker (strip pl.2) = false) ls ->
  forall st i x,
    current_article st = Some i -> articles st !! i = Some x ->
    current_article (fold_left step_line ls st) = Some i /\
    articles (fold_left step_line ls st) !! i
      = Some (set_content (fun c => c ++ body_text ls) x).
Proof.
  intros Hall. induction Hall as [|pl ls Hpl Hall IH]; intros st i x Hc Hx;
    cbn [fold_left].
  - split; [done|]. rewrite Hx. f_equal. destruct x. unfold set_content, body_text. simpl.
    by rewrite app_nil_r.
  - apply not_marker_cases in Hpl as [Hch Har].
    rewrite body_text_cons.
    assert (Hstep : step_line st pl =
              match strip pl.2 with
              | [] => st
              | _ :: _ =>
                  ParseState
                    (alter (set_content (fun s => s ++ strip pl.2 ++ SPACE)) i (articles st))
                    (Some i)
              end).
    { unfold step_line. rewrite process_line_cases, Hch, Har, Hc.
      by destruct (strip pl.2). }
    rewrite Hstep. destruct (strip pl.2) as [|c line] eqn:E.
    + by apply IH.
    + destruct (IH (ParseState
                      (alter (set_content (fun s => s ++ (c :: line) ++ SPACE)) i (articles st))
                      (Some i)) i
                  (set_content (fun s => s ++ (c :: line) ++ SPACE) x)) as [H1 H2];
        [done| |].
      { simpl. by rewrite list_lookup_alter_eq, Hx. }
      split; [done|]. rewrite H2. f_equal. destruct x. unfold set_content. simpl.
      f_equal. by rewrite <- (app_assoc i_content0).
Qed.

(** An element no longer referred to is never touched again. *)
Lemma step_frozen (k : nat) (x : item) (st : parse_state) (pl : Z * pystr) :
  articles st !! k = Some x -> current_article st <> Some k ->
  articles (step_line st pl) !! k = Some x /\ current_article (step_line st pl) <> Some k.
Proof.
  intros Hx Hc. pose proof (lookup_lt_Some _ _ _ Hx) as Hlt.
  unfold step_line. rewrite process_line_cases.
  destruct (is_chapter_line (strip pl.2)); simpl.
  { split; [by apply lookup_app_l_Some|discriminate]. }
  destruct (is_article_line (strip pl.2)); simpl.
  { split; [by apply lookup_app_l_Some|]. intros [= ?]. lia. }
  destruct (current_article st) as [i|] eqn:Ec, (strip pl.2) as [|c l];
    simpl; rewrite ?Ec; try done.
  split; [|done]. rewrite list_lookup_alter_ne; [done|]. intros ->. done.
Qed.

Lemma fold_frozen (k : nat) (x : item) (ls : list (Z * pystr)) :
  forall st,
    articles st !! k = Some x -> current_article st <> Some k ->
    articles (fold_left step_line ls st) !! k = Some x.
Proof.
  induction ls as [|pl ls IH]; intros st Hx Hc; simpl; [done|].
  destruct (step_frozen k x st pl Hx Hc). by apply IH.
Qed.

(** A marker line takes the reference away from the element it was on. *)
Lemma marker_freezes (k : nat) (x : item) (st : parse_state) (pl : Z * pystr) :
  is_marker (strip pl.2) = true ->
  articles st !! k = Some x ->
  articles (step_line st pl) !! k = Some x /\ current_article (step_line st pl) <> Some k.
Proof.
  intros Hm Hx. pose proof (lookup_lt_Some _ _ _ Hx) as Hlt.
  unfold step_line. rewrite process_line_cases.
  rewrite is_marker_cases in Hm.
  destruct (is_chapter_line (strip pl.2)); simpl.
  { split; [by apply lookup_app_l_Some|discriminate]. }
  simpl in Hm. rewrite Hm. simpl.
  split; [by apply lookup_app_l_Some|]. intros [= ?]. lia.
Qed.

(** C8. Of the lines the structurer runs through, take a marker line, the
    lines [body] after it up to the next marker (or to the end), and
    whatever comes before and after. The unit the marker line starts is
    the one at the position given by the number of markers before it. If
    the line is a chapter marker, the unit's text is the stripped line and
    nothing else, whatever follows. Otherwise it is an article, and its
    text is the stripped line and a space, followed by every line of
    [body] that is not empty once stripped, each with a space, in order,
    page boundaries playing no part. *)
Theorem article_text_accumulates (pages : list pystr) (pre body post : list (Z * pystr))
  (p : Z) (raw : pystr) :
  doc_lines 0 pages = pre ++ (p, raw) :: body ++ post ->
  is_marker (strip raw) = true ->
  Forall (fun pl => is_marker (strip pl.2) = false) body ->
  (post = [] \/ exists pl post', post = pl :: post' /\ is_marker (strip pl.2) = true) ->
  articles (process_pages init_state 0 pages) !! marker_count pre
  = Some (if is_chapter_line (strip raw) then Item chapter (strip raw) p
          else Item article (strip raw ++ SPACE ++ body_text body) p).
Proof.
  intros Hlines Hm Hbody Hpost.
  rewrite process_pages_lines, Hlines, fold_left_app. cbn [fold_left].
  rewrite fold_left_app.
  pose proof (fold_lines_length pre init_state) as Hk. simpl in Hk.
  fold (marker_count pre) in Hk.
  set (st1 := fold_left step_line pre init_state) in *.
  rewrite <- Hk. clear Hk.
  unfold step_line at 3. cbn [fst snd]. rewrite process_line_cases.
  rewrite is_marker_cases in Hm.
  destruct (is_chapter_line (strip raw)) eqn:Ech.
  - rewrite (fold_body_none body
               (ParseState (articles st1 ++ [Item chapter (strip raw) p]) None)
               Hbody eq_refl).
    apply fold_frozen; simpl; [|discriminate].
    by apply list_lookup_middle.
  - simpl in Hm. rewrite Hm.
    destruct (fold_body_some body Hbody
                (ParseState (articles st1 ++ [Item article (strip raw ++ SPACE) p])
                            (Some (length (articles st1))))
                (length (articles st1)) (Item article (strip raw ++ SPACE) p))
      as [Hc Hx]; [done| |].
    { simpl. by apply list_lookup_middle. }
    assert (Hx' : articles
                    (fold_left step_line body
                       (ParseState (articles st1 ++ [Item article (strip raw ++ SPACE) p])
                                   (Some (length (articles st1))))) !! length (articles st1)
                  = Some (Item article (strip raw ++ SPACE ++ body_text body) p)).
    { rewrite Hx. unfold set_content. simpl. by rewrite <- app_assoc. }
    destruct Hpost as [->|(pl & post' & -> & Hpl)]; [done|].
    cbn [fold_left].
    destruct (marker_freezes _ _ _ pl Hpl Hx') as [H1 H2].
    by apply fold_frozen.
Qed.

Lemma article_text_accumulates_witness :
  doc_lines 0 [ex_line_a; ex_line_b] = [] ++ (1, ex_line_a) :: [(2, ex_line_b)] ++ [] /\
  is_marker (strip ex_line_a) = true /\
  Forall (fun pl => is_marker (strip pl.2) = false) [(2, ex_line_b)] /\
  articles (process_pages init_state 0 [ex_line_a; ex_line_b]) !! 0%nat
  = Some (Item article (ex_line_a ++ lit " " ++ ex_line_b ++ lit " ") 1).
Proof.
  assert (H1 : doc_lines 0 [ex_line_a; ex_line_b]
               = [] ++ (1, ex_line_a) :: [(2, ex_line_b)] ++ []) by (by vm_compute).
  assert (H2 : is_marker (strip ex_line_a) = true) by (by vm_compute).
  assert (H3 : Forall (fun pl => is_marker (strip pl.2) = false) [(2, ex_line_b)])
    by (repeat constructor).
  split; [exact H1|]. split; [exact H2|]. split; [exact H3|].
  exact (article_text_accumulates [ex_line_a; ex_line_b] [] [(2, ex_line_b)] [] 1
           ex_line_a H1 H2 H3 (or_introl eq_refl)).
Defined.

(** The accumulation example in full: the two pages give one article unit,
    on page 1, whose text contains both the words of the article line and
    the continuation line. *)
Example accumulate_two_pages :
  articles (process_pages init_state 0 [ex_line_a; ex_line_b])
  = [Item article (ex_line_a ++ lit " " ++ ex_line_b ++ lit " ") 1] /\
  str_in ([20869; 23481] ++ lit "A") (ex_line_a ++ lit " " ++ ex_line_b ++ lit " ") = true /\
  str_in ex_line_b (ex_line_a ++ lit " " ++ ex_line_b ++ lit " ") = true.
Proof. by vm_compute. Qed.

(** ** Label patterns *)

Lemma numeral_run_spec (s : pystr) :
  s = (numeral_run s).1 ++ (numeral_run s).2 /\
  Forall (fun c => is_numeral c = true) (numeral_run s).1 /\
  match (numeral_run s).2 with
  | [] => True
  | d :: _ => is_numeral d = false
  end.
Proof.
  induction s as [|c s IH]; simpl; [done|].
  destruct (is_numeral c) eqn:E.
  - destruct (numeral_run s) as [run rest]. simpl in *.
    destruct IH as (-> & Hall & Hrest). by repeat split; [constructor|].
  - simpl. by repeat split.
Qed.

Lemma numeral_run_app (run rest : pystr) :
  Forall (fun c => is_numeral c = true) run ->
  match rest with [] => True | d :: _ => is_numeral d = false end ->
  numeral_run (run ++ rest) = (run, rest).
Proof.
  intros Hall Hrest. induction Hall as [|c run Hc Hall IH]; simpl.
  - destruct rest as [|d rest]; [done|]. simpl. by rewrite Hrest.
  - by rewrite Hc, IH.
Qed.

Lemma match_here_spec (closing : Z) (s m : pystr) :
  is_numeral closing = false ->
  match_here closing s = Some m <-> is_label closing m /\ exists post, s = m ++ post.
Proof.
  intros Hcl. split.
  - destruct s as [|c s]; simpl; [done|].
    destruct (Z.eqb_spec c DI) as [->|]; [|done].
    pose proof (numeral_run_spec s) as (Hs & Hall & _).
    destruct (numeral_run s) as [[|n run] [|d rest]]; try done.
    destruct (Z.eqb_spec d closing) as [->|]; [|done]. intros [= <-].
    simpl in Hs, Hall. split.
    + exists (n :: run). by repeat split.
    + exists rest. rewrite Hs. simpl. by rewrite <- app_assoc.
  - intros [(run & Hne & Hall & ->) (post & ->)]. unfold match_here.
    change ((DI :: run ++ [closing]) ++ post) with (DI :: ((run ++ [closing]) ++ post)).
    cbv beta iota. rewrite Z.eqb_refl, <- app_assoc. cbn [app].
    rewrite (numeral_run_app run (closing :: post)) by done.
    destruct run as [|n run]; [done|]. by rewrite Z.eqb_refl.
Qed.

Lemma label_at_zero (closing : Z) (s m : pystr) :
  is_numeral closing = false ->
  label_at closing s 0 m <-> match_here closing s = Some m.
Proof. intros Hcl. unfold label_at. simpl. by rewrite match_here_spec. Qed.

Lemma label_at_succ (closing : Z) (c : Z) (s m : pystr) (i : nat) :
  label_at closing (c :: s) (S i) m <-> label_at closing s i m.
Proof. done. Qed.

Lemma re_search_some (closing : Z) (s m : pystr) :
  is_numeral closing = false ->
  re_search closing s = Some m ->
  exists i, label_at closing s i m /\ no_label_before closing s i.
Proof.
  intros Hcl. induction s as [|c s IH]; cbn [re_search].
  - done.
  - destruct (match_here closing (c :: s)) as [m'|] eqn:E.
    + intros [= ->]. exists 0%nat. split; [by apply label_at_zero|].
      intros j m' Hj. lia.
    + intros H. destruct (IH H) as (i & Hi & Hmin). exists (S i).
      split; [done|]. intros [|j] m' Hj.
      * rewrite label_at_zero by done. congruence.
      * rewrite label_at_succ. apply Hmin. lia.
Qed.

Lemma re_search_none (closing : Z) (s : pystr) :
  is_numeral closing = false ->
  re_search closing s = None ->
  forall i m, ~ label_at closing s i m.
Proof.
  intros Hcl. induction s as [|c s IH]; cbn [re_search].
  - intros _ i m [(run & _ & _ & ->) (post & Hpost)].
    rewrite drop_nil in Hpost. done.
  - destruct (match_here closing (c :: s)) as [m'|] eqn:E; [done|].
    intros H [|i] m.
    + rewrite label_at_zero by done. congruence.
    + rewrite label_at_succ. by apply IH.
Qed.

(** A match is determined by where it starts. *)
Lemma label_at_unique (closing : Z) (s : pystr) (i : nat) (m m' : pystr) :
  is_numeral closing = false ->
  label_at closing s i m -> label_at closing s i m' -> m = m'.
Proof.
  intros Hcl [Hm (post & Hpost)] [Hm' (post' & Hpost')].
  assert (match_here closing (drop i s) = Some m) as H1.
  { apply match_here_spec; [done|]. split; [done|]. by exists post. }
  assert (match_here closing (drop i s) = Some m') as H2.
  { apply match_here_spec; [done|]. split; [done|]. by exists post'. }
  congruence.
Qed.

Lemma numeral_TIAO : is_numeral TIAO = false.
Proof. done. Qed.

Lemma numeral_ZHANG : is_numeral ZHANG = false.
Proof. done. Qed.

Lemma re_search_found (closing : Z) (s : pystr) (i : nat) (m : pystr) :
  is_numeral closing = false -> label_at closing s i m ->
  exists i0 m0, re_search closing s = Some m0 /\ (i0 <= i)%nat /\
                label_at closing s i0 m0 /\ no_label_before closing s i0.
Proof.
  intros Hcl Hm. destruct (re_search closing s) as [m0|] eqn:E.
  - destruct (re_search_some closing s m0 Hcl E) as (i0 & Hi0 & Hmin).
    exists i0, m0. split; [done|]. split; [|done].
    destruct (Nat.le_gt_cases i0 i) as [?|Hlt]; [done|].
    by destruct (Hmin i m Hlt).
  - by destruct (re_search_none closing s Hcl E i m).
Qed.

Lemma re_search_absent (closing : Z) (s : pystr) :
  is_numeral closing = false ->
  (forall i m, ~ label_at closing s i m) -> re_search closing s = None.
Proof.
  intros Hcl Hno. destruct (re_search closing s) as [m|] eqn:E; [|done].
  destruct (re_search_some closing s m Hcl E) as (i & Hi & _). by destruct (Hno i m).
Qed.

(** X1. When the text holds a match of the article pattern, the label is
    the leftmost such match, wherever a chapter pattern may stand. *)
Theorem label_is_leftmost_article (content : pystr) (i : nat) (m : pystr) :
  label_at TIAO content i m ->
  exists i0, (i0 <= i)%nat /\
             label_at TIAO content i0 (extract_article_title content) /\
             no_label_before TIAO content i0.
Proof.
  intros Hm. unfold extract_article_title.
  destruct (re_search_found TIAO content i m numeral_TIAO Hm)
    as (i0 & m0 & -> & Hle & Hi0 & Hmin).
  by exists i0.
Qed.

Lemma label_is_leftmost_article_witness :
  label_at TIAO ex_both 5 [DI; 21313; 22235; TIAO] /\
  exists i0, (i0 <= 5)%nat /\
             label_at TIAO ex_both i0 (extract_article_title ex_both) /\
             no_label_before TIAO ex_both i0.
Proof.
  assert (H : label_at TIAO ex_both 5 [DI; 21313; 22235; TIAO]).
  { split.
    - exists [21313; 22235]. split; [done|]. split; [by repeat constructor|done].
    - by exists (lit "y"). }
  split; [exact H|].
  exact (label_is_leftmost_article ex_both 5 [DI; 21313; 22235; TIAO] H).
Defined.

(** X2. When the text holds no match of the article pattern but one of the
    chapter pattern, the label is the leftmost match of the chapter
    pattern. *)
Theorem label_falls_back_to_chapter (content : pystr) (i : nat) (m : pystr) :
  (forall j m', ~ label_at TIAO content j m') ->
  label_at ZHANG content i m ->
  exists i0, (i0 <= i)%nat /\
             label_at ZHANG content i0 (extract_article_title content) /\
             no_label_before ZHANG content i0.
Proof.
  intros Hno Hm. unfold extract_article_title.
  rewrite (re_search_absent TIAO content numeral_TIAO Hno).
  destruct (re_search_found ZHANG content i m numeral_ZHANG Hm)
    as (i0 & m0 & -> & Hle & Hi0 & Hmin).
  by exists i0.
Qed.

Lemma label_falls_back_to_chapter_witness :
  (forall j m', ~ label_at TIAO ex_chapter_only j m') /\
  label_at ZHANG ex_chapter_only 4 [DI; 20108; ZHANG] /\
  exists i0, (i0 <= 4)%nat /\
             label_at ZHANG ex_chapter_only i0 (extract_article_title ex_chapter_only) /\
             no_label_before ZHANG ex_chapter_only i0.
Proof.
  assert (H1 : forall j m', ~ label_at TIAO ex_chapter_only j m')
    by (apply (re_search_none TIAO ex_chapter_only numeral_TIAO); by vm_compute).
  assert (H2 : label_at ZHANG ex_chapter_only 4 [DI; 20108; ZHANG]).
  { split.
    - exists [20108]. split; [done|]. split; [by repeat constructor|done].
    - by exists []. }
  split; [exact H1|]. split; [exact H2|].
  exact (label_falls_back_to_chapter ex_chapter_only 4 [DI; 20108; ZHANG] H1 H2).
Defined.

(** X3. When the text holds no match of either pattern, the label is the
    text itself if it has at most 30 code points, and otherwise its first
    30 code points followed by three dots, 33 code points in all. *)
Theorem label_falls_back_to_text (content : pystr) :
  (forall j m', ~ label_at TIAO content j m') ->
  (forall j m', ~ label_at ZHANG content j m') ->
  (len content <= 30 -> extract_article_title content = content) /\
  (30 < len content ->
   extract_article_title content = take 30 content ++ lit "..." /\
   len (extract_article_title content) = 33).
Proof.
  intros Hno1 Hno2. unfold extract_article_title.
  rewrite (re_search_absent TIAO content numeral_TIAO Hno1).
  rewrite (re_search_absent ZHANG content numeral_ZHANG Hno2).
  destruct (Z.ltb_spec 30 (len content)) as [Hlt|Hle]; (split; [intros H|intros H]);
    try lia; [|done].
  rewrite py_slice_prefix by lia. split; [done|].
  rewrite len_app. unfold len in *. rewrite length_take.
  change (Z.to_nat 30) with 30%nat. change (length (lit "...")) with 3%nat. lia.
Qed.

Lemma label_falls_back_to_text_witness :
  (forall j m', ~ label_at TIAO ex_plain j m') /\
  (forall j m', ~ label_at ZHANG ex_plain j m') /\
  (len ex_plain <= 30 -> extract_article_title ex_plain = ex_plain) /\
  (30 < len ex_plain ->
   extract_article_title ex_plain = take 30 ex_plain ++ lit "..." /\
   len (extract_article_title ex_plain) = 33).
Proof.
  assert (H1 : forall j m', ~ label_at TIAO ex_plain j m')
    by (apply (re_search_none TIAO ex_plain numeral_TIAO); by vm_compute).
  assert (H2 : forall j m', ~ label_at ZHANG ex_plain j m')
    by (apply (re_search_none ZHANG ex_plain numeral_ZHANG); by vm_compute).
  split; [exact H1|]. split; [exact H2|].
  exact (label_falls_back_to_text ex_plain H1 H2).
Defined.

(** ** Units and marker lines *)

Lemma alter_content_head (f : pystr -> pystr) (i : nat) (l : list item) :
  (fun it => (i_type it, i_page it)) <$> alter (set_content f) i l
  = (fun it => (i_type it, i_page it)) <$> l.
Proof.
  revert i. induction l as [|x l IH]; intros [|i]; simpl; try done.
  f_equal. apply IH.
Qed.

Lemma fold_lines_heads (ls : list (Z * pystr)) :
  forall st,
    (fun it => (i_type it, i_page it)) <$> articles (fold_left step_line ls st)
    = ((fun it => (i_type it, i_page it)) <$> articles st)
      ++ (unit_head <$> marker_lines ls).
Proof.
  unfold marker_lines.
  induction ls as [|pl ls IH]; intros st; cbn [fold_left].
  - by rewrite app_nil_r.
  - rewrite IH, filter_cons. unfold step_line at 1. rewrite process_line_cases.
    rewrite (is_marker_cases (strip pl.2)).
    destruct (is_chapter_line (strip pl.2)) eqn:Ech.
    + rewrite decide_True by done. cbn [articles].
      rewrite fmap_app, <- app_assoc. f_equal. simpl. f_equal.
      unfold unit_head. by rewrite Ech.
    + destruct (is_article_line (strip pl.2)) eqn:Ear.
      * rewrite decide_True by done. cbn [articles].
        rewrite fmap_app, <- app_assoc. f_equal. simpl. f_equal.
        unfold unit_head. by rewrite Ech.
      * rewrite decide_False by done.
        destruct (current_article st), (strip pl.2); simpl; try done.
        by rewrite alter_content_head.
Qed.

(** X4. The structurer gives one unit per marker line, in reading order:
    a chapter unit for a line with the chapter glyph, an article unit for
    any other marker line, each on the page of its line. *)
Theorem units_follow_marker_lines (pages : list pystr) :
  (fun it => (i_type it, i_page it)) <$> articles (process_pages init_state 0 pages)
  = unit_head <$> marker_lines (doc_lines 0 pages).
Proof. rewrite process_pages_lines, fold_lines_heads. done. Qed.

Lemma doc_lines_pages (pages : list pystr) :
  forall n,
    Forall (fun p => n + 1 <= p <= n + Z.of_nat (length pages)) (doc_lines n pages).*1 /\
    StronglySorted Z.le (doc_lines n pages).*1.
Proof.
  induction pages as [|text rest IH]; intros n; cbn [doc_lines].
  - split; constructor.
  - destruct (IH (n + 1)) as [Hall Hs]. rewrite fmap_app.
    assert (Hhead : Forall (fun p => p = n + 1)
              (match strip text with
               | [] => []
               | _ :: _ => map (fun raw => (n + 1, raw)) (split NEWLINE text)
               end).*1).
    { destruct (strip text); [constructor|].
      generalize (split NEWLINE text). intros ls.
      induction ls; simpl; by constructor. }
    split.
    + apply Forall_app. split.
      * eapply Forall_impl; [exact Hhead|]. simpl. intros p ->. lia.
      * eapply Forall_impl; [exact Hall|]. simpl. intros p ?. lia.
    + apply StronglySorted_app. split; [|split; [|done]].
      * intros x1 x2 H1 H2.
        pose proof (proj1 (Forall_forall _ _) Hhead x1 H1) as ->.
        pose proof (proj1 (Forall_forall _ _) Hall x2 H2). simpl in *. lia.
      * clear -Hhead. induction Hhead as [|x l Hx Hl IH]; constructor; [done|].
        eapply Forall_impl; [exact Hl|]. simpl. intros p ->. lia.
Qed.

Lemma filter_fst_sorted {B} (P : Z * B -> Prop) `{!forall x, Decision (P x)}
  (l : list (Z * B)) :
  StronglySorted Z.le l.*1 -> StronglySorted Z.le (filter P l).*1.
Proof.
  induction l as [|x l IH]; intros Hs; [constructor|].
  rewrite fmap_cons in Hs. apply StronglySorted_cons in Hs as [Hx Hs].
  rewrite filter_cons.
  destruct (decide (P x)); [|by apply IH]. rewrite fmap_cons.
  apply StronglySorted_cons. split; [|by apply IH].
  rewrite Forall_fmap in Hx |- *. apply Forall_forall.
  intros y Hy%list_elem_of_filter.
  apply (proj1 (Forall_forall _ _) Hx y). tauto.
Qed.

(** X5. Page numbers of the units are 1-based, do not exceed the number of
    pages, and never decrease along the content list. *)
Theorem unit_pages_ordered (pages : list pystr) :
  Forall (fun p => 1 <= p <= Z.of_nat (length pages))
         (i_page <$> articles (process_pages init_state 0 pages)) /\
  StronglySorted Z.le (i_page <$> articles (process_pages init_state 0 pages)).
Proof.
  assert (i_page <$> articles (process_pages init_state 0 pages)
          = (marker_lines (doc_lines 0 pages)).*1) as ->.
  { transitivity (snd <$> ((fun it => (i_type it, i_page it))
                             <$> articles (process_pages init_state 0 pages))).
    - by rewrite <- list_fmap_compose.
    - rewrite process_pages_lines, fold_lines_heads. simpl.
      rewrite <- list_fmap_compose. done. }
  destruct (doc_lines_pages pages 0) as [Hall Hs]. split.
  - apply Forall_fmap, Forall_forall. intros pl Hpl%list_elem_of_filter.
    apply Forall_fmap in Hall.
    apply (proj1 (Forall_forall _ _) Hall pl). tauto.
  - by apply filter_fst_sorted.
Qed.

(** X6. Lines before the first marker line leave no trace: the units are
    those the lines from the first marker on give. *)
Theorem text_before_first_marker_dropped (pages : list pystr)
  (pre rest : list (Z * pystr)) :
  doc_lines 0 pages = pre ++ rest ->
  Forall (fun pl => is_marker (strip pl.2) = false) pre ->
  process_pages init_state 0 pages = fold_left step_line rest init_state.
Proof.
  intros Hlines Hpre.
  by rewrite process_pages_lines, Hlines, fold_left_app, (fold_body_none pre init_state Hpre).
Qed.

Lemma text_before_first_marker_dropped_witness :
  doc_lines 0 [ex_line_b; ex_line_a] = [(1, ex_line_b)] ++ [(2, ex_line_a)] /\
  Forall (fun pl => is_marker (strip pl.2) = false) [(1, ex_line_b)] /\
  process_pages init_state 0 [ex_line_b; ex_line_a]
  = fold_left step_line [(2, ex_line_a)] init_state.
Proof.
  assert (H1 : doc_lines 0 [ex_line_b; ex_line_a] = [(1, ex_line_b)] ++ [(2, ex_line_a)])
    by (by vm_compute).
  assert (H2 : Forall (fun pl => is_marker (strip pl.2) = false) [(1, ex_line_b)])
    by (repeat constructor).
  split; [exact H1|]. split; [exact H2|].
  exact (text_before_first_marker_dropped [ex_line_b; ex_line_a]
           [(1, ex_line_b)] [(2, ex_line_a)] H1 H2).
Defined.

(** ** Title and year from the file name *)

Lemma split_absent (sep : Z) (t : pystr) : sep ∉ t -> split sep t = [t].
Proof.
  induction t as [|c t IH]; simpl; [done|]. intros Hn.
  apply not_elem_of_cons in Hn as [Hc Ht].
  destruct (Z.eqb_spec c sep); [congruence|]. by rewrite IH.
Qed.

Lemma split_first (sep : Z) (t rest : pystr) :
  sep ∉ t -> split sep (t ++ sep :: rest) = t :: split sep rest.
Proof.
  induction t as [|c t IH]; simpl; intros Hn.
  - by rewrite Z.eqb_refl.
  - apply not_elem_of_cons in Hn as [Hc Ht].
    destruct (Z.eqb_spec c sep); [congruence|]. by rewrite IH.
Qed.

Lemma rfind_char_absent (c : Z) (s : pystr) : c ∉ s -> rfind_char c s = None.
Proof.
  induction s as [|b s IH]; simpl; [done|]. intros Hn.
  apply not_elem_of_cons in Hn as [Hc Hs]. rewrite IH by done.
  destruct (Z.eqb_spec b c); [congruence|done].
Qed.

Lemma rfind_char_last (c : Z) (a e : pystr) :
  c ∉ e -> rfind_char c (a ++ c :: e) = Some (length a).
Proof.
  intros He. induction a as [|b a IH]; simpl.
  - by rewrite rfind_char_absent, Z.eqb_refl.
  - by rewrite IH.
Qed.

Lemma splitext_root_ext (r e : pystr) :
  46 ∉ e -> (exists x, x ∈ r /\ x <> 46) -> splitext_root (r ++ 46 :: e) = r.
Proof.
  intros He (x & Hx & Hne). unfold splitext_root.
  rewrite rfind_char_last by done. rewrite take_app_length.
  destruct (forallb (Z.eqb 46) r) eqn:E; [|done].
  rewrite forallb_forall in E. apply list_elem_of_In, E, Z.eqb_eq in Hx. congruence.
Qed.

Lemma splitext_root_elem (x : Z) (p : pystr) : x ∈ splitext_root p -> x ∈ p.
Proof.
  unfold splitext_root. destruct (rfind_char 46 p) as [d|]; [|done].
  destruct (forallb (Z.eqb 46) (take d p)); [done|].
  intros H. by apply (subseteq_take d p).
Qed.

(** The fields of a record the structurer returns. *)
Lemma extract_fields (now_year : Z) (filename : pystr) (pages : list pystr)
  (last_modified : pystr) (d : law) :
  extract_pdf_content now_year filename (Opened pages last_modified) = Some d ->
  d !! "title"
    = Some (JStr (default UNKNOWN_LAW (split UNDERSCORE (splitext_root filename) !! 0%nat))) /\
  d !! "year"
    = Some (match split UNDERSCORE (splitext_root filename) !! 1%nat with
            | Some y => JStr y
            | None => JInt now_year
            end) /\
  d !! "filename" = Some (JStr filename) /\
  d !! "content" = Some (JContent (articles (process_pages init_state 0 pages))) /\
  articles (process_pages init_state 0 pages) <> [] /\
  d !! "total_pages" = Some (JInt (Z.of_nat (length pages))) /\
  d !! "last_modified" = Some (JStr last_modified).
Proof.
  unfold extract_pdf_content.
  destruct (articles (process_pages init_state 0 pages)) as [|a arts] eqn:E; [done|].
  intros [= <-].
  repeat split; try done; by rewrite ?lookup_insert_ne, lookup_insert_eq by done.
Qed.

(** X7. For a file named title, underscore, year, dot, extension, a record
    the structurer returns carries that title and that year as strings,
    the file name as it is, and the number of pages. *)
Theorem title_and_year_from_filename (now_year : Z) (t y e filename : pystr)
  (pages : list pystr) (last_modified : pystr) (d : law) :
  filename = t ++ [UNDERSCORE] ++ y ++ [46] ++ e ->
  UNDERSCORE ∉ t -> UNDERSCORE ∉ y -> 46 ∉ e ->
  extract_pdf_content now_year filename (Opened pages last_modified) = Some d ->
  d !! "title" = Some (JStr t) /\
  d !! "year" = Some (JStr y) /\
  d !! "filename" = Some (JStr filename) /\
  d !! "total_pages" = Some (JInt (Z.of_nat (length pages))).
Proof.
  intros -> Ht Hy He Hd.
  destruct (extract_fields _ _ _ _ _ Hd) as (Htitle & Hyear & Hname & _ & _ & Hn & _).
  assert (Hroot : splitext_root (t ++ [UNDERSCORE] ++ y ++ [46] ++ e)
                  = t ++ UNDERSCORE :: y).
  { replace (t ++ [UNDERSCORE] ++ y ++ [46] ++ e) with ((t ++ UNDERSCORE :: y) ++ 46 :: e)
      by (by rewrite <- app_assoc).
    apply splitext_root_ext; [done|]. exists UNDERSCORE. split; [|done].
    apply elem_of_app. right. by left. }
  rewrite Hroot, split_first, (split_absent UNDERSCORE y) in Htitle, Hyear by done.
  done.
Qed.

Lemma title_and_year_from_filename_witness :
  ex_filename = [21009; 27861] ++ [UNDERSCORE] ++ lit "1997" ++ [46] ++ lit "docx" /\
  extract_pdf_content 2026 ex_filename (Opened [ex_page] (lit "2024-05-01")) = Some ex_law /\
  ex_law !! "title" = Some (JStr [21009; 27861]) /\
  ex_law !! "year" = Some (JStr (lit "1997")) /\
  ex_law !! "filename" = Some (JStr ex_filename) /\
  ex_law !! "total_pages" = Some (JInt (Z.of_nat (length [ex_page]))).
Proof.
  assert (H1 : ex_filename
               = [21009; 27861] ++ [UNDERSCORE] ++ lit "1997" ++ [46] ++ lit "docx")
    by (by vm_compute).
  assert (H2 : extract_pdf_content 2026 ex_filename (Opened [ex_page] (lit "2024-05-01"))
               = Some ex_law) by (by vm_compute).
  assert (H3 : UNDERSCORE ∉ [21009; 27861]) by not_elem.
  assert (H4 : UNDERSCORE ∉ lit "1997") by not_elem.
  assert (H5 : 46 ∉ lit "docx") by not_elem.
  split; [exact H1|]. split; [exact H2|].
  exact (title_and_year_from_filename 2026 [21009; 27861] (lit "1997") (lit "docx")
           ex_filename [ex_page] (lit "2024-05-01") ex_law H1 H3 H4 H5 H2).
Defined.

(** X8. For a file name without an underscore the title is the name
    without its extension and the year is the current year, an integer. *)
Theorem year_defaults_to_now (now_year : Z) (filename : pystr)
  (pages : list pystr) (last_modified : pystr) (d : law) :
  UNDERSCORE ∉ filename ->
  extract_pdf_content now_year filename (Opened pages last_modified) = Some d ->
  d !! "title" = Some (JStr (splitext_root filename)) /\
  d !! "year" = Some (JInt now_year).
Proof.
  intros Hn Hd.
  destruct (extract_fields _ _ _ _ _ Hd) as (Htitle & Hyear & _).
  assert (Hs : split UNDERSCORE (splitext_root filename) = [splitext_root filename]).
  { apply split_absent. intros H. by apply Hn, splitext_root_elem. }
  rewrite Hs in Htitle, Hyear. done.
Qed.

Lemma year_defaults_to_now_witness :
  (UNDERSCORE ∉ lit "civil.code.pdf") /\
  extract_pdf_content 2026 (lit "civil.code.pdf") (Opened [ex_page] (lit "2024-05-01"))
    = Some (<["title" := JStr (lit "civil.code")]>
            (<["year" := JInt 2026]> (<["filename" := JStr (lit "civil.code.pdf")]> ex_law))) /\
  (<["title" := JStr (lit "civil.code")]>
   (<["year" := JInt 2026]> (<["filename" := JStr (lit "civil.code.pdf")]> ex_law)))
    !! "title" = Some (JStr (splitext_root (lit "civil.code.pdf"))) /\
  (<["title" := JStr (lit "civil.code")]>
   (<["year" := JInt 2026]> (<["filename" := JStr (lit "civil.code.pdf")]> ex_law)))
    !! "year" = Some (JInt 2026).
Proof.
  assert (H1 : UNDERSCORE ∉ lit "civil.code.pdf")
    by not_elem.
  assert (H2 : extract_pdf_content 2026 (lit "civil.code.pdf")
                 (Opened [ex_page] (lit "2024-05-01"))
               = Some (<["title" := JStr (lit "civil.code")]>
                       (<["year" := JInt 2026]>
                       (<["filename" := JStr (lit "civil.code.pdf")]> ex_law))))
    by (by vm_compute).
  split; [exact H1|]. split; [exact H2|].
  exact (year_defaults_to_now 2026 (lit "civil.code.pdf") [ex_page] (lit "2024-05-01")
           _ H1 H2).
Defined.

(** ** What a build leaves in the index *)

Section BuildFacts.
Variable lower : pystr -> pystr.
Variable now_year : Z.

(** The three ways an entry can go. *)
Lemma entry_cases (file : pystr * source) :
  (accepted lower file.1 = false /\ indexed lower now_year file = None /\
   ~ rejected lower now_year file) \/
  (accepted lower file.1 = true /\ is_Some (indexed lower now_year file) /\
   ~ rejected lower now_year file) \/
  (accepted lower file.1 = true /\ indexed lower now_year file = None /\
   rejected lower now_year file).
Proof.
  unfold indexed, rejected. destruct (accepted lower file.1) eqn:Ea.
  - destruct (extract_pdf_content now_year file.1 file.2) eqn:Ee.
    + right. left. split; [done|]. split; [done|]. intros [_ ?]. congruence.
    + right. right. done.
  - left. split; [done|]. split; [done|]. intros [? _]. congruence.
Qed.

Lemma build_step_closed (acc : list law * list pystr) (file : pystr * source) :
  build_step lower now_year acc file
  = (acc.1 ++ option_list (indexed lower now_year file),
     acc.2 ++ if decide (rejected lower now_year file) then [file.1] else []).
Proof.
  destruct (entry_cases file) as [(Ha & Hi & Hr)|[(Ha & [d Hi] & Hr)|(Ha & Hi & Hr)]];
    rewrite Hi; [rewrite decide_False by done|rewrite decide_False by done
                |rewrite decide_True by done];
    unfold indexed in Hi; rewrite Ha in Hi;
    destruct acc as [a b], file as [filename src]; unfold build_step;
    cbn [fst snd] in *; rewrite Ha, ?Hi; simpl; by rewrite ?app_nil_r.
Qed.

Lemma build_fold_closed (files : list (pystr * source)) :
  forall acc,
    fold_left (build_step lower now_year) files acc
    = (acc.1 ++ omap (indexed lower now_year) files,
       acc.2 ++ (filter (rejected lower now_year) files).*1).
Proof.
  induction files as [|file files IH]; intros acc; cbn [fold_left].
  - simpl. rewrite !app_nil_r. by destruct acc.
  - rewrite IH, build_step_closed, filter_cons. cbn [fst snd omap list_omap].
    destruct (indexed lower now_year file), (decide (rejected lower now_year file));
      simpl; by rewrite <- !app_assoc.
Qed.

Lemma indexed_rejected_count (files : list (pystr * source)) :
  (length (omap (indexed lower now_year) files)
   + length (filter (rejected lower now_year) files)
   = length (filter (fun file => accepted lower file.1 = true) files))%nat.
Proof.
  induction files as [|file files IH]; [done|].
  rewrite !filter_cons. cbn [omap list_omap].
  destruct (entry_cases file) as [(Ha & Hi & Hr)|[(Ha & [d Hi] & Hr)|(Ha & Hi & Hr)]];
    rewrite Hi.
  - rewrite decide_False by done. rewrite decide_False by congruence. done.
  - rewrite decide_False by done. rewrite decide_True by done. simpl. by rewrite <- IH.
  - rewrite decide_True by done. rewrite decide_True by done. simpl. rewrite <- IH. lia.
Qed.

(** X9. A build over an existing directory writes an artifact and returns
    its laws. The laws are the records of the entries of accepted name the
    structurer gives a record for, in listing order; the invalid files are
    the other entries of accepted name, in listing order; entries of any
    other name are in neither list; and [total_count] is the number of
    laws. *)
Theorem build_index_partitions (now : pystr) (files : list (pystr * source)) :
  exists art,
    build_index lower now_year now (Some files) = (laws art, Some art) /\
    laws art = omap (indexed lower now_year) files /\
    invalid_files art = (filter (rejected lower now_year) files).*1 /\
    total_count art = Z.of_nat (length (laws art)) /\
    (length (laws art) + length (invalid_files art)
     = length (filter (fun file => accepted lower file.1 = true) files))%nat.
Proof.
  unfold build_index. rewrite build_fold_closed. cbn [fst snd app].
  eexists (IndexArtifact _ _ _ _ _). cbn [laws invalid_files total_count].
  split; [reflexivity|]. split; [done|]. split; [done|]. split; [done|].
  rewrite length_fmap. apply indexed_rejected_count.
Qed.

Lemma process_no_pages_nonempty (pages : list pystr) :
  articles (process_pages init_state 0 pages) <> [] -> 1 <= Z.of_nat (length pages).
Proof. destruct pages; [done|]. simpl. lia. Qed.

Lemma extract_well_formed (filename : pystr) (src : source) (d : law) :
  extract_pdf_content now_year filename src = Some d -> well_formed d.
Proof.
  destruct src as [|pages last_modified]; [done|]. intros Hd.
  destruct (extract_fields _ _ _ _ _ Hd) as (Ht & Hy & Hf & Hc & Hne & Hn & _).
  eexists _, _, _, _. split; [exact Ht|]. split; [by rewrite Hy|].
  split; [exact Hf|]. split; [exact Hc|]. split; [done|]. split; [exact Hn|].
  by apply process_no_pages_nonempty.
Qed.

Lemma indexed_well_formed (files : list (pystr * source)) :
  Forall well_formed (omap (indexed lower now_year) files).
Proof.
  apply Forall_forall. intros d (file & Hfile & Hd)%list_elem_of_omap.
  unfold indexed in Hd. destruct (accepted lower file.1); [|done].
  by apply extract_well_formed in Hd.
Qed.

Lemma build_index_returned (now : pystr) (dir : option (list (pystr * source))) :
  (build_index lower now_year now dir).1
  = match dir with
    | Some files => omap (indexed lower now_year) files
    | None => []
    end.
Proof.
  destruct dir as [files|]; [|done].
  unfold build_index. by rewrite build_fold_closed.
Qed.

(** X10. Every record a build returns, and so every record of the artifact
    it writes, has a string title, a year, a string file name, a content
    list that is not empty and a page count of at least 1. *)
Theorem built_laws_well_formed (now : pystr) (dir : option (list (pystr * source))) :
  Forall well_formed (build_index lower now_year now dir).1 /\
  forall art, (build_index lower now_year now dir).2 = Some art ->
              Forall well_formed (laws art).
Proof.
  destruct dir as [files|]; [|split; [constructor|done]].
  unfold build_index. rewrite build_fold_closed. cbn [fst snd app].
  pose proof (indexed_well_formed files) as H.
  split; [done|]. by intros art [= <-].
Qed.

End BuildFacts.

(** ** Which documents a search returns *)

Section ResultFacts.
Variable lower : pystr -> pystr.

(** What stands behind a result of the loop body. *)
Lemma search_law_inv (fuel : nat) (keyword law_type : pystr) (d : law)
  (r : search_result) :
  search_law lower fuel keyword law_type d = Returned (Some r) ->
  (law_type = lit "all" \/
   exists s, d !! "title" = Some (JStr s) /\ lower s = lower law_type) /\
  exists c items ma,
    d !! "content" = Some c /\ content_items c = Returned items /\
    group_units lower fuel (lower keyword) items [] = Returned ma /\ ma <> [] /\
    d !! "title" = Some (sr_title r) /\
    d !! "year" = Some (sr_year r) /\
    d !! "filename" = Some (sr_filename r) /\
    sr_total_pages r = default (JInt 1) (d !! "total_pages") /\
    sr_matched_pages r = map (page_of keyword) ma /\
    sr_total_matches r = foldr Z.add 0 (map mp_match_count (map (page_of keyword) ma)).
Proof.
  unfold search_law. intros (skip & Hskip & H)%bind_returned.
  destruct skip; [done|].
  apply bind_returned in H as (c & Hc & H).
  apply bind_returned in H as (items & Hitems & H).
  apply bind_returned in H as (ma & Hma & H).
  destruct ma as [|kv ma]; [done|]. cbn [map] in H.
  apply bind_returned in H as (t & Ht & H).
  apply bind_returned in H as (y & Hy & H).
  apply bind_returned in H as (f & Hf & H).
  injection H as <-. unfold getitem in *.
  destruct (d !! "content") eqn:Ec; [injection Hc as ->|done].
  destruct (d !! "title") as [t'|] eqn:Et; [injection Ht as ->|done].
  destruct (d !! "year") eqn:Ey; [injection Hy as ->|done].
  destruct (d !! "filename") eqn:Efn; [injection Hf as ->|done].
  split.
  - destruct (bool_decide (law_type <> lit "all")) eqn:Eb.
    + right. unfold title_differs, getitem in Hskip. rewrite Et in Hskip. simpl in Hskip.
      destruct t as [s| |]; [|done|done]. injection Hskip as Hs.
      apply bool_decide_eq_false in Hs. exists s. split; [done|].
      by destruct (decide (lower s = lower law_type)).
    + left. apply bool_decide_eq_false in Eb.
      by destruct (decide (law_type = lit "all")).
  - exists c, items, (kv :: ma). by repeat split.
Qed.

(** Units without the keyword leave the dict as it is. *)
Lemma group_units_no_match (kwl : pystr) (fuel : nat) (items : list item) (d0 : odict) :
  Forall (fun it => str_in kwl (lower (i_content it)) = false) items ->
  group_units lower fuel kwl items d0 = Returned d0.
Proof.
  induction 1 as [|it items Hit Hall IH]; simpl; [done|].
  unfold group_unit. by rewrite Hit.
Qed.

Lemma Exists_str_in_dec (kwl : pystr) (items : list item) :
  Exists (fun it => str_in kwl (lower (i_content it)) = true) items \/
  Forall (fun it => str_in kwl (lower (i_content it)) = false) items.
Proof.
  induction items as [|it items [IH|IH]]; [by right| |].
  - left. by right.
  - destruct (str_in kwl (lower (i_content it))) eqn:E; [left; by left|].
    right. by constructor.
Qed.

(** X12. A document with a string title and its other fields in place is
    in the result exactly when it passes the type filter (the type is
    "all", or equals the title up to case) and one of its units contains
    the keyword up to case. *)
Theorem document_found_iff (fuel : nat) (keyword law_type title : pystr)
  (d : law) (items : list item) :
  lower keyword <> [] ->
  d !! "title" = Some (JStr title) ->
  is_Some (d !! "year") -> is_Some (d !! "filename") ->
  d !! "content" = Some (JContent items) ->
  Forall (fun it => (length (lower (i_content it)) < fuel)%nat) items ->
  exists o,
    search_law lower fuel keyword law_type d = Returned o /\
    (is_Some o <->
     (law_type = lit "all" \/ lower title = lower law_type) /\
     Exists (fun it => str_in (lower keyword) (lower (i_content it)) = true) items).
Proof.
  intros Hkw Ht [y Hy] [f Hf] Hc Hfuel. unfold search_law.
  assert (Hskip : (if bool_decide (law_type <> lit "all")
                   then title_differs lower law_type d else Returned false)
                  = Returned (bool_decide (law_type <> lit "all")
                              && bool_decide (lower title <> lower law_type))).
  { unfold title_differs, getitem. rewrite Ht. by destruct (bool_decide _). }
  rewrite Hskip. cbn [bind].
  destruct (bool_decide (law_type <> lit "all")
            && bool_decide (lower title <> lower law_type)) eqn:Eskip.
  { exists None. split; [done|]. split; [by intros [? ?]|]. intros [[Hall|Heq] _].
    - apply andb_true_iff in Eskip as [H1%bool_decide_eq_true _]. done.
    - apply andb_true_iff in Eskip as [_ H2%bool_decide_eq_true]. done. }
  assert (Hpass : law_type = lit "all" \/ lower title = lower law_type).
  { apply andb_false_iff in Eskip as [H%bool_decide_eq_false|H%bool_decide_eq_false].
    - left. by destruct (decide (law_type = lit "all")).
    - right. by destruct (decide (lower title = lower law_type)). }
  unfold getitem. rewrite Hc. cbn [bind content_items].
  destruct (Exists_str_in_dec (lower keyword) items) as [Hex|Hno].
  - destruct (group_units_length lower (lower keyword) fuel items Hkw Hfuel [])
      as (ma & -> & _ & Hpos).
    specialize (Hpos Hex). destruct ma as [|kv ma]; [simpl in Hpos; lia|].
    cbn [bind map]. rewrite Ht, Hy, Hf. cbn [bind]. eexists. split; [reflexivity|].
    split; [done|]. by intros _.
  - rewrite group_units_no_match by done. cbn [bind map].
    exists None. split; [done|]. split; [by intros [? ?]|]. intros [_ Hex].
    apply Exists_exists in Hex as (it & Hin & Hit).
    apply (proj1 (Forall_forall _ _) Hno) in Hin. congruence.
Qed.

End ResultFacts.

Lemma document_found_iff_witness :
  py_lower THEFT <> [] /\
  exists o,
    search_law py_lower 20 THEFT [21009; 27861] ex_law = Returned o /\
    (is_Some o <->
     ([21009; 27861] = lit "all" \/ py_lower [21009; 27861] = py_lower [21009; 27861]) /\
     Exists (fun it => str_in (py_lower THEFT) (py_lower (i_content it)) = true)
       [Item chapter ex_chapter 1;
        Item article (ex_article1 ++ SPACE) 1;
        Item article (ex_article2 ++ SPACE) 1]).
Proof.
  assert (H1 : py_lower THEFT <> []) by (vm_compute; discriminate).
  split; [exact H1|].
  apply (document_found_iff py_lower 20 THEFT [21009; 27861] [21009; 27861] ex_law _ H1).
  - by vm_compute.
  - vm_compute. by eexists.
  - vm_compute. by eexists.
  - by vm_compute.
  - repeat constructor; vm_compute; lia.
Defined.

(** ** Searching what a build returned *)

Section Composition.
Variable lower : pystr -> pystr.

Lemma fuel_for_items (items : list item) :
  exists fuel0, forall fuel, (fuel0 <= fuel)%nat ->
    Forall (fun it => (length (lower (i_content it)) < fuel)%nat) items.
Proof.
  induction items as [|it items [f0 IH]].
  - exists 0%nat. constructor.
  - exists (max f0 (S (length (lower (i_content it))))). intros fuel Hf.
    constructor; [lia|]. apply IH. lia.
Qed.

Lemma fuel_for_laws (data_laws : list law) :
  exists fuel0, forall fuel, (fuel0 <= fuel)%nat ->
    Forall (enough_fuel lower fuel) data_laws.
Proof.
  induction data_laws as [|d rest [f0 IH]].
  - exists 0%nat. constructor.
  - destruct (d !! "content") as [[s|n|items]|] eqn:E.
    1,2,4: exists f0; intros fuel Hf; constructor; [|by apply IH];
           intros items Hitems; congruence.
    destruct (fuel_for_items items) as [f1 H1].
    exists (max f0 f1). intros fuel Hf. constructor; [|apply IH; lia].
    intros items' Hitems. rewrite E in Hitems. injection Hitems as <-. apply H1. lia.
Qed.

Lemma search_law_returns (fuel : nat) (keyword law_type : pystr) (d : law) :
  lower keyword <> [] -> well_formed d -> enough_fuel lower fuel d ->
  exists o, search_law lower fuel keyword law_type d = Returned o.
Proof.
  intros Hkw (title & filename & arts & n & Ht & [y Hy] & Hf & Hc & _ & _) Hfuel.
  unfold search_law, title_differs, getitem. rewrite Ht, Hc, Hy, Hf.
  destruct (bool_decide (law_type <> lit "all")); cbn [bind].
  - destruct (bool_decide (lower title <> lower law_type)); [by eexists|].
    cbn [content_items bind].
    destruct (group_units_total lower (lower keyword) fuel arts Hkw (Hfuel arts Hc) [])
      as (ma & ->).
    cbn [bind]. destruct (map _ ma); by eexists.
  - cbn [content_items bind].
    destruct (group_units_total lower (lower keyword) fuel arts Hkw (Hfuel arts Hc) [])
      as (ma & ->).
    cbn [bind]. destruct (map _ ma); by eexists.
Qed.

Lemma collect_returns (fuel : nat) (keyword law_type : pystr) (data_laws : list law) :
  lower keyword <> [] ->
  Forall well_formed data_laws -> Forall (enough_fuel lower fuel) data_laws ->
  forall results, exists res,
    collect lower fuel keyword law_type data_laws results = Returned res.
Proof.
  intros Hkw Hwf. induction Hwf as [|d rest Hd Hwf IH]; intros Hfuel results; simpl.
  - by eexists.
  - apply Forall_cons in Hfuel as [Hfd Hfuel].
    destruct (search_law_returns fuel keyword law_type d Hkw Hd Hfd) as (o & ->).
    cbn [bind]. by apply IH.
Qed.

(** X11. A search over the laws a build returned never raises: for a
    keyword whose lower-cased form is not empty it returns a result
    sequence as soon as the fuel is large enough. *)
Theorem search_built_index_returns (now_year : Z) (now : pystr)
  (dir : option (list (pystr * source))) (keyword law_type : pystr) :
  lower keyword <> [] ->
  exists fuel0, forall fuel, (fuel0 <= fuel)%nat ->
    exists results,
      search lower fuel keyword law_type (build_index lower now_year now dir).1
      = Returned results.
Proof.
  intros Hkw. rewrite build_index_returned.
  set (data_laws := match dir with
                    | Some files => omap (indexed lower now_year) files
                    | None => []
                    end).
  assert (Hwf : Forall well_formed data_laws).
  { unfold data_laws. destruct dir; [apply indexed_well_formed|constructor]. }
  destruct (fuel_for_laws data_laws) as [fuel0 Hfuel0].
  exists fuel0. intros fuel Hfuel. unfold search.
  destruct (collect_returns fuel keyword law_type data_laws Hkw Hwf (Hfuel0 fuel Hfuel) [])
    as (res & ->).
  cbn [bind]. destruct res; by eexists.
Qed.

End Composition.

Lemma search_built_index_returns_witness :
  py_lower THEFT <> [] /\
  exists fuel0, forall fuel, (fuel0 <= fuel)%nat ->
    exists results,
      search py_lower fuel THEFT (lit "all")
        (build_index py_lower 2026 (lit "2026-11-03 10:00:00")
           (Some (ex_dir_pre ++ (lit "bad.pdf", ExtractionError) :: ex_dir_post))).1
      = Returned results.
Proof.
  assert (H1 : py_lower THEFT <> []) by (vm_compute; discriminate).
  split; [exact H1|].
  exact (search_built_index_returns py_lower 2026 (lit "2026-11-03 10:00:00")
           (Some (ex_dir_pre ++ (lit "bad.pdf", ExtractionError) :: ex_dir_post))
           THEFT (lit "all") H1).
Defined.

(** ** The type filter and the match counts *)

Lemma find_from_str_in (sub s : pystr) (i : nat) :
  str_in sub s = true -> is_Some (find_from sub s i).
Proof.
  revert i. induction s as [|b s IH]; intros i; simpl.
  - rewrite orb_false_r. intros ->. by eexists.
  - destruct (starts_with sub (b :: s)); [by eexists|]. simpl. apply IH.
Qed.

Lemma str_in_find_hit (sub s : pystr) : str_in sub s = true -> find s sub 0 <> -1.
Proof.
  intros H. unfold find. simpl.
  destruct (Z.ltb_spec (len s) 0) as [Hl|_]; [pose proof (len_nonneg s); lia|].
  change (find_from sub (drop (Z.to_nat 0) s) (Z.to_nat 0)) with (find_from sub s 0).
  destruct (find_from_str_in sub s 0 H) as [j ->]. lia.
Qed.

Lemma od_alter_app_absent (f : entry -> entry) (k : pystr) (d d' : odict) :
  k ∉ d.*1 -> od_alter f k (d ++ d') = d ++ od_alter f k d'.
Proof.
  induction d as [|[k' v] d IH]; simpl; [done|]. intros Hn.
  apply not_elem_of_cons in Hn as [Hk Hd].
  rewrite decide_False by done. by rewrite IH.
Qed.

Lemma od_alter_matches (f : entry -> entry) (k : pystr) (d : odict) :
  (forall e, e_matches (f e) <> []) ->
  Forall (fun kv => e_matches kv.2 <> []) d ->
  Forall (fun kv => e_matches kv.2 <> []) (od_alter f k d).
Proof.
  intros Hf. induction 1 as [|[k' v] d Hv Hd IH]; simpl; [constructor|].
  destruct (decide (k' = k)); constructor; try done. apply Hf.
Qed.

Lemma od_init_alter_matches (f : entry -> entry) (k : pystr) (v : entry) (d : odict) :
  (forall e, e_matches (f e) <> []) ->
  Forall (fun kv => e_matches kv.2 <> []) d ->
  Forall (fun kv => e_matches kv.2 <> []) (od_alter f k (od_init k v d)).
Proof.
  intros Hf Hd. unfold od_init. destruct (od_mem k d) eqn:E.
  - by apply od_alter_matches.
  - unfold od_mem in E. apply bool_decide_eq_false in E.
    rewrite od_alter_app_absent by done. simpl. rewrite decide_True by done.
    apply Forall_app. split; [done|]. constructor; [apply Hf|constructor].
Qed.

Lemma sum_counts_lower_bound (pages : list matched_page) :
  Forall (fun p => 1 <= mp_match_count p) pages ->
  Z.of_nat (length pages) <= foldr Z.add 0 (map mp_match_count pages).
Proof. induction 1; simpl; lia. Qed.

Section FilterAndCounts.
Variable lower : pystr -> pystr.

(** Every entry of [matched_articles] has a match. *)
Lemma group_units_matches (kwl : pystr) (fuel : nat) (items : list item) :
  kwl <> [] ->
  Forall (fun it => (length (lower (i_content it)) < fuel)%nat) items ->
  forall d0 d,
    Forall (fun kv => e_matches kv.2 <> []) d0 ->
    group_units lower fuel kwl items d0 = Returned d ->
    Forall (fun kv => e_matches kv.2 <> []) d.
Proof.
  intros Hkw Hall. induction Hall as [|it items Hit Hall IH]; intros d0 d Hd0; simpl.
  - by intros [= <-].
  - destruct (group_unit_spec lower kwl it d0 fuel Hkw Hit) as (spans & -> & Hfs).
    cbn [bind]. apply IH.
    destruct (str_in kwl (lower (i_content it))) eqn:Ein; [|done].
    apply od_init_alter_matches; [|done].
    intros e. unfold extend_matches. simpl.
    inversion Hfs as [? Hmiss|]; subst.
    + by apply str_in_find_hit in Ein.
    + by destruct (e_matches e).
Qed.

(** X13. Each result of the loop body has at least one matched page, each
    page counts at least one match, and [total_matches] is the sum of the
    counts, so it is at least the number of pages. *)
Theorem match_counts_positive (fuel : nat) (keyword law_type : pystr) (d : law) :
  lower keyword <> [] -> enough_fuel lower fuel d ->
  match search_law lower fuel keyword law_type d with
  | Diverged => False
  | Raised _ | Returned None => True
  | Returned (Some r) =>
      sr_matched_pages r <> [] /\
      Forall (fun p => 1 <= mp_match_count p) (sr_matched_pages r) /\
      sr_total_matches r = foldr Z.add 0 (map mp_match_count (sr_matched_pages r)) /\
      Z.of_nat (length (sr_matched_pages r)) <= sr_total_matches r
  end.
Proof.
  intros Hkw Hfuel.
  pose proof (search_law_not_diverged lower fuel keyword law_type d Hkw Hfuel) as Hnd.
  destruct (search_law lower fuel keyword law_type d) as [[r|]| |] eqn:E; try done.
  apply search_law_inv in E
    as (_ & c & items & ma & Hc & Hitems & Hma & Hne & _ & _ & _ & _ & Hp & Ht).
  assert (Hall : Forall (fun it => (length (lower (i_content it)) < fuel)%nat) items).
  { destruct c as [[|? ?]| |l]; simpl in Hitems; try done.
    - injection Hitems as <-. constructor.
    - injection Hitems as <-. by apply Hfuel. }
  pose proof (group_units_matches (lower keyword) fuel items Hkw Hall [] ma
                (Forall_nil_2 _) Hma) as Hm.
  assert (Hcounts : Forall (fun p => 1 <= mp_match_count p) (sr_matched_pages r)).
  { rewrite Hp. apply Forall_forall. intros p Hin%list_elem_of_In.
    apply in_map_iff in Hin as (kv & <- & Hkv%list_elem_of_In).
    apply (proj1 (Forall_forall _ _) Hm) in Hkv. simpl.
    destruct (e_matches kv.2); [done|]. simpl. lia. }
  split; [rewrite Hp; by destruct ma|]. split; [done|].
  rewrite Ht, <- Hp. split; [done|]. by apply sum_counts_lower_bound.
Qed.

(** X14. With a type other than "all", every result of a search is of a
    document whose title is a string equal to the type up to case. *)
Theorem type_filter_exact (fuel : nat) (keyword law_type : pystr)
  (data_laws : list law) :
  lower keyword <> [] ->
  Forall (enough_fuel lower fuel) data_laws ->
  law_type <> lit "all" ->
  match search lower fuel keyword law_type data_laws with
  | Diverged => False
  | Raised _ => True
  | Returned results =>
      Forall (fun r => exists s, sr_title r = JStr s /\ lower s = lower law_type) results
  end.
Proof.
  intros Hkw Hfuel Hty. unfold search.
  pose proof (collect_not_diverged lower fuel keyword law_type data_laws Hkw Hfuel []) as Hnd.
  destruct (collect lower fuel keyword law_type data_laws []) as [res| |] eqn:E;
    [|done|done].
  apply collect_spec in E as (found & Hall & ->). simpl.
  assert (Hres : Forall (fun r => exists s, sr_title r = JStr s /\ lower s = lower law_type)
                   (omap id found)).
  { apply Forall_forall. intros r (o & Ho & Hr)%list_elem_of_omap. simpl in Hr. subst o.
    apply list_elem_of_lookup in Ho as [i Hi].
    destruct (Forall2_lookup_r _ _ _ _ _ Hall Hi) as (d & _ & Hd).
    apply search_law_inv in Hd as ([?|(s & Hs & Heq)] & _ & _ & _ & _ & _ & _ & _ & Ht & _);
      [done|].
    exists s. split; [congruence|done]. }
  destruct (omap id found) eqn:Ef; [constructor|]. cbn [bind].
  rewrite <- Ef in *. by rewrite sorted_desc_perm.
Qed.

End FilterAndCounts.

Lemma match_counts_positive_witness :
  py_lower THEFT <> [] /\ enough_fuel py_lower 20 ex_law /\
  match search_law py_lower 20 THEFT (lit "all") ex_law with
  | Diverged => False
  | Raised _ | Returned None => True
  | Returned (Some r) =>
      sr_matched_pages r <> [] /\
      Forall (fun p => 1 <= mp_match_count p) (sr_matched_pages r) /\
      sr_total_matches r = foldr Z.add 0 (map mp_match_count (sr_matched_pages r)) /\
      Z.of_nat (length (sr_matched_pages r)) <= sr_total_matches r
  end.
Proof.
  assert (H1 : py_lower THEFT <> []) by (vm_compute; discriminate).
  assert (H2 : enough_fuel py_lower 20 ex_law).
  { intros items H. vm_compute in H. injection H as <-.
    repeat constructor; vm_compute; lia. }
  split; [exact H1|]. split; [exact H2|].
  exact (match_counts_positive py_lower 20 THEFT (lit "all") ex_law H1 H2).
Defined.

Lemma type_filter_exact_witness :
  py_lower THEFT <> [] /\
  Forall (enough_fuel py_lower 20) [ex_law; <["title" := JStr (lit "Civil")]> ex_law] /\
  lit "CIVIL" <> lit "all" /\
  match search py_lower 20 THEFT (lit "CIVIL")
          [ex_law; <["title" := JStr (lit "Civil")]> ex_law] with
  | Diverged => False
  | Raised _ => True
  | Returned results =>
      Forall (fun r => exists s, sr_title r = JStr s /\ py_lower s = py_lower (lit "CIVIL"))
             results
  end.
Proof.
  assert (H1 : py_lower THEFT <> []) by (vm_compute; discriminate).
  assert (H2 : Forall (enough_fuel py_lower 20)
                 [ex_law; <["title" := JStr (lit "Civil")]> ex_law]).
  { repeat constructor; intros items H; vm_compute in H; injection H as <-;
      repeat constructor; vm_compute; lia. }
  assert (H3 : lit "CIVIL" <> lit "all") by (vm_compute; discriminate).
  split; [exact H1|]. split; [exact H2|]. split; [exact H3|].
  exact (type_filter_exact py_lower 20 THEFT (lit "CIVIL") _ H1 H2 H3).
Defined.

(** With the type "CIVIL" only the document titled "Civil" is returned. *)
Example search_by_type :
  (fun o => match o with
            | Returned rs => Some (map sr_title rs)
            | _ => None
            end)
    (search py_lower 20 THEFT (lit "CIVIL")
       [ex_law; <["title" := JStr (lit "Civil")]> ex_law])
  = Some [JStr (lit "Civil")].
Proof. by vm_compute. Qed.

(** ** The keyword up to case *)

Lemma sorted_desc_map {A} (key : A -> Z) (f : A -> A) (l : list A) :
  (forall x, key (f x) = key x) ->
  sorted_desc key (map f l) = map f (sorted_desc key l).
Proof.
  intros Hf. induction l as [|x l IH]; simpl; [done|]. rewrite IH.
  generalize (sorted_desc key l). intros s.
  induction s as [|y s IHs]; simpl; [done|].
  rewrite !Hf. destruct (key y <=? key x); simpl; [done|]. by rewrite IHs.
Qed.

Section KeywordCase.
Variable lower : pystr -> pystr.

Lemma page_of_term (k1 k2 : pystr) (ma : odict) :
  map (page_of k2) ma
  = map (fun p => MatchedPage (mp_title p) (mp_snippet p) k2 (mp_match_count p))
        (map (page_of k1) ma).
Proof. induction ma as [|kv ma IH]; simpl; [done|]. by rewrite IH. Qed.

Lemma page_of_counts (k1 k2 : pystr) (ma : odict) :
  map mp_match_count (map (page_of k2) ma) = map mp_match_count (map (page_of k1) ma).
Proof. induction ma as [|kv ma IH]; simpl; [done|]. by rewrite IH. Qed.

Lemma search_law_term (fuel : nat) (k1 k2 law_type : pystr) (d : law) :
  lower k1 = lower k2 ->
  search_law lower fuel k2 law_type d
  = outcome_map (option_map (with_term k2)) (search_law lower fuel k1 law_type d).
Proof.
  intros Hk. unfold search_law. rewrite <- Hk.
  destruct (if bool_decide (law_type <> lit "all")
            then title_differs lower law_type d else Returned false) as [[|]| |];
    cbn [bind outcome_map option_map]; try done.
  destruct (getitem d "content") as [c| |]; cbn [bind outcome_map]; try done.
  destruct (content_items c) as [items| |]; cbn [bind outcome_map]; try done.
  destruct (group_units lower fuel (lower k1) items []) as [ma| |];
    cbn [bind outcome_map]; try done.
  destruct ma as [|kv ma]; [done|].
  change (map (page_of k2) (kv :: ma)) with (page_of k2 kv :: map (page_of k2) ma).
  change (map (page_of k1) (kv :: ma)) with (page_of k1 kv :: map (page_of k1) ma).
  cbv iota.
  destruct (getitem d "title") as [t| |]; cbn [bind outcome_map]; try done.
  destruct (getitem d "year") as [y| |]; cbn [bind outcome_map]; try done.
  destruct (getitem d "filename") as [f| |]; cbn [bind outcome_map option_map]; try done.
  unfold with_term. cbn [sr_title sr_year sr_filename sr_total_pages sr_matched_pages
                         sr_total_matches].
  do 2 f_equal.
  change (page_of k2 kv :: map (page_of k2) ma) with (map (page_of k2) (kv :: ma)).
  change (page_of k1 kv :: map (page_of k1) ma) with (map (page_of k1) (kv :: ma)).
  by rewrite (page_of_counts k1 k2), (page_of_term k1 k2).
Qed.

Lemma collect_term (fuel : nat) (k1 k2 law_type : pystr) (data_laws : list law) :
  lower k1 = lower k2 ->
  forall results,
    collect lower fuel k2 law_type data_laws (map (with_term k2) results)
    = outcome_map (map (with_term k2)) (collect lower fuel k1 law_type data_laws results).
Proof.
  intros Hk. induction data_laws as [|d rest IH]; intros results; simpl; [done|].
  rewrite (search_law_term fuel k1 k2 law_type d Hk).
  destruct (search_law lower fuel k1 law_type d) as [[r|]| |];
    cbn [bind outcome_map option_map]; try done.
  rewrite <- IH. by rewrite map_app.
Qed.

(** X15. Two keywords with the same lower-cased form give the same
    outcome: the same documents in the same order with the same labels,
    snippets and counts, only the matched term being each search's own
    keyword. *)
Theorem keyword_case_insensitive (fuel : nat) (k1 k2 law_type : pystr)
  (data_laws : list law) :
  lower k1 = lower k2 ->
  search lower fuel k2 law_type data_laws
  = outcome_map (map (with_term k2)) (search lower fuel k1 law_type data_laws).
Proof.
  intros Hk. unfold search.
  pose proof (collect_term fuel k1 k2 law_type data_laws Hk []) as H. simpl in H.
  rewrite H.
  destruct (collect lower fuel k1 law_type data_laws []) as [res| |];
    cbn [bind outcome_map]; try done.
  destruct res as [|r res]; [done|].
  change (map (with_term k2) (r :: res)) with (with_term k2 r :: map (with_term k2) res).
  cbv iota. cbn [outcome_map]. f_equal.
  change (with_term k2 r :: map (with_term k2) res) with (map (with_term k2) (r :: res)).
  by apply sorted_desc_map.
Qed.

End KeywordCase.

Lemma keyword_case_insensitive_witness :
  py_lower (lit "abc") = py_lower (lit "aBC") /\
  search py_lower 20 (lit "aBC") (lit "all")
    [<["content" := JContent [ex_dup1; ex_dup2]]> ex_law]
  = outcome_map (map (with_term (lit "aBC")))
      (search py_lower 20 (lit "abc") (lit "all")
         [<["content" := JContent [ex_dup1; ex_dup2]]> ex_law]).
Proof.
  assert (H : py_lower (lit "abc") = py_lower (lit "aBC")) by (by vm_compute).
  split; [exact H|].
  exact (keyword_case_insensitive py_lower 20 (lit "abc") (lit "aBC") (lit "all") _ H).
Defined.

(** ** The length of a snippet *)

Lemma len_py_slice_inner (s : pystr) (a b : Z) :
  0 <= a -> a <= b -> b <= len s -> len (py_slice s (Some a) (Some b)) = b - a.
Proof.
  intros Ha Hab Hb. rewrite py_slice_inner by done.
  unfold len in *. rewrite length_take, length_drop. lia.
Qed.

Lemma marker_lengths : len HL_OPEN + len HL_CLOSE = 31.
Proof. done. Qed.

Lemma highlight_fold_length (text : pystr) (ds : list span) :
  forall (b : Z) (w : pystr),
    0 <= b -> b <= len text ->
    Forall (fun m => 0 <= m_start m /\ m_start m < m_end m /\ m_end m <= b) ds ->
    StronglySorted (fun a c => m_end c <= m_start a) ds ->
    len (fold_left highlight_one ds (take (Z.to_nat b) text ++ w))
    = b + len w + 31 * Z.of_nat (length ds).
Proof.
  induction ds as [|m ds IH]; intros b w Hb0 Hb Hall Hsorted; cbn [fold_left].
  - rewrite len_app. unfold len in *. rewrite length_take. simpl. lia.
  - apply Forall_cons in Hall as [(H0 & Hse & Heb) Hall].
    apply StronglySorted_inv in Hsorted as [Hsorted Hm].
    rewrite highlight_one_step by lia.
    rewrite IH; [|lia|lia| |done].
    + rewrite !len_app, !len_py_slice_inner by lia.
      pose proof marker_lengths. cbn [length]. lia.
    + apply Forall_forall. intros c Hc.
      pose proof (proj1 (Forall_forall _ _) Hall c Hc) as (? & ? & ?).
      pose proof (proj1 (Forall_forall _ _) Hm c Hc). simpl in *. lia.
Qed.

(** X16. For spans over the text that are pairwise disjoint, the snippet is
    31 code points longer than the text for every span: the two halves of
    the marker are added and nothing of the text is lost. *)
Theorem highlight_length (text : pystr) (matches : list span) (keyword : pystr) :
  Forall (span_within text) matches ->
  ForallOrdPairs disjoint matches ->
  len (highlight_all_keywords text matches keyword)
  = len text + 31 * Z.of_nat (length matches).
Proof.
  intros Hw Hd. unfold highlight_all_keywords.
  assert (Htake : take (Z.to_nat (len text)) text = text)
    by (apply take_ge; unfold len; lia).
  pose proof (highlight_fold_length text (sorted_desc m_start matches) (len text) []) as H.
  rewrite app_nil_r, Htake in H.
  rewrite H.
  - rewrite (Permutation_length (sorted_desc_perm m_start matches)).
    unfold len at 2. simpl. lia.
  - apply len_nonneg.
  - lia.
  - rewrite sorted_desc_perm. eapply Forall_impl; [exact Hw|].
    intros m (? & ? & ?). lia.
  - apply (desc_chain text).
    + apply sorted_desc_sorted.
    + apply sorted_desc_pairs; [apply disjoint_sym|done].
    + by rewrite sorted_desc_perm.
Qed.

Lemma highlight_length_witness :
  Forall (span_within (i_content ex_dup2)) [Span 8 11; Span 0 3] /\
  ForallOrdPairs disjoint [Span 8 11; Span 0 3] /\
  len (highlight_all_keywords (i_content ex_dup2) [Span 8 11; Span 0 3] (lit "abc"))
  = len (i_content ex_dup2) + 31 * Z.of_nat (length [Span 8 11; Span 0 3]).
Proof.
  assert (H1 : Forall (span_within (i_content ex_dup2)) [Span 8 11; Span 0 3]).
  { repeat constructor; vm_compute; congruence. }
  assert (H2 : ForallOrdPairs disjoint [Span 8 11; Span 0 3]).
  { constructor; [|repeat constructor].
    constructor; [|constructor]. right. simpl. lia. }
  split; [exact H1|]. split; [exact H2|].
  exact (highlight_length (i_content ex_dup2) [Span 8 11; Span 0 3] (lit "abc") H1 H2).
Defined.

(** ** The type catalog *)

Lemma title_set_spec (data_laws : list law) :
  forall acc,
    match title_set data_laws acc with
    | Returned types =>
        forall k, k ∈ types <->
          k ∈ acc \/
          exists d t, d ∈ data_laws /\ d !! "title" = Some t /\ hashable t = Returned k
    | Raised e =>
        exists d, d ∈ data_laws /\
          (d !! "title" = None /\ e = KeyError "title" \/
           exists l, d !! "title" = Some (JContent l) /\ e = TypeError)
    | Diverged => False
    end.
Proof.
  induction data_laws as [|d rest IH]; intros acc; cbn [title_set].
  - intros k. split; [by left|]. intros [?|(d & t & Hd & _)]; [done|].
    by apply elem_of_nil in Hd.
  - unfold getitem. destruct (d !! "title") as [t|] eqn:Et; cbn [bind].
    + destruct (hashable t) as [k0|e0|] eqn:Eh; cbn [bind].
      * specialize (IH ({[k0]} ∪ acc)).
        destruct (title_set rest ({[k0]} ∪ acc)) as [types|e|]; [| |done].
        -- intros k. rewrite IH, elem_of_union, elem_of_singleton. split.
           ++ intros [[->|?]|(d' & t' & Hd' & Ht & Hk)].
              ** right. exists d, t. split; [by left|done].
              ** by left.
              ** right. exists d', t'. split; [by right|done].
           ++ intros [?|(d' & t' & [->|Hd']%elem_of_cons & Ht & Hk)].
              ** left. by right.
              ** left. left. congruence.
              ** right. by exists d', t'.
        -- destruct IH as (d' & Hd' & H). exists d'. split; [by right|done].
      * exists d. split; [by left|]. right.
        destruct t as [s|n|l]; simpl in Eh; [done|done|].
        injection Eh as <-. by exists l.
      * by destruct t.
    + exists d. split; [by left|]. by left.
Qed.


(** On the sample index the three documents share one title. *)
Example law_types_ex_index :
  get_law_types ex_index = Returned {[inl [21009; 27861]]}.
Proof. by vm_compute. Qed.

(** ** The index file and the routes *)

(** X18. When the index file is missing and the directory exists, the
    first search builds the index from the directory, writes it and
    searches its laws. From then on a search or a catalog call leaves the
    index as it is and works on those laws, whatever the directory has
    become. *)
Theorem index_built_once (lower : pystr -> pystr) (now_year : Z) (now : pystr)
  (fuel : nat) (keyword law_type : pystr) (fs : files)
  (listing : list (pystr * source)) :
  index_file fs = None -> pdf_dir fs = Some listing ->
  exists art,
    build_index lower now_year now (Some listing) = (laws art, Some art) /\
    search_io lower now_year now fuel keyword law_type fs
    = (Files (Some listing) (Some art), io_of (search lower fuel keyword law_type (laws art))) /\
    forall now_year' now' fuel' keyword' law_type' dir',
      search_io lower now_year' now' fuel' keyword' law_type' (Files dir' (Some art))
      = (Files dir' (Some art), io_of (search lower fuel' keyword' law_type' (laws art))) /\
      get_law_types_io lower now_year' now' (Files dir' (Some art))
      = (Files dir' (Some art), io_of (get_law_types (laws art))).
Proof.
  intros Hi Hd. destruct fs as [dir idx]. simpl in Hi, Hd. subst.
  destruct (build_index_partitions lower now_year now listing) as (art & Hb & _).
  exists art. split; [done|]. split.
  - unfold search_io, ensure_index, build_index_io. cbn [index_file pdf_dir].
    by rewrite Hb.
  - intros. split; reflexivity.
Qed.

Lemma index_built_once_witness :
  index_file (Files (Some ex_dir_pre) None) = None /\
  pdf_dir (Files (Some ex_dir_pre) None) = Some ex_dir_pre /\
  exists art,
    build_index py_lower 2026 (lit "2026-11-03 10:00:00") (Some ex_dir_pre)
      = (laws art, Some art) /\
    search_io py_lower 2026 (lit "2026-11-03 10:00:00") 20 THEFT (lit "all")
      (Files (Some ex_dir_pre) None)
    = (Files (Some ex_dir_pre) (Some art),
       io_of (search py_lower 20 THEFT (lit "all") (laws art))) /\
    forall now_year' now' fuel' keyword' law_type' dir',
      search_io py_lower now_year' now' fuel' keyword' law_type' (Files dir' (Some art))
      = (Files dir' (Some art), io_of (search py_lower fuel' keyword' law_type' (laws art))) /\
      get_law_types_io py_lower now_year' now' (Files dir' (Some art))
      = (Files dir' (Some art), io_of (get_law_types (laws art))).
Proof.
  split; [reflexivity|]. split; [reflexivity|].
  exact (index_built_once py_lower 2026 (lit "2026-11-03 10:00:00") 20 THEFT (lit "all")
           (Files (Some ex_dir_pre) None) ex_dir_pre eq_refl eq_refl).
Defined.

(** X19. When both the index file and the directory are missing, a search
    creates the directory and raises [FileNotFoundError], since the build
    returns before it writes; the next search finds the empty directory,
    writes an index without laws and returns no results. *)
Theorem missing_directory_fails_once (lower : pystr -> pystr) (now_year : Z) (now : pystr)
  (fuel : nat) (keyword law_type : pystr) (fs : files) :
  index_file fs = None -> pdf_dir fs = None ->
  search_io lower now_year now fuel keyword law_type fs
    = (Files (Some []) None, IoRaised FileNotFoundError) /\
  forall now_year' now' fuel' keyword' law_type',
    search_io lower now_year' now' fuel' keyword' law_type' (Files (Some []) None)
    = (Files (Some []) (Some (IndexArtifact now' 0 LOCAL_FILES [] [])), IoReturned []).
Proof.
  intros Hi Hd. destruct fs as [dir idx]. simpl in Hi, Hd. subst. split.
  - reflexivity.
  - intros. reflexivity.
Qed.

Lemma missing_directory_fails_once_witness :
  index_file (Files None None) = None /\ pdf_dir (Files None None) = None /\
  search_io py_lower 2026 (lit "2026-11-03 10:00:00") 20 THEFT (lit "all") (Files None None)
    = (Files (Some []) None, IoRaised FileNotFoundError) /\
  forall now_year' now' fuel' keyword' law_type',
    search_io py_lower now_year' now' fuel' keyword' law_type' (Files (Some []) None)
    = (Files (Some []) (Some (IndexArtifact now' 0 LOCAL_FILES [] [])), IoReturned []).
Proof.
  split; [reflexivity|]. split; [reflexivity|].
  exact (missing_directory_fails_once py_lower 2026 (lit "2026-11-03 10:00:00") 20 THEFT
           (lit "all") (Files None None) eq_refl eq_refl).
Defined.

Lemma search_empty_keyword (lower : pystr -> pystr) (fuel : nat) (law_type : pystr)
  (d : law) (rest : list law) (it : item) (items : list item) :
  lower [] = [] -> law_type = lit "all" ->
  d !! "content" = Some (JContent (it :: items)) ->
  search lower fuel [] law_type (d :: rest) = Diverged.
Proof.
  intros Hl -> Hc. unfold search, collect, search_law.
  rewrite bool_decide_eq_false_2 by (intros H; by apply H).
  unfold getitem. rewrite Hc. cbn [bind content_items group_units].
  by rewrite Hl, group_unit_empty.
Qed.

(** X20. The route [/api/search] gives no reply to a query whose [q] is
    absent, empty or white space only and whose [type] is absent or "all",
    when the first document of the index has a unit: the stripped keyword
    is empty and the search does not return. *)
Theorem blank_query_no_reply (lower : pystr -> pystr) (now_year : Z) (now : pystr)
  (fuel : nat) (q type : option pystr) (fs : files) (art : index_artifact)
  (d : law) (rest : list law) (it : item) (items : list item) :
  lower [] = [] ->
  strip (default [] q) = [] ->
  strip (default (lit "all") type) = lit "all" ->
  index_file fs = Some art -> laws art = d :: rest ->
  d !! "content" = Some (JContent (it :: items)) ->
  search_law_route lower now_year now fuel q type fs = (fs, NoReply).
Proof.
  intros Hl Hq Ht Hi Hlaws Hc.
  unfold search_law_route, search_io, ensure_index. rewrite Hq, Ht, Hi. cbn [index_file].
  rewrite Hi, Hlaws.
  by rewrite (search_empty_keyword lower fuel (lit "all") d rest it items Hl eq_refl Hc).
Qed.

Lemma blank_query_no_reply_witness :
  py_lower [] = [] /\
  strip (default [] (Some (lit "   "))) = [] /\
  strip (default (lit "all") None) = lit "all" /\
  search_law_route py_lower 2026 (lit "2026-11-03 10:00:00") 1000 (Some (lit "   ")) None
    ex_files
  = (ex_files, NoReply).
Proof.
  assert (H1 : py_lower [] = []) by reflexivity.
  assert (H2 : strip (default [] (Some (lit "   "))) = []) by (by vm_compute).
  assert (H3 : strip (default (lit "all") None) = lit "all") by (by vm_compute).
  split; [exact H1|]. split; [exact H2|]. split; [exact H3|].
  exact (blank_query_no_reply py_lower 2026 (lit "2026-11-03 10:00:00") 1000
           (Some (lit "   ")) None ex_files _ ex_law [] _ _ H1 H2 H3 eq_refl eq_refl
           ex_law_content).
Defined.

(** ** Snippets of a search *)

Lemma StronglySorted_reverse {A} (R : A -> A -> Prop) (l : list A) :
  StronglySorted R l -> StronglySorted (flip R) (reverse l).
Proof.
  induction 1 as [|x l Hl IH Hx]; [constructor|].
  rewrite reverse_cons. apply StronglySorted_app. split; [|split; [done|]].
  - intros x1 x2 H1 ->%list_elem_of_singleton. rewrite elem_of_reverse in H1.
    unfold flip. by apply (proj1 (Forall_forall (R x) l) Hx x1).
  - repeat constructor.
Qed.

Lemma sorted_spans_disjoint (l : list span) :
  StronglySorted (fun a b => m_end a <= m_start b) l -> ForallOrdPairs disjoint l.
Proof.
  induction 1 as [|x l Hl IH Hx]; constructor; [|done].
  eapply Forall_impl; [exact Hx|]. intros y Hy. by left.
Qed.

(** On spans given in ascending order the fold of the highlighter is the
    text with these spans wrapped. *)
Lemma highlight_sorted_spans (text : pystr) (spans : list span) (keyword : pystr) :
  Forall (span_within text) spans ->
  StronglySorted (fun a b => m_end a <= m_start b) spans ->
  highlight_all_keywords text spans keyword = wrap_spans text 0 (len text) spans.
Proof.
  intros Hw Hs. unfold highlight_all_keywords.
  assert (Hchain : StronglySorted (fun a b => m_end b <= m_start a)
                     (sorted_desc m_start spans)).
  { apply (desc_chain text).
    - apply sorted_desc_sorted.
    - apply sorted_desc_pairs; [apply disjoint_sym|by apply sorted_spans_disjoint].
    - by rewrite sorted_desc_perm. }
  assert (Htake : take (Z.to_nat (len text)) text = text)
    by (apply take_ge; unfold len; lia).
  pose proof (highlight_fold text (sorted_desc m_start spans) (len text) []) as H.
  rewrite !app_nil_r, Htake in H. rewrite H; [|apply len_nonneg|lia| |done].
  - f_equal.
    apply (StronglySorted_unique_strong (fun a b => m_end a <= m_start b)); [| |done|].
    + intros x1 x2 H1 H2 H12 H21.
      pose proof (proj1 (Forall_forall _ _) Hw x2 H2) as (? & ? & ?).
      rewrite elem_of_reverse, sorted_desc_perm in H1.
      pose proof (proj1 (Forall_forall _ _) Hw x1 H1) as (? & ? & ?). lia.
    + by apply (StronglySorted_reverse _ _ Hchain).
    + by rewrite reverse_Permutation, sorted_desc_perm.
  - rewrite sorted_desc_perm. eapply Forall_impl; [exact Hw|].
    intros m (? & ? & ?). lia.
Qed.

Lemma od_get_elem (k : pystr) (e : entry) (d : odict) :
  od_get k d = Some e -> (k, e) ∈ d.
Proof.
  induction d as [|[k' v] d IH]; simpl; [done|].
  destruct (decide (k' = k)) as [->|]; [intros [= ->]; by left|].
  intros H. right. by apply IH.
Qed.

(** X21. Let lower-casing act code point by code point, and let a unit be
    the only one of the document that contains the keyword under its
    label. Then the document's pages hold one for that label whose snippet
    is the unit's own text with every recorded occurrence wrapped, whose
    count is the number of occurrences, and where each wrapped text is the
    keyword up to case. *)
Theorem snippet_wraps_occurrences (lc : Z -> Z) (keyword : pystr) (fuel : nat)
  (items : list item) (it : item) :
  map lc keyword <> [] ->
  Forall (fun u => (length (map lc (i_content u)) < fuel)%nat) items ->
  units_of_label (map lc) (map lc keyword) (extract_article_title (i_content it)) items
    = [it] ->
  exists d spans,
    group_units (map lc) fuel (map lc keyword) items [] = Returned d /\
    forward_scan (map lc (i_content it)) (map lc keyword) 0 spans /\
    MatchedPage (extract_article_title (i_content it))
      (wrap_spans (i_content it) 0 (len (i_content it)) spans)
      keyword (Z.of_nat (length spans))
    ∈ map (page_of keyword) d /\
    Forall (fun m => map lc (py_slice (i_content it) (Some (m_start m)) (Some (m_end m)))
                     = map lc keyword) spans.
Proof.
  intros Hkw Hfuel Hunit.
  destruct (group_units_get (map lc) (map lc keyword)
              (extract_article_title (i_content it)) fuel items Hkw Hfuel []
              (NoDup_nil_2)) as (d & spanss & Hrun & _ & Hf2 & Hget).
  rewrite Hunit in Hf2, Hget. simpl in Hget.
  apply Forall2_cons_inv_l in Hf2 as (spans & rest & Hfs & Hrest & ->).
  apply Forall2_nil_inv_l in Hrest as ->. simpl in Hget. rewrite app_nil_r in Hget.
  exists d, spans. split; [done|]. split; [done|].
  pose proof (spans_address_original_charwise lc _ _ _ Hkw Hfs) as Haddr.
  destruct (forward_scan_spans _ _ _ _ Hkw (Z.le_refl 0) Hfs)
    as (Hall & Hsorted & _).
  split.
  - apply od_get_elem, (list_elem_of_fmap_2 (page_of keyword)) in Hget.
    unfold page_of in Hget at 1. cbn [fst snd e_content e_matches] in Hget.
    rewrite highlight_sorted_spans in Hget; [done| |done].
    pose proof (len_pos _ Hkw) as Hpos.
    apply Forall_forall. intros m Hm.
    pose proof (proj1 (Forall_forall _ _) Hall m Hm) as (H0 & Hlen & _).
    pose proof (proj1 (Forall_forall _ _) Haddr m Hm) as (_ & Hend & _).
    unfold span_within. lia.
  - eapply Forall_impl; [exact Haddr|]. by intros m (_ & _ & ?).
Qed.

Lemma snippet_wraps_occurrences_witness :
  map ascii_lower THEFT <> [] /\
  units_of_label (map ascii_lower)
    (map ascii_lower THEFT)
    (extract_article_title (ex_article2 ++ SPACE))
    [Item chapter ex_chapter 1; Item article (ex_article1 ++ SPACE) 1;
     Item article (ex_article2 ++ SPACE) 1]
  = [Item article (ex_article2 ++ SPACE) 1] /\
  exists d spans,
    group_units (map ascii_lower) 20
      (map ascii_lower THEFT)
      [Item chapter ex_chapter 1; Item article (ex_article1 ++ SPACE) 1;
       Item article (ex_article2 ++ SPACE) 1] [] = Returned d /\
    forward_scan
      (map ascii_lower (ex_article2 ++ SPACE))
      (map ascii_lower THEFT) 0 spans /\
    MatchedPage (extract_article_title (ex_article2 ++ SPACE))
      (wrap_spans (ex_article2 ++ SPACE) 0 (len (ex_article2 ++ SPACE)) spans)
      THEFT (Z.of_nat (length spans))
    ∈ map (page_of THEFT) d /\
    Forall (fun m =>
              map ascii_lower
                (py_slice (ex_article2 ++ SPACE) (Some (m_start m)) (Some (m_end m)))
              = map ascii_lower THEFT)
           spans.
Proof.
  assert (H1 : map ascii_lower THEFT <> [])
    by (vm_compute; discriminate).
  assert (H2 : units_of_label (map ascii_lower)
                 (map ascii_lower THEFT)
                 (extract_article_title (ex_article2 ++ SPACE))
                 [Item chapter ex_chapter 1; Item article (ex_article1 ++ SPACE) 1;
                  Item article (ex_article2 ++ SPACE) 1]
               = [Item article (ex_article2 ++ SPACE) 1]) by (by vm_compute).
  split; [exact H1|]. split; [exact H2|].
  apply (snippet_wraps_occurrences
           ascii_lower THEFT 20
           _ (Item article (ex_article2 ++ SPACE) 1) H1); [|exact H2].
  repeat constructor; vm_compute; lia.
Defined.

(** ** The catalog of a built index, and a bound on the matches *)

(** X22. The catalog of the laws a build returned never raises: it is the
    set of the titles of these laws, all of them strings. *)
Theorem built_index_catalog (lower : pystr -> pystr) (now_year : Z) (now : pystr)
  (dir : option (list (pystr * source))) :
  exists types,
    get_law_types (build_index lower now_year now dir).1 = Returned types /\
    forall k, k ∈ types <->
      exists d title, d ∈ (build_index lower now_year now dir).1 /\
                      d !! "title" = Some (JStr title) /\ k = inl title.
Proof.
  rewrite build_index_returned.
  set (data_laws := match dir with
                    | Some files => omap (indexed lower now_year) files
                    | None => []
                    end).
  assert (Hwf : Forall well_formed data_laws).
  { unfold data_laws. destruct dir; [apply indexed_well_formed|constructor]. }
  unfold get_law_types. pose proof (title_set_spec data_laws ∅) as H.
  destruct (title_set data_laws ∅) as [types|e|]; [| |done].
  - exists types. split; [done|]. intros k. rewrite H. split.
    + intros [Hin|(d & t & Hd & Ht & Hk)]; [by apply not_elem_of_empty in Hin|].
      pose proof (proj1 (Forall_forall _ _) Hwf d Hd) as (title & _ & _ & _ & Ht' & _).
      rewrite Ht' in Ht. injection Ht as <-. injection Hk as <-. by exists d, title.
    + intros (d & title & Hd & Ht & ->). right. by exists d, (JStr title).
  - destruct H as (d & Hd & H).
    pose proof (proj1 (Forall_forall _ _) Hwf d Hd) as (title & _ & _ & _ & Ht' & _).
    destruct H as [[Hn _]|(l & Hl & _)]; congruence.
Qed.

Lemma forward_scan_bound (text kw : pystr) (start : Z) (spans : list span) :
  kw <> [] -> 0 <= start -> forward_scan text kw start spans ->
  Z.of_nat (length spans) * len kw <= Z.max 0 (len text - start).
Proof.
  intros Hkw Hs H. pose proof (len_pos kw Hkw) as Hpos.
  induction H as [start Hf|start rest Hf Hrest IH]; [simpl; lia|].
  destruct (find_hit text kw start Hs Hf) as (Hle & (_ & Hl & _) & _).
  specialize (IH ltac:(lia)). cbn [length]. lia.
Qed.

(** X23. The matches the scan of one unit records fit into the unit's
    lower-cased text side by side: their number times the length of the
    lower-cased keyword is at most the length of that text. *)
Theorem match_count_bounded (lower : pystr -> pystr) (keyword : pystr) (it : item)
  (fuel : nat) :
  lower keyword <> [] ->
  (length (lower (i_content it)) < fuel)%nat ->
  exists spans,
    group_unit lower fuel (lower keyword) [] it
    = Returned (if str_in (lower keyword) (lower (i_content it))
                then [(extract_article_title (i_content it),
                       Entry (extract_article_title (i_content it)) (i_content it) spans)]
                else []) /\
    Z.of_nat (length spans) * len (lower keyword) <= len (lower (i_content it)).
Proof.
  intros Hkw Hfuel.
  destruct (group_unit_spec lower (lower keyword) it [] fuel Hkw Hfuel) as (spans & -> & Hfs).
  exists spans. split.
  - destruct (str_in (lower keyword) (lower (i_content it))); [|done].
    unfold od_init, od_mem. simpl. rewrite decide_True by done. done.
  - pose proof (forward_scan_bound _ _ _ _ Hkw (Z.le_refl 0) Hfs).
    pose proof (len_nonneg (lower (i_content it))). lia.
Qed.

Lemma match_count_bounded_witness :
  py_lower (lit "aa") <> [] /\
  (length (py_lower (i_content (Item article (lit "aaaaa") 1))) < 6)%nat /\
  exists spans,
    group_unit py_lower 6 (py_lower (lit "aa")) [] (Item article (lit "aaaaa") 1)
    = Returned (if str_in (py_lower (lit "aa")) (py_lower (lit "aaaaa"))
                then [(extract_article_title (lit "aaaaa"),
                       Entry (extract_article_title (lit "aaaaa")) (lit "aaaaa") spans)]
                else []) /\
    Z.of_nat (length spans) * len (py_lower (lit "aa")) <= len (py_lower (lit "aaaaa")).
Proof.
  assert (H1 : py_lower (lit "aa") <> []) by (vm_compute; discriminate).
  assert (H2 : (length (py_lower (i_content (Item article (lit "aaaaa") 1))) < 6)%nat)
    by (vm_compute; lia).
  split; [exact H1|]. split; [exact H2|].
  exact (match_count_bounded py_lower (lit "aa") (Item article (lit "aaaaa") 1) 6 H1 H2).
Defined.
